(** * Coordinate converter: DMS parsing and formatting, EPSG resolution,
      automatic UTM labelling and the batch pipeline of [app.py].

    Conventions of the embedding.
    - A Python [str] is the list of its Unicode code points ([pystr]).
    - A Python [float] is an exact rational ([Q]): the arithmetic of
      [parse_dms] and [dd_to_dms] is exact, its IEEE rounding and the
      overflow of a text of several hundred digits are outside the model.
      An infinite float that a library hands to the pipeline is a cell value
      of its own ([VInf]); a missing value ([pd.NA], NaN, [None]) is [VNA].
    - A Python [int] is a [Z].
    - [raise ValueError(msg)] is the [Raise] result.
    - pandas, pyproj and utm are no part of the repository: the table
      operations that the pipeline uses are modelled, the parsers and
      projections of these packages are parameters. The zone number and the
      zone letter of [utm.from_latlon] decide the zone label, so they are
      written out the way the package computes them, its sums and
      quotients rounded to doubles ([Float64]). *)

From Stdlib Require Import ZArith NArith QArith Qround Qabs Qpower.
From Stdlib Require Import List String Ascii Bool Lia Lqa.
From Stdlib Require Import DecimalPos DecimalN.
Import ListNotations.

Open Scope Z_scope.

(** ** Python strings *)

Module Py.

Definition pystr := list N.

(** A literal of ASCII text. *)
Definition str (s : string) : pystr :=
  List.map N_of_ascii (list_ascii_of_string s).

Fixpoint str_eqb (a b : pystr) : bool :=
  match a, b with
  | [], [] => true
  | x :: a', y :: b' => N.eqb x y && str_eqb a' b'
  | _, _ => false
  end.

(** [c in s] for a one-character [c]. *)
Definition contains (c : N) (s : pystr) : bool := existsb (N.eqb c) s.

(** [str.isspace] of one code point, which is also the class [\s] of [re]
    on [str] patterns. *)
Definition is_space (c : N) : bool :=
  ((9 <=? c) && (c <=? 13) || (28 <=? c) && (c <=? 32)
   || (c =? 133) || (c =? 160) || (c =? 5760)
   || (8192 <=? c) && (c <=? 8202)
   || (c =? 8232) || (c =? 8233) || (c =? 8239) || (c =? 8287)
   || (c =? 12288))%N.

Definition is_digit (c : N) : bool := ((48 <=? c) && (c <=? 57))%N.

(** [str.upper] of one code point. ASCII letters are exact, and so are the
    code points whose upper case holds an ASCII letter. Every other code
    point is kept: its upper case is again outside ASCII and is no white
    space, and [parse_dms] looks at ASCII characters and white space only. *)
Definition upper_cp (c : N) : pystr :=
  (if (97 <=? c) && (c <=? 122) then [c - 32]
   else if c =? 223 then [83; 83]
   else if c =? 305 then [73]
   else if c =? 329 then [700; 78]
   else if c =? 383 then [83]
   else if c =? 496 then [74; 780]
   else if c =? 7830 then [72; 817]
   else if c =? 7831 then [84; 776]
   else if c =? 7832 then [87; 778]
   else if c =? 7833 then [89; 778]
   else if c =? 7834 then [65; 702]
   else if c =? 64256 then [70; 70]
   else if c =? 64257 then [70; 73]
   else if c =? 64258 then [70; 76]
   else if c =? 64259 then [70; 70; 73]
   else if c =? 64260 then [70; 70; 76]
   else if c =? 64261 then [83; 84]
   else if c =? 64262 then [83; 84]
   else [c])%N.

Definition upper (s : pystr) : pystr := flat_map upper_cp s.

(** [str.strip()] *)
Fixpoint lstrip (s : pystr) : pystr :=
  match s with
  | c :: s' => if is_space c then lstrip s' else s
  | [] => []
  end.

Definition rstrip (s : pystr) : pystr := rev (lstrip (rev s)).

Definition strip (s : pystr) : pystr := rstrip (lstrip s).

(** [s.startswith(p)], giving the rest of [s]. *)
Fixpoint strip_prefix (p s : pystr) : option pystr :=
  match p, s with
  | [], _ => Some s
  | x :: p', y :: s' => if N.eqb x y then strip_prefix p' s' else None
  | _ :: _, [] => None
  end.

(** [s.replace(old, new)] for a non-empty [old]: the occurrences are taken
    from the left and do not overlap. [skip] counts the characters of a
    matched occurrence that are still to be passed over. *)
Fixpoint replace_from (old new : pystr) (skip : nat) (s : pystr) : pystr :=
  match s with
  | [] => []
  | c :: s' =>
      match skip with
      | S k => replace_from old new k s'
      | O =>
          match strip_prefix old s with
          | Some _ => new ++ replace_from old new (List.length old - 1) s'
          | None => c :: replace_from old new O s'
          end
      end
  end.

Definition replace (old new s : pystr) : pystr := replace_from old new O s.

(** Decimal digits of a natural number, most significant first. *)
Fixpoint uint_cps (u : Decimal.uint) : pystr :=
  match u with
  | Decimal.Nil => []
  | Decimal.D0 u' => 48%N :: uint_cps u'
  | Decimal.D1 u' => 49%N :: uint_cps u'
  | Decimal.D2 u' => 50%N :: uint_cps u'
  | Decimal.D3 u' => 51%N :: uint_cps u'
  | Decimal.D4 u' => 52%N :: uint_cps u'
  | Decimal.D5 u' => 53%N :: uint_cps u'
  | Decimal.D6 u' => 54%N :: uint_cps u'
  | Decimal.D7 u' => 55%N :: uint_cps u'
  | Decimal.D8 u' => 56%N :: uint_cps u'
  | Decimal.D9 u' => 57%N :: uint_cps u'
  end.

Definition nat_digits (n : N) : pystr := uint_cps (N.to_uint n).

(** [str(z)] of an [int], which is also [f"{z}"]. *)
Definition int_to_str (z : Z) : pystr :=
  match z with
  | Zneg p => 45%N :: nat_digits (Npos p)
  | _ => nat_digits (Z.to_N z)
  end.

(** [f"{z:02d}"]: zero padding up to two characters, the sign counted. *)
Definition fmt_02d (z : Z) : pystr :=
  let s := int_to_str z in
  if (List.length s <? 2)%nat then 48%N :: s else s.

(** What a call gives: a value, or an exception with its message. *)
Inductive result (A : Type) : Type :=
| Return (a : A)
| Raise (msg : pystr).
Arguments Return {A} a.
Arguments Raise {A} msg.

(** Sequencing of calls that may raise. *)
Definition bind {A B} (r : result A) (k : A -> result B) : result B :=
  match r with
  | Return a => k a
  | Raise msg => Raise msg
  end.

Notation "x <- r ;; k" := (bind r (fun x => k))
  (at level 61, r at next level, right associativity).

End Py.


(** ** Datum and zone resolver: [get_input_epsg_code] *)

Module Resolver.
Import Py.

(** The two literal dictionaries of the DGN95 branch. *)
Definition epsg_map_dgn95_n : list (Z * pystr) :=
  [ (46, str "23846"); (47, str "23847"); (48, str "23848");
    (49, str "23849"); (50, str "23850"); (51, str "23851");
    (52, str "23852"); (53, str "23853"); (54, str "23854") ].

Definition epsg_map_dgn95_s : list (Z * pystr) :=
  [ (46, str "23896"); (47, str "23897"); (48, str "23898");
    (49, str "23899"); (50, str "23890");
    (51, str "23891"); (52, str "23892"); (53, str "23893");
    (54, str "23894") ].

(** [d[k]] guarded by [k in d]. *)
Fixpoint dict_get (k : Z) (d : list (Z * pystr)) : option pystr :=
  match d with
  | [] => None
  | (k', v) :: d' => if Z.eqb k k' then Some v else dict_get k d'
  end.

Definition get_input_epsg_code (zone_num : Z) (zone_hemi datum : pystr)
  : result pystr :=
  let zone_hemi := upper zone_hemi in
  if str_eqb datum (str "WGS84") then
    if negb ((1 <=? zone_num) && (zone_num <=? 60)) then
      Raise (str "Nomor zona UTM WGS84 harus antara 1 dan 60")
    else if str_eqb zone_hemi (str "S") then
      Return (str "327" ++ fmt_02d zone_num)
    else
      Return (str "326" ++ fmt_02d zone_num)
  else if str_eqb datum (str "DGN95") then
    if str_eqb zone_hemi (str "N") then
      match dict_get zone_num epsg_map_dgn95_n with
      | None =>
          Raise (str "Zona " ++ int_to_str zone_num
                 ++ str "N tidak memiliki mapping EPSG DGN95 yang valid.")
      | Some code => Return code
      end
    else
      match dict_get zone_num epsg_map_dgn95_s with
      | None =>
          Raise (str "Zona " ++ int_to_str zone_num
                 ++ str "S tidak memiliki mapping EPSG DGN95 yang valid.")
      | Some code => Return code
      end
  else
    Raise (str "Datum '" ++ datum ++ str "' tidak didukung.").

(** The vocabulary of the specification. *)
Inductive Datum := WGS84 | DGN95.
Inductive Hemisphere := North | South.

Definition datum_name (d : Datum) : pystr :=
  match d with WGS84 => str "WGS84" | DGN95 => str "DGN95" end.

Definition hemi_letter (h : Hemisphere) : pystr :=
  match h with North => str "N" | South => str "S" end.

Definition resolveEpsg (d : Datum) (z : Z) (h : Hemisphere) : result pystr :=
  get_input_epsg_code z (hemi_letter h) (datum_name d).

(** The fixed table of the specification for DGN95, as numbers. *)
Definition dgn95_table (h : Hemisphere) (z : Z) : Z :=
  match h with
  | North => 23800 + z
  | South =>
      if z =? 46 then 23896 else if z =? 47 then 23897
      else if z =? 48 then 23898 else if z =? 49 then 23899
      else if z =? 50 then 23890 else if z =? 51 then 23891
      else if z =? 52 then 23892 else if z =? 53 then 23893
      else 23894
  end.

Definition is_error {A} (r : result A) : Prop :=
  match r with Raise _ => True | Return _ => False end.

End Resolver.

(** ** Values and the messages shown to the user *)

(** [a < b] and [a <= b] on floats. *)
Definition Qltb (a b : Q) : bool := negb (Qle_bool b a).
Definition Qleb (a b : Q) : bool := Qle_bool a b.

(** What a cell of a table or an argument can hold: text, a finite
    number, an infinite one ([float('inf')] or its negative), or the missing
    value ([pd.NA], NaN, [None]). *)
Inductive pyval : Type :=
| VStr (s : Py.pystr)
| VFloat (q : Q)
| VInf (negative : bool)
| VNA.

(** A float as a library returns it. *)
Inductive pyfloat : Type :=
| Fin (q : Q)
| Inf (negative : bool)
| NaN.

(** [st.error] and [st.warning] only show a message; the calls are kept as
    a log next to the value. *)
Inductive message : Type :=
| StError (msg : Py.pystr)
| StWarning (msg : Py.pystr).

(** ** DMS parser: [parse_dms] *)

Module Dms.
Import Py.

Definition LU := str "LU".
Definition LS := str "LS".
Definition BT := str "BT".
Definition BB := str "BB".
Definition ch_N : N := 78.
Definition ch_S : N := 83.
Definition ch_E : N := 69.
Definition ch_W : N := 87.
Definition ch_dot : N := 46.
Definition ch_minus : N := 45.

(** Lines 28-34: upper case, strip, then the four pairs of replacements. *)
Definition normalize (dms_str : pystr) : pystr :=
  let s := strip (upper dms_str) in
  let s := replace LS [ch_S] (replace LU [ch_N] s) in
  let s := replace (str "SELATAN") [ch_S] (replace (str "UTARA") [ch_N] s) in
  let s := replace BB [ch_W] (replace BT [ch_E] s) in
  replace (str "BARAT") [ch_W] (replace (str "TIMUR") [ch_E] s).

(** The characters that [re.sub(r"[^0-9\s.-]", "", s)] keeps. *)
Definition kept (c : N) : bool :=
  is_digit c || is_space c || N.eqb c ch_dot || N.eqb c ch_minus.

Definition clean (s : pystr) : pystr := strip (filter kept s).

(** [re.split(r'\s+', s)]: [cur] is the token being read (reversed) and
    [in_sep] says that the previous character was white space. An empty
    text gives one empty token. *)
Fixpoint split_from (cur : pystr) (in_sep : bool) (s : pystr) : list pystr :=
  match s with
  | [] => [rev cur]
  | c :: s' =>
      if is_space c then
        if in_sep then split_from cur true s'
        else rev cur :: split_from [] true s'
      else split_from (c :: cur) false s'
  end.

Definition re_split_ws (s : pystr) : list pystr := split_from [] false s.

(** The leading digits of a text and what follows them. *)
Fixpoint span_digits (s : pystr) : pystr * pystr :=
  match s with
  | c :: s' =>
      if is_digit c then
        let (ds, rest) := span_digits s' in (c :: ds, rest)
      else ([], s)
  | [] => ([], [])
  end.

Definition digits_value (ds : pystr) : N :=
  fold_left (fun acc c => (10 * acc + (c - 48))%N) ds 0%N.

Fixpoint pow10 (n : nat) : positive :=
  match n with
  | O => 1%positive
  | S n' => (10 * pow10 n')%positive
  end.

(** The number that a sign, the digits before the dot and the digits after
    it denote. *)
Definition decimal_value (neg : bool) (ip fp : pystr) : Q :=
  let v := Z.of_N (digits_value (ip ++ fp)) in
  let q := Qmake v (pow10 (List.length fp)) in
  if neg then Qopp q else q.

(** [float(t)] for a token of the cleaned text, which holds digits, dots
    and minus signs only: an optional minus sign, then digits with at most
    one dot and at least one digit. [None] stands for the ValueError. *)
Definition float_of_token (t : pystr) : option Q :=
  let (neg, body) :=
    match t with
    | c :: b => if N.eqb c ch_minus then (true, b) else (false, t)
    | [] => (false, t)
    end in
  let (ip, rest) := span_digits body in
  match rest with
  | [] =>
      match ip with [] => None | _ => Some (decimal_value neg ip []) end
  | c :: rest' =>
      if N.eqb c ch_dot then
        let (fp, rest'') := span_digits rest' in
        match rest'', ip ++ fp with
        | [], _ :: _ => Some (decimal_value neg ip fp)
        | _, _ => None
        end
      else None
  end.

(** [repr(t)] of such a token. *)
Definition repr_token (t : pystr) : pystr := str "'" ++ t ++ str "'".

Definition py_float (t : pystr) : result Q :=
  match float_of_token t with
  | Some q => Return q
  | None => Raise (str "could not convert string to float: " ++ repr_token t)
  end.

(** [float(parts[i]) if len(parts) > i else 0] *)
Definition part_or_zero (parts : list pystr) (i : nat) : result Q :=
  match nth_error parts i with
  | Some t => py_float t
  | None => Return 0%Q
  end.

(** The body of the [try] block, lines 42-53, for the normalised text [s]
    and its cleaned form. *)
Definition parse_body (s s_cleaned : pystr) : result Q :=
  let parts := re_split_ws s_cleaned in
  deg <- part_or_zero parts 0 ;;
  mnt <- part_or_zero parts 1 ;;
  sec <- part_or_zero parts 2 ;;
  let dd := (Qabs deg + mnt / 60 + sec / 3600)%Q in
  let dd :=
    if contains ch_S s || contains ch_W s || Qltb deg 0
    then Qopp dd else dd in
  Return dd.

(** [parse_dms], with the messages it shows. *)
Definition parse_dms_log (dms_str : pyval) : pyval * list message :=
  match dms_str with
  | VStr text =>
      let s := normalize text in
      let is_lat := contains ch_N s || contains ch_S s in
      let is_lon := contains ch_E s || contains ch_W s in
      let s_cleaned := clean s in
      match parse_body s s_cleaned with
      | Return dd => (VFloat dd, [])
      | Raise e =>
          (VNA, [StError (str "Error parsing DMS '" ++ text
                          ++ str "': " ++ e)])
      end
  | _ => (VNA, [])
  end.

Definition parse_dms (dms_str : pyval) : pyval := fst (parse_dms_log dms_str).

(** The reading of the specification: the tokens are degree, minute and
    second, a missing one counts as 0, and every one that is present has to
    be a number. Tokens after the third are not looked at. *)
Definition token_values (parts : list pystr) : option (Q * Q * Q) :=
  match parts with
  | [] => Some (0, 0, 0)%Q
  | [d] =>
      match float_of_token d with
      | Some deg => Some (deg, 0, 0)%Q
      | None => None
      end
  | [d; m] =>
      match float_of_token d, float_of_token m with
      | Some deg, Some mnt => Some (deg, mnt, 0)%Q
      | _, _ => None
      end
  | d :: m :: s :: _ =>
      match float_of_token d, float_of_token m, float_of_token s with
      | Some deg, Some mnt, Some sec => Some (deg, mnt, sec)
      | _, _, _ => None
      end
  end.

(** [|deg| + min/60 + sec/3600], negated on request. *)
Definition dms_value (negated : bool) (deg mnt sec : Q) : Q :=
  let dd := (Qabs deg + mnt / 60 + sec / 3600)%Q in
  if negated then Qopp dd else dd.

(** The tokens of a text, as [parse_dms] sees them. *)
Definition tokens (text : pystr) : list pystr :=
  re_split_ws (clean (normalize text)).

(** The text names the southern or the western hemisphere. *)
Definition south_or_west (text : pystr) : bool :=
  contains ch_S (normalize text) || contains ch_W (normalize text).

End Dms.

(** ** DMS formatter: [dd_to_dms] *)

Module Fmt.
Import Py.

(** [int(x)] of a float: truncation towards zero. *)
Definition int_of_float (x : Q) : Z := Z.quot (Qnum x) (Zpos (Qden x)).

(** Rounding to the nearest integer, a tie going to the even one. *)
Definition round_half_even (x : Q) : Z :=
  let f := Qfloor x in
  match Qcompare (x - inject_Z f) (1 # 2) with
  | Lt => f
  | Gt => f + 1
  | Eq => if Z.even f then f else f + 1
  end.

(** [round(x, 4)] *)
Definition round4 (x : Q) : Q := Qmake (round_half_even (x * 10000)) 10000.

(** The four decimals of [k / 10000], [k] below 10000, without the zeros
    at the end; one 0 is kept when nothing else is left. *)
Fixpoint drop_zeros (rev_digits : list N) : list N :=
  match rev_digits with
  | 0%N :: r => drop_zeros r
  | _ => rev_digits
  end.

Definition frac_digits (k : N) : pystr :=
  let ds := [k / 1000; (k / 100) mod 10; (k / 10) mod 10; k mod 10]%N in
  match rev (drop_zeros (rev ds)) with
  | [] => [48%N]
  | ds' => List.map (N.add 48) ds'
  end.

(** [repr(x)], which is also [f"{x}"], for a float [x] that is a multiple
    of 1/10000 (what [round(_, 4)] gives) and is below 10^16 in size, where
    Python writes no exponent. *)
Definition repr_float (x : Q) : pystr :=
  let n := Z.abs_N (Qfloor (Qabs x * 10000)) in
  let body := nat_digits (n / 10000) ++ [46%N] ++ frac_digits (n mod 10000) in
  if Qltb x 0 then 45%N :: body else body.

(** The two characters that follow the degrees in the format string of
    line 78, U+00AC and U+221E. *)
Definition degree_mark : pystr := [172%N; 8734%N].

Definition direction_of (is_lat is_negative : bool) : pystr :=
  if is_lat then
    if is_negative then str "S (LS)" else str "N (LU)"
  else
    if is_negative then str "W (BB)" else str "E (BT)".

(** [dd_to_dms] on a float. The [except] branch is not reached there:
    [float], [int] and [round] raise on text, on missing values and on
    infinities only. *)
Definition dd_to_dms (dd : Q) (is_lat : bool) : pystr :=
  let is_negative := Qltb dd 0 in
  let dd := Qabs dd in
  let d := int_of_float dd in
  let m_float := ((dd - inject_Z d) * 60)%Q in
  let m := int_of_float m_float in
  let s := round4 ((m_float - inject_Z m) * 60) in
  let direction := direction_of is_lat is_negative in
  int_to_str d ++ degree_mark ++ str " " ++ int_to_str m ++ str "' "
    ++ repr_float s ++ [34%N; 32%N] ++ direction.

End Fmt.

(** ** The shape of a formatted text *)

Module Shape.
Import Py Dms Fmt.

Definition all_digits (s : pystr) : Prop := Forall (fun c => is_digit c = true) s.

(** The decimals that [repr] writes, checked for each of the 10000 values
    of four digits. *)
Definition frac_ok (k : N) : bool :=
  let f := frac_digits k in
  forallb is_digit f
  && negb (Nat.eqb (List.length f) 0)
  && N.eqb (digits_value f * 10000) (k * N.pos (pow10 (List.length f))).

(** The text that [repr] writes for [n / 10000]. *)
Definition repr_body (n : N) : pystr :=
  nat_digits (n / 10000) ++ ch_dot :: frac_digits (n mod 10000).

Definition no_space (s : pystr) : Prop := Forall (fun c => is_space c = false) s.

(** The characters of a formatted text before the hemisphere. *)
Definition plain (c : N) : Prop :=
  is_digit c = true \/ In c [46; 32; 172; 8734; 39; 34]%N.

(** The hemisphere after the replacements of [normalize]. *)
Definition short_direction (is_lat is_negative : bool) : pystr :=
  if is_lat then
    if is_negative then str "S (S)" else str "N (N)"
  else
    if is_negative then str "W (W)" else str "E (E)".

(** The text before the hemisphere. *)
Definition dms_prefix (D M S : pystr) : pystr :=
  D ++ degree_mark ++ str " " ++ M ++ str "' " ++ S ++ [34; 32]%N.

End Shape.

(** ** Double arithmetic of the package [utm] *)

Module Float64.

(** The zone number and the zone letter of the package [utm] come from a
    sum and a quotient of doubles. An IEEE operation gives the exact
    result rounded to the nearest double, a tie going to the even
    significand; the values that arise there are far from the overflow and
    underflow thresholds, so that a double is zero or a multiple
    [m * 2^(e-52)] with [2^52 <= |m| <= 2^53]. *)

(** [floor(log2 a)] for a positive [a]. *)
Definition exponent (a : Q) : Z :=
  if Qle_bool 1 a then Z.log2 (Qfloor a)
  else - Z.log2_up (Qceiling (/ a)).

(** The distance of the doubles around [q]. *)
Definition ulp (q : Q) : Q := (2 ^ (exponent (Qabs q) - 52))%Q.

(** The double nearest to [q]. *)
Definition round64 (q : Q) : Q :=
  if Qeq_bool q 0 then 0%Q
  else (inject_Z (Fmt.round_half_even (q / ulp q)) * ulp q)%Q.

(** [a + b] and [a / b] on doubles. *)
Definition fadd (a b : Q) : Q := round64 (a + b).
Definition fdiv (a b : Q) : Q := round64 (a / b).

End Float64.

(** ** Automatic UTM zone: [convert_dd_to_auto_utm] *)

Module Utm.
Import Py.

(** Lexicographic order of texts by code point: [a >= b]. *)
Fixpoint str_geb (a b : pystr) : bool :=
  match a, b with
  | _, [] => true
  | [], _ :: _ => false
  | x :: a', y :: b' =>
      if N.ltb y x then true
      else if N.ltb x y then false
      else str_geb a' b'
  end.

(** [utm.latlon_to_zone_number] of the package [utm], which is no part of
    the repository: zone 32 in the Norway band, zones 31, 33, 35 and 37 in
    the Svalbard bands, and [int((longitude + 180) / 6) % 60 + 1]
    elsewhere, in double arithmetic. *)
Definition latlon_to_zone_number (latitude longitude : Q) : Z :=
  if Qleb 56 latitude && Qltb latitude 64
     && Qleb 3 longitude && Qltb longitude 12 then 32
  else if Qleb 72 latitude && Qleb latitude 84 && Qleb 0 longitude
          && Qltb longitude 42 then
    if Qltb longitude 9 then 31
    else if Qltb longitude 21 then 33
    else if Qltb longitude 33 then 35
    else 37
  else
    Z.modulo
      (Fmt.int_of_float (Float64.fdiv (Float64.fadd longitude 180) 6)) 60
    + 1.

(** The band letters of the package, from 80 S in steps of 8 degrees. *)
Definition ZONE_LETTERS : pystr := str "CDEFGHJKLMNPQRSTUVWXX".

(** [utm.latitude_to_zone_letter] of the package:
    [ZONE_LETTERS[int(latitude + 80) >> 3]] for a latitude from -80 to 84,
    the sum being a double, and [None] outside. An index past the end of
    the letters is the IndexError of Python (the index is never negative
    here). *)
Definition latitude_to_zone_letter (latitude : Q) : result (option pystr) :=
  if Qleb (-80) latitude && Qleb latitude 84 then
    match nth_error ZONE_LETTERS
            (Z.to_nat (Z.shiftr (Fmt.int_of_float (Float64.fadd latitude 80)) 3))
    with
    | Some c => Return (Some [c])
    | None => Raise (str "string index out of range")
    end
  else Return None.

(** The range that [utm.from_latlon] accepts; outside it (polar or
    out-of-range input) the call raises. *)
Definition in_utm_range (latitude longitude : Q) : bool :=
  Qleb (-80) latitude && Qleb latitude 84
  && Qleb (-180) longitude && Qleb longitude 180.

Section AutoUtm.

(** The projection itself (easting and northing in the zone), which is
    floating-point trigonometry of the package. *)
Variable project : Q -> Q -> Z -> Q * Q.

(** [utm.from_latlon(latitude, longitude)] of the package. *)
Definition from_latlon (latitude longitude : Q)
  : result (Q * Q * Z * option pystr) :=
  if in_utm_range latitude longitude then
    let zone_number := latlon_to_zone_number latitude longitude in
    zone_letter <- latitude_to_zone_letter latitude ;;
    let (easting, northing) := project latitude longitude zone_number in
    Return (easting, northing, zone_number, zone_letter)
  else Raise (str "latitude or longitude out of range").

(** [convert_dd_to_auto_utm(row)] on the two cells [row['lat_dd']] and
    [row['lon_dd']]; any exception gives three missing values: a cell that
    is no finite number makes [utm.from_latlon] raise, and [None] has no
    [upper]. *)
Definition convert_dd_to_auto_utm (lat_dd lon_dd : pyval)
  : pyval * pyval * pyval :=
  match lat_dd, lon_dd with
  | VFloat lat, VFloat lon =>
      match from_latlon lat lon with
      | Return (easting, northing, zone_num, Some zone_letter) =>
          let zone_hemi :=
            if str_geb (upper zone_letter) (str "N")
            then str "N" else str "S" in
          (VFloat easting, VFloat northing,
           VStr (int_to_str zone_num ++ zone_hemi))
      | Return (_, _, _, None) => (VNA, VNA, VNA)
      | Raise _ => (VNA, VNA, VNA)
      end
  | _, _ => (VNA, VNA, VNA)
  end.

End AutoUtm.

(** The hemisphere letter at the end of a zone label such as 48S. *)
Definition label_hemisphere (label : pystr) : option N :=
  match rev label with
  | c :: _ => Some c
  | [] => None
  end.

(** The points of the Norway and Svalbard special bands. *)
Definition in_special_band (latitude longitude : Q) : bool :=
  Qleb 56 latitude && Qltb latitude 64
  && Qleb 3 longitude && Qltb longitude 12
  || Qleb 72 latitude && Qleb latitude 84 && Qleb 0 longitude
     && Qltb longitude 42.

(** The latitude from which the double [latitude + 80] is 80 or more:
    -2^-47, about -7.1e-15. *)
Definition north_threshold : Q := - (1 # 2 ^ 47).

(** The zone number in the words of the specification,
    floor((lon+180)/6)+1. *)
Definition formula_zone (longitude : Q) : Z :=
  Qfloor ((longitude + 180) / 6) + 1.

End Utm.

(** ** Tables: the part of [pandas.DataFrame] that the pipeline uses *)

Module Pandas.
Import Py.

(** A table: the column labels in order, and the rows, each one with its
    index label and its cells in the order of the columns. The column
    labels of an input table are distinct. *)
Record frame : Type := mk_frame {
  columns : list pystr;
  rows : list (Z * list pyval)
}.

Fixpoint col_pos (name : pystr) (cols : list pystr) : option nat :=
  match cols with
  | [] => None
  | c :: cols' =>
      if str_eqb name c then Some O
      else match col_pos name cols' with
           | Some p => Some (S p)
           | None => None
           end
  end.

Fixpoint list_set {A : Type} (p : nat) (v : A) (l : list A) : list A :=
  match l, p with
  | [], _ => []
  | _ :: l', O => v :: l'
  | a :: l', S p' => a :: list_set p' v l'
  end.

(** The KeyError of a missing label (its text is not modelled in detail). *)
Definition key_error {A : Type} (name : pystr) : result A :=
  Raise (str "'" ++ name ++ str "'").

(** [df[name]], the cells of one column. *)
Definition get_column (name : pystr) (df : frame) : result (list pyval) :=
  match col_pos name (columns df) with
  | Some p => Return (List.map (fun r => nth p (snd r) VNA) (rows df))
  | None => key_error name
  end.

(** [df[name] = vals]: an existing column is overwritten in place, a new
    one is added at the end. *)
Definition set_column (name : pystr) (vals : list pyval) (df : frame) : frame :=
  match col_pos name (columns df) with
  | Some p =>
      mk_frame (columns df)
        (List.map (fun rv => (fst (fst rv), list_set p (snd rv) (snd (fst rv))))
                  (combine (rows df) vals))
  | None =>
      mk_frame (columns df ++ [name])
        (List.map (fun rv => (fst (fst rv), snd (fst rv) ++ [snd rv]))
                  (combine (rows df) vals))
  end.

Definition isna (v : pyval) : bool :=
  match v with VNA => true | _ => false end.

Fixpoint positions (names cols : list pystr) : option (list nat) :=
  match names with
  | [] => Some []
  | n :: names' =>
      match col_pos n cols, positions names' cols with
      | Some p, Some ps => Some (p :: ps)
      | _, _ => None
      end
  end.

Fixpoint first_missing (names cols : list pystr) : pystr :=
  match names with
  | [] => []
  | n :: names' =>
      match col_pos n cols with
      | Some _ => first_missing names' cols
      | None => n
      end
  end.

(** [df.dropna(subset=names)]: the rows with no missing value in the
    named columns; the index labels stay. *)
Definition dropna (subset : list pystr) (df : frame) : result frame :=
  match positions subset (columns df) with
  | Some ps =>
      Return (mk_frame (columns df)
                (filter (fun r =>
                           forallb (fun p => negb (isna (nth p (snd r) VNA))) ps)
                        (rows df)))
  | None => key_error (first_missing subset (columns df))
  end.

(** [df.empty] *)
Definition empty (df : frame) : bool :=
  match columns df, rows df with
  | _ :: _, _ :: _ => false
  | _, _ => true
  end.

(** [df[names]] for a list of labels. *)
Definition select (names : list pystr) (df : frame) : result frame :=
  match positions names (columns df) with
  | Some ps =>
      Return (mk_frame names
                (List.map (fun r =>
                             (fst r, List.map (fun p => nth p (snd r) VNA) ps))
                          (rows df)))
  | None => key_error (first_missing names (columns df))
  end.

Definition pos_or_zero (cols : list pystr) (n : pystr) : nat :=
  match col_pos n cols with Some p => p | None => O end.

(** Every row has one cell for each column. *)
Definition aligned (df : frame) : Prop :=
  Forall (fun r => List.length (snd r) = List.length (columns df)) (rows df).

(** The elements of a list that a list of flags marks. *)
Fixpoint mask_filter {A : Type} (mask : list bool) (l : list A) : list A :=
  match mask, l with
  | b :: mask', a :: l' =>
      if b then a :: mask_filter mask' l' else mask_filter mask' l'
  | _, _ => []
  end.

Definition index_of (df : frame) : list Z := List.map fst (rows df).

(** The flags of the rows that have both coordinates. *)
Definition both_present (lons lats : list pyval) : list bool :=
  List.map (fun p => negb (isna (fst p)) && negb (isna (snd p)))
           (combine lons lats).

End Pandas.

(** ** The batch pipeline: [process_coordinates] *)

Module Pipeline.
Import Py Pandas.

Definition col_x := str "x".
Definition col_y := str "y".
Definition lat_dd := str "lat_dd".
Definition lon_dd := str "lon_dd".
Definition lat_dms := str "lat_dms".
Definition lon_dms := str "lon_dms".
Definition easting_utm := str "easting_utm".
Definition northing_utm := str "northing_utm".
Definition zone_utm := str "zone_utm".

Definition output_columns : list pystr :=
  [lat_dd; lon_dd; lat_dms; lon_dms; easting_utm; northing_utm; zone_utm].

Definition no_valid_data : message :=
  StWarning (str "Tidak ada data valid yang dapat diproses setelah parsing.").

Definition dd_assumed_wgs84 : message :=
  StWarning (str "Input Decimal Degrees diiasumsikan sebagai WGS84. Pengaturan Datum diabaikan.").

Definition dms_assumed_wgs84 : message :=
  StWarning (str "Input Geografis (DMS) diiasumsikan sebagai WGS84. Pengaturan Datum diabaikan.").

(** [col not in ['x', 'y']] *)
Definition is_xy (col : pystr) : bool := str_eqb col col_x || str_eqb col col_y.

(** A float of a library as a cell, and the float that a library reads
    from a cell of a numeric column. *)
Definition float_cell (v : pyfloat) : pyval :=
  match v with Fin q => VFloat q | Inf s => VInf s | NaN => VNA end.

Definition cell_float (v : pyval) : pyfloat :=
  match v with VFloat q => Fin q | VInf s => Inf s | _ => NaN end.

Section Process.

(** The libraries that the pipeline calls and that are no part of the
    repository: how pandas reads a number from a text (NaN when it reads
    none), Python's [int] on a text, the finite number that Python's
    [float] reads from a text (none when it raises or gives an infinity or
    a NaN), the pyproj transformer of an EPSG code to WGS84 (one point at a
    time, a missing coordinate being NaN), and the projection of the
    package [utm]. *)
Variable numeric_of_text : pystr -> pyfloat.
Variable py_int : pystr -> result Z.
Variable float_of_text : pystr -> option Q.
Variable make_transformer :
  pystr -> result (pyfloat -> pyfloat -> pyfloat * pyfloat).
Variable project : Q -> Q -> Z -> Q * Q.

(** [pd.to_numeric(_, errors='coerce')] on one cell. *)
Definition to_numeric (v : pyval) : pyval :=
  match v with
  | VFloat q => VFloat q
  | VInf s => VInf s
  | VStr s => float_cell (numeric_of_text s)
  | VNA => VNA
  end.

(** [series.apply(parse_dms)], with the messages in the order of the
    cells. *)
Definition apply_parse_dms (cells : list pyval) : list pyval * list message :=
  (List.map Dms.parse_dms cells,
   flat_map (fun c => snd (Dms.parse_dms_log c)) cells).

(** [dd_to_dms(d, is_lat)] on a cell: [float(d)] first, any exception
    giving the missing value. [int] raises on an infinity, so that an
    infinite coordinate has no DMS text. *)
Definition dd_to_dms_cell (is_lat : bool) (v : pyval) : pyval :=
  match v with
  | VFloat q => VStr (Fmt.dd_to_dms q is_lat)
  | VInf _ => VNA
  | VStr s =>
      match float_of_text s with
      | Some q => VStr (Fmt.dd_to_dms q is_lat)
      | None => VNA
      end
  | VNA => VNA
  end.

(** Lines 194-219: the DMS texts, the automatic UTM triple, and the final
    choice of columns. *)
Definition stage2 (df_input df : frame) : result frame :=
  lon <- get_column lon_dd df ;;
  let df := set_column lon_dms (List.map (dd_to_dms_cell false) lon) df in
  lat <- get_column lat_dd df ;;
  let df := set_column lat_dms (List.map (dd_to_dms_cell true) lat) df in
  lat <- get_column lat_dd df ;;
  lon <- get_column lon_dd df ;;
  let triples :=
    List.map (fun p => Utm.convert_dd_to_auto_utm project (fst p) (snd p))
             (combine lat lon) in
  let df := set_column easting_utm (List.map (fun t => fst (fst t)) triples) df in
  let df := set_column northing_utm (List.map (fun t => snd (fst t)) triples) df in
  let df := set_column zone_utm (List.map (fun t => snd t) triples) df in
  let original_cols := filter (fun col => negb (is_xy col)) (columns df_input) in
  select (original_cols ++ output_columns) df.

(** Lines 188-219, after the first stage has filled [lon_dd] and
    [lat_dd]. *)
Definition finish (df_input df : frame) (log : list message)
  : result (option frame) * list message :=
  match dropna [lon_dd; lat_dd] df with
  | Raise e => (Raise e, log)
  | Return df =>
      if empty df then (Return None, log ++ [no_valid_data])
      else
        match stage2 df_input df with
        | Return df_final => (Return (Some df_final), log)
        | Raise e => (Raise e, log)
        end
  end.

(** The [try] block of the UTM branch, lines 165-183. *)
Definition utm_to_dd (df : frame) (input_datum input_zone_str : pystr)
  : result frame :=
  zone_num <- py_int (removelast input_zone_str) ;;
  zone_hemi <- match rev input_zone_str with
               | c :: _ => Return (upper [c])
               | [] => Raise (str "string index out of range")
               end ;;
  source_epsg <- Resolver.get_input_epsg_code zone_num zone_hemi input_datum ;;
  transform <- make_transformer source_epsg ;;
  xs <- get_column col_x df ;;
  let easting := List.map to_numeric xs in
  ys <- get_column col_y df ;;
  let northing := List.map to_numeric ys in
  let points :=
    List.map (fun p => transform (cell_float (fst p)) (cell_float (snd p)))
             (combine easting northing) in
  let df := set_column lon_dd (List.map (fun p => float_cell (fst p)) points) df in
  Return (set_column lat_dd (List.map (fun p => float_cell (snd p)) points) df).

Definition process_coordinates
  (df_input : frame) (input_crs_name input_datum input_zone_str : pystr)
  : result (option frame) * list message :=
  let df := df_input in
  if str_eqb input_crs_name (str "Decimal Degrees (DD)") then
    match get_column col_x df with
    | Raise e => (Raise e, [])
    | Return xs =>
        let df := set_column lon_dd (List.map to_numeric xs) df in
        match get_column col_y df with
        | Raise e => (Raise e, [])
        | Return ys =>
            let df := set_column lat_dd (List.map to_numeric ys) df in
            let log :=
              if str_eqb input_datum (str "WGS84") then []
              else [dd_assumed_wgs84] in
            finish df_input df log
        end
    end
  else if str_eqb input_crs_name (str "Geografis (DMS)") then
    match get_column col_x df with
    | Raise e => (Raise e, [])
    | Return xs =>
        let (lons, log_x) := apply_parse_dms xs in
        let df := set_column lon_dd lons df in
        match get_column col_y df with
        | Raise e => (Raise e, log_x)
        | Return ys =>
            let (lats, log_y) := apply_parse_dms ys in
            let df := set_column lat_dd lats df in
            let log :=
              if str_eqb input_datum (str "WGS84") then []
              else [dms_assumed_wgs84] in
            finish df_input df (log_x ++ log_y ++ log)
        end
    end
  else if str_eqb input_crs_name (str "UTM") then
    match utm_to_dd df input_datum input_zone_str with
    | Return df => finish df_input df []
    | Raise e =>
        (Return None, [StError (str "Error Konversi UTM ke DD: " ++ e)])
    end
  else finish df_input df [].

(** The first four steps of the UTM branch: the transformer of the
    batch. *)
Definition resolve_transformer (input_datum input_zone_str : pystr)
  : result (pyfloat -> pyfloat -> pyfloat * pyfloat) :=
  zone_num <- py_int (removelast input_zone_str) ;;
  zone_hemi <- match rev input_zone_str with
               | c :: _ => Return (upper [c])
               | [] => Raise (str "string index out of range")
               end ;;
  source_epsg <- Resolver.get_input_epsg_code zone_num zone_hemi input_datum ;;
  make_transformer source_epsg.

(** The vocabulary of the specification: the three input representations,
    the canonical point of one row, and the rows that survive stage 1. *)
Inductive InputRepresentation : Type := DecimalDegrees | DMS | UTM.

Definition crs_name (rep : InputRepresentation) : pystr :=
  match rep with
  | DecimalDegrees => str "Decimal Degrees (DD)"
  | DMS => str "Geografis (DMS)"
  | UTM => str "UTM"
  end.

Definition stage1_point (rep : InputRepresentation)
  (transform : pyfloat -> pyfloat -> pyfloat * pyfloat)
  (x y : pyval) : pyval * pyval :=
  match rep with
  | DecimalDegrees => (to_numeric x, to_numeric y)
  | DMS => (Dms.parse_dms x, Dms.parse_dms y)
  | UTM =>
      let p := transform (cell_float (to_numeric x))
                         (cell_float (to_numeric y)) in
      (float_cell (fst p), float_cell (snd p))
  end.

(** The x or the y of a row does not parse. *)
Definition parse_fails (rep : InputRepresentation) (v : pyval) : bool :=
  match rep with
  | DMS => isna (Dms.parse_dms v)
  | _ => isna (to_numeric v)
  end.

Definition survives (rep : InputRepresentation)
  (transform : pyfloat -> pyfloat -> pyfloat * pyfloat)
  (x y : pyval) : bool :=
  let p := stage1_point rep transform x y in
  negb (isna (fst p)) && negb (isna (snd p)).

Definition survivors (rep : InputRepresentation)
  (transform : pyfloat -> pyfloat -> pyfloat * pyfloat)
  (xs ys : list pyval) : list bool :=
  List.map (fun p => survives rep transform (fst p) (snd p)) (combine xs ys).

Definition stage1_lons (rep : InputRepresentation)
  (transform : pyfloat -> pyfloat -> pyfloat * pyfloat)
  (xs ys : list pyval) : list pyval :=
  List.map (fun p => fst (stage1_point rep transform (fst p) (snd p)))
           (combine xs ys).

Definition stage1_lats (rep : InputRepresentation)
  (transform : pyfloat -> pyfloat -> pyfloat * pyfloat)
  (xs ys : list pyval) : list pyval :=
  List.map (fun p => snd (stage1_point rep transform (fst p) (snd p)))
           (combine xs ys).

(** The number of rows that stage 1 drops. *)
Definition dropped_count (rep : InputRepresentation)
  (transform : pyfloat -> pyfloat -> pyfloat * pyfloat)
  (xs ys : list pyval) : nat :=
  List.length (filter negb (survivors rep transform xs ys)).

Definition late_columns : list pystr :=
  [lon_dms; lat_dms; easting_utm; northing_utm; zone_utm].

Definition original_cols (df_input : frame) : list pystr :=
  filter (fun col => negb (is_xy col)) (columns df_input).

Definition auto_utm (lats lons : list pyval) : list (pyval * pyval * pyval) :=
  List.map (fun p => Utm.convert_dd_to_auto_utm project (fst p) (snd p))
           (combine lats lons).

End Process.

End Pipeline.

(** ** Stand-ins for the libraries, and sample batches *)

Module Sample.
Import Py Pandas Pipeline.

(** Plain decimal texts are numbers; nothing else is needed in the
    examples. *)
Definition numeric_of_text (s : pystr) : pyfloat :=
  match Dms.float_of_token s with Some q => Fin q | None => NaN end.
Definition py_int (s : pystr) : result Z := Raise (str "no int").
Definition float_of_text : pystr -> option Q := Dms.float_of_token.
Definition make_transformer (epsg : pystr)
  : result (pyfloat -> pyfloat -> pyfloat * pyfloat) :=
  Raise (str "no transformer").
Definition project (lat lon : Q) (zone : Z) : Q * Q := (0, 0)%Q.

Definition process (df : frame) (rep : InputRepresentation)
  : result (option frame) * list message :=
  process_coordinates numeric_of_text py_int float_of_text make_transformer
    project df (crs_name rep) (str "WGS84") [].

Definition monas : Z * list pyval :=
  (0, [VStr (str "106.827153"); VStr (str "-6.175392"); VStr (str "Monas")]).
Definition bad_x : Z * list pyval :=
  (1, [VStr (str "abc"); VStr (str "-6.176333"); VStr (str "Gambir")]).
Definition gambir : Z * list pyval :=
  (2, [VStr (str "106.828111"); VStr (str "-6.176333"); VStr (str "Gambir")]).

Definition named_columns : list pystr := [col_x; col_y; str "nama_lokasi"].

Definition batch_one : frame := mk_frame named_columns [monas].
Definition batch_one_and_bad : frame := mk_frame named_columns [monas; bad_x].
Definition batch_three : frame := mk_frame named_columns [monas; bad_x; gambir].

(** The cells of the first two columns, x and y in these batches. *)
Definition xs (df : frame) : list pyval :=
  List.map (fun r => nth 0 (snd r) VNA) (rows df).
Definition ys (df : frame) : list pyval :=
  List.map (fun r => nth 1 (snd r) VNA) (rows df).

(** No transformer is needed outside UTM input. *)
Definition no_transform (a b : pyfloat) : pyfloat * pyfloat := (NaN, NaN).

(** The decimal degrees of the two good rows of [batch_three]. *)
Definition lons_three : list pyval :=
  [VFloat (106827153 # 1000000); VFloat (106828111 # 1000000)].
Definition lats_three : list pyval :=
  [VFloat (Qopp (6175392 # 1000000)); VFloat (Qopp (6176333 # 1000000))].

(** The DMS row of section 8. *)
Definition batch_dms : frame :=
  mk_frame [col_x; col_y]
    [(0, [VStr (str "106 49 37 BT"); VStr (str "6 10 30 LS")])].

(** A batch with a metadata column that is named like a computed one. *)
Definition batch_collision : frame :=
  mk_frame [col_x; col_y; lat_dd]
    [(0, [VStr (str "106.827153"); VStr (str "-6.175392"); VStr (str "note")])].

End Sample.

(** ** Further vocabulary for the properties of the second part *)

Module More.
Import Py Resolver Dms.

(** The code points that [str.upper] changes, apart from a to z. *)
Definition special_upper : list N :=
  [223; 305; 329; 383; 496; 7830; 7831; 7832; 7833; 7834;
   64256; 64257; 64258; 64259; 64260; 64261; 64262]%N.

(** The EPSG code of a datum, zone and hemisphere, as a number. *)
Definition epsg_number (d : Datum) (z : Z) (h : Hemisphere) : Z :=
  match d with
  | WGS84 => match h with North => 32600 + z | South => 32700 + z end
  | DGN95 => dgn95_table h z
  end.

Definition all_space (s : pystr) : Prop := Forall (fun c => is_space c = true) s.

Definition no_digit (s : pystr) : Prop := Forall (fun c => is_digit c = false) s.

(** The characters of the numeric part of a text. *)
Definition numeric_char (c : N) : Prop :=
  is_digit c = true \/ In c [46; 45; 32]%N.

(** The words and abbreviations for a hemisphere, with the letter that
    [parse_dms] puts in their place. *)
Definition hemisphere_words : list (pystr * N) :=
  [ (str "LU", ch_N); (str "UTARA", ch_N); (str "LS", ch_S);
    (str "SELATAN", ch_S); (str "BT", ch_E); (str "TIMUR", ch_E);
    (str "BB", ch_W); (str "BARAT", ch_W) ].

(** The eight replacements of [normalize]. *)
Definition replacements (s : pystr) : pystr :=
  let s := replace LS [ch_S] (replace LU [ch_N] s) in
  let s := replace (str "SELATAN") [ch_S] (replace (str "UTARA") [ch_N] s) in
  let s := replace BB [ch_W] (replace BT [ch_E] s) in
  replace (str "BARAT") [ch_W] (replace (str "TIMUR") [ch_E] s).

End More.

(** ** The zone widgets of the UTM settings, lines 264-269 *)

Module Ui.
Import Py.

(** [min_zone, max_zone], the bounds of the zone number input. *)
Definition zone_range (input_datum : pystr) : Z * Z :=
  if str_eqb input_datum (str "DGN95") then (46, 54) else (1, 60).

Definition default_zone (input_datum : pystr) : Z :=
  let (min_zone, max_zone) := zone_range input_datum in
  if (min_zone <=? 48) && (48 <=? max_zone) then 48 else min_zone.

(** [input_zone = f"{in_zone_num}{in_zone_hemi}"] *)
Definition input_zone (in_zone_num : Z) (in_zone_hemi : pystr) : pystr :=
  int_to_str in_zone_num ++ in_zone_hemi.

End Ui.

(** ** Vocabulary for the properties of the pipeline *)

Module PipelineMore.
Import Py Pandas Pipeline.

Definition assumed_wgs84 (rep : InputRepresentation) : message :=
  match rep with
  | DMS => dms_assumed_wgs84
  | _ => dd_assumed_wgs84
  end.

Definition stage1_errors (rep : InputRepresentation) (xs ys : list pyval)
  : list message :=
  match rep with
  | DMS => snd (apply_parse_dms xs) ++ snd (apply_parse_dms ys)
  | _ => []
  end.

Definition utm_error (e : pystr) : message :=
  StError (str "Error Konversi UTM ke DD: " ++ e).

Definition is_st_error (m : message) : bool :=
  match m with StError _ => true | StWarning _ => false end.

(** A text cell that [parse_dms] cannot read. *)
Definition unreadable_text (c : pyval) : bool :=
  match c with
  | VStr _ => isna (Dms.parse_dms c)
  | _ => false
  end.

(** A cell that holds a float other than NaN. *)
Definition is_float (v : pyval) : Prop :=
  match v with
  | VFloat _ | VInf _ => True
  | _ => False
  end.

(** A cell of decimal degrees and the DMS cell written for it: for a
    finite number it is a text that [parse_dms] reads back to within 1/3600
    of the number, and an infinite number has no text. *)
Definition reads_back (v s : pyval) : Prop :=
  match v with
  | VFloat q =>
      exists (t : pystr) (r : Q),
        s = VStr t /\ Dms.parse_dms s = VFloat r
        /\ (Qabs (r - q) <= 1 # 3600)%Q
  | VInf _ => s = VNA
  | _ => False
  end.

End PipelineMore.

(** ** Further sample batches and stand-ins *)

Module Sample2.
Import Py Pandas Pipeline.

(** [int] on the decimal digits of a number. *)
Definition read_int (s : pystr) : result Z :=
  Return (Z.of_N (Dms.digits_value s)).

(** A transformer that shifts nothing. *)
Definition same_point (a b : pyfloat) : pyfloat * pyfloat := (a, b).
Definition make_same (epsg : pystr)
  : result (pyfloat -> pyfloat -> pyfloat * pyfloat) :=
  Return same_point.

Definition batch_without_y : frame :=
  mk_frame [col_x; str "nama_lokasi"]
    [(0, [VStr (str "106.827153"); VStr (str "Monas")])].

Definition batch_no_rows : frame := mk_frame Sample.named_columns [].

(** Two rows of DMS texts; the x of the second one has no number. *)
Definition batch_dms_two : frame :=
  mk_frame [col_x; col_y]
    [(0, [VStr (str "106 49 37 BT"); VStr (str "6 10 30 LS")]);
     (1, [VStr (str "timur"); VStr (str "6 10 35 LS")])].

(** A row whose x is an infinite number (what pandas reads from the text
    inf) next to a good y. *)
Definition batch_infinite : frame :=
  mk_frame [col_x; col_y] [(0, [VInf false; VFloat (- (6175392 # 1000000))])].

End Sample2.

(** ** A batch of UTM rows *)

Module SampleUtm.
Import Py Pandas Pipeline.

(** A stand-in for the transformer of pyproj. It is no projection: it
    maps a finite point to a finite point, gives NaN for a point with a NaN
    coordinate and infinities for one with an infinite coordinate. *)
Definition transform (a b : pyfloat) : pyfloat * pyfloat :=
  match a, b with
  | NaN, _ => (NaN, NaN)
  | _, NaN => (NaN, NaN)
  | Fin x, Fin y => (Fin (x / 10000), Fin (y / 100000 - 90))
  | _, _ => (Inf false, Inf false)
  end.

Definition make_transformer (epsg : pystr)
  : result (pyfloat -> pyfloat -> pyfloat * pyfloat) :=
  Return transform.

(** Three rows of eastings and northings; the x of the second one is no
    number, the third row holds numbers and not texts. *)
Definition batch_utm : frame :=
  mk_frame Sample.named_columns
    [(0, [VStr (str "703000"); VStr (str "9317000"); VStr (str "Monas")]);
     (1, [VStr (str "abc"); VStr (str "9317000"); VStr (str "Gambir")]);
     (2, [VFloat 704000; VFloat 9316000; VStr (str "Gambir")])].

(** UTM input in zone 48S of WGS84. *)
Definition process (df : frame) : result (option frame) * list message :=
  process_coordinates Sample.numeric_of_text Sample2.read_int
    Sample.float_of_text make_transformer Sample.project
    df (str "UTM") (str "WGS84") (str "48S").

(** What the stand-in gives for the two good rows. *)
Definition lons_utm : list pyval :=
  [VFloat (703000 / 10000); VFloat (704000 / 10000)].
Definition lats_utm : list pyval :=
  [VFloat (9317000 / 100000 - 90); VFloat (9316000 / 100000 - 90)].

End SampleUtm.
(** * Properties *)

(** ** Python strings *)

Module PyFacts.
Import Py.

Lemma str_eqb_eq a b : str_eqb a b = true <-> a = b.
Proof.
  revert b; induction a as [|x a IH]; intros [|y b]; simpl;
    try (split; [discriminate | discriminate]); try tauto.
  rewrite andb_true_iff, N.eqb_eq, IH. split.
  - intros [-> ->]; reflexivity.
  - intros H; injection H; auto.
Qed.

Lemma upper_fixed (s : pystr) :
  Forall (fun c => upper_cp c = [c]) s -> upper s = s.
Proof.
  induction 1 as [|c s Hc _ IH]; [reflexivity |].
  unfold upper in *. cbn [flat_map]. rewrite Hc, IH. reflexivity.
Qed.

Lemma upper_app (a b : pystr) : upper (a ++ b) = upper a ++ upper b.
Proof. unfold upper. apply flat_map_app. Qed.

Lemma contains_app (c : N) (a b : pystr) :
  contains c (a ++ b) = contains c a || contains c b.
Proof. unfold contains. apply existsb_app. Qed.

Lemma contains_false (c : N) (s : pystr) :
  Forall (fun x => x <> c) s -> contains c s = false.
Proof.
  induction 1 as [|x s Hx _ IH]; [reflexivity |].
  unfold contains in *. cbn [existsb]. rewrite IH, orb_false_r.
  apply N.eqb_neq. congruence.
Qed.

Lemma lstrip_nonspace (c : N) (s : pystr) :
  is_space c = false -> lstrip (c :: s) = c :: s.
Proof. intros H. cbn [lstrip]. rewrite H. reflexivity. Qed.

Lemma rstrip_snoc_space (c : N) (s : pystr) :
  is_space c = true -> rstrip (s ++ [c]) = rstrip s.
Proof.
  intros H. unfold rstrip. rewrite rev_app_distr. cbn [rev app lstrip].
  rewrite H. reflexivity.
Qed.

Lemma rstrip_snoc_nonspace (c : N) (s : pystr) :
  is_space c = false -> rstrip (s ++ [c]) = s ++ [c].
Proof.
  intros H. unfold rstrip. rewrite rev_app_distr. cbn [rev app].
  rewrite (lstrip_nonspace _ _ H). cbn [rev]. rewrite rev_involutive.
  reflexivity.
Qed.

(** A text before the first place where [old] can start is copied. *)
Lemma replace_skips_prefix (o : N) (old' new p rest : pystr) :
  Forall (fun x => x <> o) p ->
  replace (o :: old') new (p ++ rest) = p ++ replace (o :: old') new rest.
Proof.
  unfold replace. induction 1 as [|x p Hx _ IH]; [reflexivity |].
  cbn [app replace_from strip_prefix].
  destruct (N.eqb_spec o x) as [->|_]; [congruence |].
  rewrite IH. reflexivity.
Qed.

End PyFacts.

Example replace_ex1 :
  Py.replace (Py.str "LS") (Py.str "S") (Py.str "6 10 30 LS (LS)") = Py.str "6 10 30 S (S)".
Proof. reflexivity. Qed.
Example replace_ex2 :
  Py.replace (Py.str "BB") (Py.str "W") (Py.str "BBB BBBB") = Py.str "WB WW".
Proof. reflexivity. Qed.

(** ** Resolver *)

Module ResolverFacts.
Import Py Resolver.

Lemma zone_cases (lo hi z : Z) (P : Z -> Prop) :
  lo <= z <= hi ->
  (forall n : nat, (n <= Z.to_nat (hi - lo))%nat -> P (lo + Z.of_nat n)) ->
  P z.
Proof.
  intros Hz H.
  replace z with (lo + Z.of_nat (Z.to_nat (z - lo))) by lia.
  apply H. lia.
Qed.

Ltac by_zone_cases lo hi Hz :=
  match type of Hz with
  | _ <= ?z <= _ =>
      pattern z; apply (zone_cases lo hi z); [exact Hz |];
      let n := fresh "n" in let Hn := fresh "Hn" in
      intros n Hn; cbv in Hn;
      repeat (destruct n as [|n];
              [ vm_compute; reflexivity
              | first [ apply le_S_n in Hn | exfalso; inversion Hn ] ])
  end.

Lemma wgs84_in_range (z : Z) (h : Hemisphere) :
  1 <= z <= 60 ->
  resolveEpsg WGS84 z h =
    Return (int_to_str (match h with North => 32600 + z
                                   | South => 32700 + z end)).
Proof.
  intros Hz. destruct h; by_zone_cases 1 60 Hz.
Qed.

Lemma wgs84_out_of_range (z : Z) (h : Hemisphere) :
  ~ (1 <= z <= 60) ->
  resolveEpsg WGS84 z h =
    Raise (str "Nomor zona UTM WGS84 harus antara 1 dan 60").
Proof.
  intros Hz. unfold resolveEpsg, get_input_epsg_code.
  change (str_eqb (datum_name WGS84) (str "WGS84")) with true. cbv iota.
  destruct ((1 <=? z) && (z <=? 60)) eqn:E; [|reflexivity].
  apply andb_true_iff in E. destruct E as [E1 E2].
  apply Z.leb_le in E1, E2. lia.
Qed.

(** C3. For every zone number z in [1,60] and hemisphere h, the WGS84
    branch of the resolver returns the EPSG code 32600+z for North and
    32700+z for South (as the decimal text of that number); for every z
    outside [1,60] it raises the ValueError of the range check. *)
Theorem resolve_wgs84 (z : Z) (h : Hemisphere) :
  (1 <= z <= 60 ->
   resolveEpsg WGS84 z h =
     Return (int_to_str (match h with North => 32600 + z
                                    | South => 32700 + z end)))
  /\ (~ (1 <= z <= 60) -> is_error (resolveEpsg WGS84 z h)).
Proof.
  split.
  - apply wgs84_in_range.
  - intros Hz. rewrite (wgs84_out_of_range z h Hz). exact I.
Qed.

Lemma resolve_wgs84_witness :
  resolveEpsg WGS84 48 South = Return (str "32748")
  /\ is_error (resolveEpsg WGS84 61 North).
Proof.
  split.
  - apply (proj1 (resolve_wgs84 48 South)). lia.
  - apply (proj2 (resolve_wgs84 61 North)). lia.
Defined.

Lemma dgn95_in_range (z : Z) (h : Hemisphere) :
  46 <= z <= 54 ->
  resolveEpsg DGN95 z h = Return (int_to_str (dgn95_table h z)).
Proof.
  intros Hz. destruct h; by_zone_cases 46 54 Hz.
Qed.

Lemma dict_get_none_n (z : Z) :
  ~ (46 <= z <= 54) -> dict_get z epsg_map_dgn95_n = None.
Proof.
  intros Hz. unfold epsg_map_dgn95_n. cbn [dict_get].
  repeat match goal with
         | |- context [Z.eqb z ?k] =>
             destruct (Z.eqb_spec z k); [exfalso; lia |]
         end.
  reflexivity.
Qed.

Lemma dict_get_none_s (z : Z) :
  ~ (46 <= z <= 54) -> dict_get z epsg_map_dgn95_s = None.
Proof.
  intros Hz. unfold epsg_map_dgn95_s. cbn [dict_get].
  repeat match goal with
         | |- context [Z.eqb z ?k] =>
             destruct (Z.eqb_spec z k); [exfalso; lia |]
         end.
  reflexivity.
Qed.

Lemma dgn95_out_of_range (z : Z) (h : Hemisphere) :
  ~ (46 <= z <= 54) -> is_error (resolveEpsg DGN95 z h).
Proof.
  intros Hz. unfold resolveEpsg, get_input_epsg_code.
  change (str_eqb (datum_name DGN95) (str "WGS84")) with false.
  change (str_eqb (datum_name DGN95) (str "DGN95")) with true.
  cbv iota.
  destruct h.
  - change (str_eqb (upper (hemi_letter North)) (str "N")) with true.
    cbv iota. rewrite (dict_get_none_n z Hz). exact I.
  - change (str_eqb (upper (hemi_letter South)) (str "N")) with false.
    cbv iota. rewrite (dict_get_none_s z Hz). exact I.
Qed.

(** C2. For every DGN95 zone z in [46,54] and hemisphere h the resolver
    returns the value of the fixed literal table (North 23846..23854 in
    order; South 46->23896, 47->23897, 48->23898, 49->23899, 50->23890,
    51->23891, 52->23892, 53->23893, 54->23894), in particular 23890 for
    zone 50 South; for every zone outside [46,54] it raises a ValueError. *)
Theorem resolve_dgn95 (z : Z) (h : Hemisphere) :
  (46 <= z <= 54 ->
   resolveEpsg DGN95 z h = Return (int_to_str (dgn95_table h z)))
  /\ resolveEpsg DGN95 50 South = Return (str "23890")
  /\ (~ (46 <= z <= 54) -> is_error (resolveEpsg DGN95 z h)).
Proof.
  split; [apply dgn95_in_range |].
  split; [reflexivity | apply dgn95_out_of_range].
Qed.

Lemma resolve_dgn95_witness :
  resolveEpsg DGN95 49 South = Return (str "23899")
  /\ is_error (resolveEpsg DGN95 45 North).
Proof.
  split.
  - apply (proj1 (resolve_dgn95 49 South)). lia.
  - apply (proj2 (proj2 (resolve_dgn95 45 North))). lia.
Defined.

End ResolverFacts.

(** ** DMS parser *)

Module DmsFacts.
Import Py Dms.

Example parse_monas_lon :
  exists q, parse_dms (VStr (str "106 49 37 BT")) = VFloat q
            /\ (q == 106 + 49 / 60 + 37 / 3600)%Q.
Proof. eexists. split; [vm_compute; reflexivity | reflexivity]. Qed.

Example parse_monas_lat :
  exists q, parse_dms (VStr (str "6 10 30 LS")) = VFloat q
            /\ (q == - (6 + 10 / 60 + 30 / 3600))%Q.
Proof. eexists. split; [vm_compute; reflexivity | reflexivity]. Qed.

Example parse_abc : parse_dms (VStr (str "abc")) = VNA.
Proof. reflexivity. Qed.

(** The [try] block succeeds exactly when the first three tokens are
    numbers. *)
Lemma parse_body_some (s c : pystr) (deg mnt sec : Q) :
  token_values (re_split_ws c) = Some (deg, mnt, sec) ->
  parse_body s c
  = Return (dms_value (contains ch_S s || contains ch_W s || Qltb deg 0)
                      deg mnt sec).
Proof.
  unfold parse_body, part_or_zero, token_values, py_float, dms_value.
  destruct (re_split_ws c) as [|d [|m [|x r]]]; cbn [nth_error bind];
    repeat match goal with
           | |- context [float_of_token ?t] =>
               destruct (float_of_token t); cbn [bind]
           end;
    intros H; try discriminate H; injection H as <- <- <-; reflexivity.
Qed.

Lemma parse_body_none (s c : pystr) :
  token_values (re_split_ws c) = None ->
  exists e, parse_body s c = Raise e.
Proof.
  unfold parse_body, part_or_zero, token_values, py_float.
  destruct (re_split_ws c) as [|d [|m [|x r]]]; cbn [nth_error bind];
    repeat match goal with
           | |- context [float_of_token ?t] =>
               destruct (float_of_token t); cbn [bind]
           end;
    intros H; try discriminate H; eexists; reflexivity.
Qed.

(** The split never gives an empty list: there always is a degree token. *)
Lemma split_from_nonempty (cur : pystr) (b : bool) (s : pystr) :
  split_from cur b s <> [].
Proof.
  revert cur b; induction s as [|c s IH]; intros cur b; cbn [split_from].
  - discriminate.
  - destruct (is_space c); [destruct b |]; try apply IH; discriminate.
Qed.

Lemma tokens_nonempty (text : pystr) : tokens text <> [].
Proof. apply split_from_nonempty. Qed.

(** What [parse_dms] gives on a text, by the values of its first three
    tokens. *)
Lemma parse_dms_str (text : pystr) :
  parse_dms (VStr text) =
    match token_values (tokens text) with
    | Some (deg, mnt, sec) =>
        VFloat (dms_value (south_or_west text || Qltb deg 0) deg mnt sec)
    | None => VNA
    end.
Proof.
  unfold parse_dms, parse_dms_log, tokens, south_or_west.
  destruct (token_values _) as [[[deg mnt] sec]|] eqn:E.
  - rewrite (parse_body_some _ _ _ _ _ E). reflexivity.
  - destruct (parse_body_none (normalize text) _ E) as [e ->]. reflexivity.
Qed.

Lemma Qltb_lt (a b : Q) : Qltb a b = true <-> (a < b)%Q.
Proof.
  unfold Qltb. rewrite negb_true_iff. split.
  - intros H. apply Qnot_le_lt. intros Hle.
    apply Qle_bool_iff in Hle. congruence.
  - intros H. destruct (Qle_bool b a) eqn:E; [|reflexivity].
    apply Qle_bool_iff in E. exfalso. apply (Qlt_not_le _ _ H E).
Qed.

(** C4, as stated, fails: the fourth token of this text is a lone dot,
    which [float] rejects, and the text is parsed all the same. *)
Lemma parse_dms_ignores_fourth_token :
  tokens (str "106 49 37 BT.") = [str "106"; str "49"; str "37"; str "."]
  /\ float_of_token (str ".") = None
  /\ parse_dms (VStr (str "106 49 37 BT."))
     = VFloat (dms_value false 106 49 37).
Proof. repeat split. Qed.

(** C4 (amended). [parse_dms] never raises. On a text it looks at the
    first three tokens of the cleaned text only, a missing one counting as
    0 and any further one being ignored: when each of them is a number the
    result is |deg| + min/60 + sec/3600, negated exactly when the normalised
    text contains S or W or the degree value is below zero; when one of
    them is no number the result is the missing value. On anything that is
    no text the result is the missing value. *)
Theorem parse_dms_first_three_tokens (v : pyval) :
  match v with
  | VStr text =>
      match token_values (tokens text) with
      | Some (deg, mnt, sec) =>
          parse_dms v =
            VFloat (dms_value (south_or_west text || Qltb deg 0) deg mnt sec)
      | None => parse_dms v = VNA
      end
  | _ => parse_dms v = VNA
  end.
Proof.
  destruct v as [text | q | inf |]; try reflexivity.
  rewrite parse_dms_str.
  destruct (token_values (tokens text)) as [[[deg mnt] sec]|]; reflexivity.
Qed.

Lemma dms_value_zero_deg (deg mnt sec : Q) :
  (deg == 0)%Q ->
  (dms_value false deg mnt sec == mnt / 60 + sec / 3600)%Q.
Proof.
  intros H. unfold dms_value. rewrite H. change (Qabs 0) with 0%Q. ring.
Qed.

(** C10, as stated, fails on a negative minute: "-0 -30 0" has the
    degree token -0 and names neither S nor W, and its result is -0.5. *)
Lemma parse_dms_minus_zero_negative_minute :
  tokens (str "-0 -30 0") = [str "-0"; str "-30"; str "0"]
  /\ south_or_west (str "-0 -30 0") = false
  /\ exists dd : Q,
       parse_dms (VStr (str "-0 -30 0")) = VFloat dd
       /\ (dd == - (1 # 2))%Q /\ (dd < 0)%Q.
Proof.
  split; [reflexivity |]. split; [reflexivity |].
  eexists. split; [vm_compute; reflexivity |]. split; reflexivity.
Qed.

(** C10 (amended). When the degree token is a minus sign followed by a
    spelling of zero and the text names neither S nor W, the minus sign is
    lost: the result is min/60 + sec/3600, whatever the minute and the
    second are. It is non-negative when they are ("-0 30 0" gives +0.5);
    a negative minute or second is not excluded. *)
Theorem parse_dms_minus_zero
  (text body : pystr) (rest : list pystr) (deg mnt sec : Q) :
  tokens text = (ch_minus :: body) :: rest ->
  token_values (tokens text) = Some (deg, mnt, sec) ->
  (deg == 0)%Q ->
  south_or_west text = false ->
  exists dd : Q,
    parse_dms (VStr text) = VFloat dd
    /\ (dd == mnt / 60 + sec / 3600)%Q
    /\ ((0 <= mnt)%Q -> (0 <= sec)%Q -> (0 <= dd)%Q).
Proof.
  intros _ Hv Hdeg Hsw.
  rewrite parse_dms_str, Hv, Hsw.
  assert (Hlt : Qltb deg 0 = false).
  { destruct (Qltb deg 0) eqn:E; [|reflexivity].
    apply Qltb_lt in E. rewrite Hdeg in E. discriminate E. }
  rewrite Hlt. cbn [orb].
  eexists; split; [reflexivity |].
  split; [apply dms_value_zero_deg; exact Hdeg |].
  intros Hm Hs.
  rewrite (dms_value_zero_deg deg mnt sec Hdeg).
  apply (Qle_trans _ (0 + 0)); [discriminate |].
  apply Qplus_le_compat.
  - apply Qle_shift_div_l; [reflexivity |]. rewrite Qmult_0_l. exact Hm.
  - apply Qle_shift_div_l; [reflexivity |]. rewrite Qmult_0_l. exact Hs.
Qed.

Lemma parse_dms_minus_zero_witness :
  exists dd : Q,
    parse_dms (VStr (str "-0 30 0")) = VFloat dd
    /\ (dd == 30 / 60 + 0 / 3600)%Q
    /\ ((0 <= 30)%Q -> (0 <= 0)%Q -> (0 <= dd)%Q).
Proof.
  apply (parse_dms_minus_zero (str "-0 30 0") (str "0")
           [str "30"; str "0"] (Qopp 0) 30 0).
  - reflexivity.
  - reflexivity.
  - reflexivity.
  - reflexivity.
Defined.

End DmsFacts.

(** ** DMS formatter *)

Module FmtFacts.
Import Py Dms Fmt.

Example dd_to_dms_monas :
  dd_to_dms (- (6175 # 1000)) true
  = str "6" ++ degree_mark ++ str " 10' 30.0" ++ [34%N] ++ str " S (LS)".
Proof. vm_compute. reflexivity. Qed.

Example dd_to_dms_lon :
  dd_to_dms (106827153 # 1000000) false
  = str "106" ++ degree_mark ++ str " 49' 37.7508" ++ [34%N] ++ str " E (BT)".
Proof. vm_compute. reflexivity. Qed.

Example round4_tie_even : round4 (25 # 100000) = 2 # 10000.
Proof. reflexivity. Qed.

Example round4_tie_odd : round4 (35 # 100000) = 4 # 10000.
Proof. reflexivity. Qed.

End FmtFacts.

(** ** Digits: printing a number and reading it back *)

Module DigitFacts.
Import Py Dms Fmt Shape PyFacts.

Lemma uint_cps_digits (u : Decimal.uint) : all_digits (uint_cps u).
Proof. induction u; constructor; try reflexivity; assumption. Qed.

Lemma nat_digits_digits (n : N) : all_digits (nat_digits n).
Proof. apply uint_cps_digits. Qed.

Lemma nat_digits_nonempty (n : N) : nat_digits n <> [].
Proof.
  unfold nat_digits. destruct n as [|p]; [discriminate |].
  cbn [N.to_uint].
  pose proof (DecimalPos.Unsigned.to_uint_nonnil p) as H.
  destruct (Pos.to_uint p); [congruence | discriminate ..].
Qed.

Lemma fold_digits_of_lu (u acc : Decimal.uint) :
  fold_left (fun a c => (10 * a + (c - 48))%N) (uint_cps u)
            (DecimalPos.Unsigned.of_lu acc)
  = DecimalPos.Unsigned.of_lu (Decimal.revapp u acc).
Proof.
  revert acc; induction u; intros acc; cbn [uint_cps fold_left Decimal.revapp];
    try reflexivity;
    rewrite <- IHu; f_equal; cbn [DecimalPos.Unsigned.of_lu]; lia.
Qed.

Lemma digits_value_nat_digits (n : N) : digits_value (nat_digits n) = n.
Proof.
  unfold digits_value, nat_digits.
  change 0%N with (DecimalPos.Unsigned.of_lu Decimal.Nil).
  rewrite fold_digits_of_lu.
  change (Decimal.revapp (N.to_uint n) Decimal.Nil)
    with (Decimal.rev (N.to_uint n)).
  rewrite <- DecimalPos.Unsigned.of_uint_alt.
  apply DecimalN.Unsigned.of_to.
Qed.

Lemma fold_digits_acc (s : pystr) (acc : N) :
  fold_left (fun a c => (10 * a + (c - 48))%N) s acc
  = (acc * N.pos (pow10 (List.length s)) + digits_value s)%N.
Proof.
  unfold digits_value. revert acc.
  induction s as [|c s IH]; intros acc; cbn [fold_left List.length pow10].
  - lia.
  - rewrite IH. rewrite (IH (10 * 0 + (c - 48))%N). lia.
Qed.

Lemma digits_value_app (a b : pystr) :
  digits_value (a ++ b)
  = (digits_value a * N.pos (pow10 (List.length b)) + digits_value b)%N.
Proof.
  unfold digits_value at 1. rewrite fold_left_app.
  fold (digits_value a). apply fold_digits_acc.
Qed.

Lemma span_digits_app (ds rest : pystr) :
  all_digits ds ->
  match rest with [] => True | c :: _ => is_digit c = false end ->
  span_digits (ds ++ rest) = (ds, rest).
Proof.
  intros Hd Hr. induction Hd as [|c ds Hc _ IH]; cbn [app span_digits].
  - destruct rest as [|c r]; [reflexivity |]. cbn [span_digits].
    rewrite Hr. reflexivity.
  - rewrite Hc, IH. reflexivity.
Qed.

Lemma span_digits_all (ds : pystr) :
  all_digits ds -> span_digits ds = (ds, []).
Proof.
  intros H. rewrite <- (app_nil_r ds) at 1.
  apply span_digits_app; [assumption | exact I].
Qed.

Lemma digit_not_minus (c : N) : is_digit c = true -> N.eqb c ch_minus = false.
Proof.
  unfold is_digit, ch_minus. intros H. apply andb_true_iff in H.
  destruct H as [H _]. apply N.leb_le in H. apply N.eqb_neq. lia.
Qed.

Lemma digit_not_space (c : N) : is_digit c = true -> is_space c = false.
Proof.
  unfold is_digit. intros H. apply andb_true_iff in H.
  destruct H as [H1 H2]. apply N.leb_le in H1, H2. unfold is_space.
  repeat match goal with
         | |- context [N.leb ?a ?b] => destruct (N.leb_spec a b); try lia
         | |- context [N.eqb ?a ?b] => destruct (N.eqb_spec a b); try lia
         end;
  try reflexivity.
Qed.

(** [float] reads back the digits of a whole number. *)
Lemma float_of_token_digits (ds : pystr) :
  all_digits ds -> ds <> [] ->
  float_of_token ds = Some (Z.of_N (digits_value ds) # 1).
Proof.
  intros Hd Hne. unfold float_of_token.
  destruct ds as [|c b]; [congruence |].
  rewrite (digit_not_minus c) by (inversion Hd; assumption).
  rewrite (span_digits_all _ Hd). unfold decimal_value.
  rewrite app_nil_r. reflexivity.
Qed.

(** [float] reads back digits, a dot and digits. *)
Lemma float_of_token_decimal (ip fp : pystr) :
  all_digits ip -> all_digits fp -> ip <> [] -> fp <> [] ->
  float_of_token (ip ++ ch_dot :: fp) = Some (decimal_value false ip fp).
Proof.
  intros Hi Hf Hine Hfne. unfold float_of_token.
  destruct ip as [|c b] eqn:E; [congruence |]. rewrite <- E in *.
  assert (Hc : is_digit c = true) by (rewrite E in Hi; inversion Hi; assumption).
  replace (ip ++ ch_dot :: fp) with (c :: b ++ ch_dot :: fp) by (rewrite E; reflexivity).
  rewrite (digit_not_minus c Hc).
  change (c :: b ++ ch_dot :: fp) with ((c :: b) ++ ch_dot :: fp).
  rewrite <- E.
  rewrite (span_digits_app ip (ch_dot :: fp) Hi) by reflexivity.
  rewrite N.eqb_refl. rewrite (span_digits_all _ Hf).
  destruct (ip ++ fp) eqn:E2; [|reflexivity].
  apply app_eq_nil in E2. destruct E2; congruence.
Qed.

Lemma frac_ok_table :
  forallb frac_ok (List.map N.of_nat (seq 0 (N.to_nat 10000))) = true.
Proof. vm_compute. reflexivity. Qed.

Lemma frac_ok_all (k : N) : (k < 10000)%N -> frac_ok k = true.
Proof.
  intros Hk. pose proof frac_ok_table as H.
  rewrite forallb_forall in H. apply H.
  apply in_map_iff. exists (N.to_nat k). split; [apply N2Nat.id |].
  apply in_seq. lia.
Qed.

Lemma frac_digits_spec (k : N) :
  (k < 10000)%N ->
  all_digits (frac_digits k) /\ frac_digits k <> []
  /\ (digits_value (frac_digits k) * 10000
      = k * N.pos (pow10 (List.length (frac_digits k))))%N.
Proof.
  intros Hk. pose proof (frac_ok_all k Hk) as H. unfold frac_ok in H.
  apply andb_true_iff in H. destruct H as [H H3].
  apply andb_true_iff in H. destruct H as [H1 H2].
  split; [|split].
  - apply Forall_forall. apply forallb_forall. exact H1.
  - intros E. rewrite E in H2. discriminate.
  - apply N.eqb_eq. exact H3.
Qed.

Lemma float_of_repr_body (n : N) :
  exists q, float_of_token (repr_body n) = Some q
            /\ (q == Z.of_N n # 10000)%Q.
Proof.
  unfold repr_body.
  destruct (frac_digits_spec (n mod 10000)) as (Hf & Hne & Hv).
  { apply N.mod_lt. discriminate. }
  rewrite float_of_token_decimal;
    auto using nat_digits_digits, nat_digits_nonempty.
  eexists; split; [reflexivity |].
  unfold decimal_value, Qeq. cbn [Qnum Qden].
  rewrite digits_value_app, digits_value_nat_digits.
  set (p := pow10 (List.length (frac_digits (n mod 10000)))) in *.
  set (v := digits_value (frac_digits (n mod 10000))) in *.
  pose proof (N.div_mod n 10000) as Hdm.
  assert (Hn : (n = 10000 * (n / 10000) + n mod 10000)%N)
    by (apply Hdm; discriminate).
  set (a := (n / 10000)%N) in *. set (b := (n mod 10000)%N) in *.
  clearbody a b v. rewrite Hn. clear Hn Hdm.
  change (Z.pos p) with (Z.of_N (N.pos p)).
  clearbody p. clear Hf Hne. revert Hv. generalize (N.pos p).
  intros P Hv. nia.
Qed.

Lemma digits_no_space (s : pystr) : all_digits s -> no_space s.
Proof.
  intros H. eapply Forall_impl; [|exact H]. apply digit_not_space.
Qed.

Lemma rstrip_word (y x : pystr) :
  no_space x -> x <> [] -> rstrip (y ++ x) = y ++ x.
Proof.
  intros Hx Hne. destruct (exists_last Hne) as (x' & c & ->).
  rewrite app_assoc. apply rstrip_snoc_nonspace.
  apply Forall_app in Hx. destruct Hx as [_ Hc]. inversion Hc. assumption.
Qed.

Lemma lstrip_word (x y : pystr) :
  no_space x -> x <> [] -> lstrip (x ++ y) = x ++ y.
Proof.
  intros Hx Hne. destruct x as [|c x]; [congruence |].
  apply lstrip_nonspace. inversion Hx. assumption.
Qed.

Lemma split_from_word (w cur rest : pystr) (b : bool) :
  no_space w ->
  split_from cur b (w ++ rest)
  = split_from (rev w ++ cur) (match w with [] => b | _ => false end) rest.
Proof.
  intros Hw. revert cur b.
  induction Hw as [|c w Hc _ IH]; intros cur b; [reflexivity |].
  cbn [app split_from]. rewrite Hc, IH. cbn [rev].
  rewrite <- app_assoc. cbn [app].
  destruct w; reflexivity.
Qed.

Lemma split_three_words (a b c : pystr) :
  no_space a -> no_space b -> no_space c ->
  a <> [] -> b <> [] -> c <> [] ->
  re_split_ws (a ++ 32%N :: b ++ 32%N :: c) = [a; b; c].
Proof.
  intros Ha Hb Hc Hane Hbne Hcne. unfold re_split_ws.
  rewrite (split_from_word a) by assumption.
  destruct a as [|a0 a']; [congruence |].
  cbn [split_from]. change (is_space 32) with true. cbv iota.
  rewrite app_nil_r, rev_involutive.
  rewrite (split_from_word b) by assumption.
  destruct b as [|b0 b']; [congruence |].
  cbn [split_from]. change (is_space 32) with true. cbv iota.
  rewrite app_nil_r, rev_involutive.
  rewrite <- (app_nil_r c) at 1.
  rewrite (split_from_word c) by assumption.
  cbn [split_from]. rewrite app_nil_r, rev_involutive. reflexivity.
Qed.

Lemma filter_kept_digits (s : pystr) : all_digits s -> filter kept s = s.
Proof.
  induction 1 as [|c s Hc _ IH]; [reflexivity |].
  cbn [filter]. unfold kept at 1. rewrite Hc. cbn [orb]. rewrite IH.
  reflexivity.
Qed.

End DigitFacts.

(** ** Parsing what the formatter writes *)

Module RoundTripFacts.
Import Py Dms Fmt Shape PyFacts DmsFacts DigitFacts.

Lemma plain_upper (c : N) : plain c -> upper_cp c = [c].
Proof.
  intros [H | H].
  - unfold is_digit in H. apply andb_true_iff in H. destruct H as [H1 H2].
    apply N.leb_le in H1, H2. unfold upper_cp.
    destruct (N.leb_spec 97 c); [lia |]. cbn [andb].
    repeat match goal with
           | |- context [N.eqb c ?k] =>
               destruct (N.eqb_spec c k); [lia |]
           end.
    reflexivity.
  - cbn [In] in H.
    repeat (destruct H as [<- | H]; [reflexivity |]). contradiction.
Qed.

Lemma plain_not_letter (c o : N) :
  plain c -> (65 <= o <= 90)%N -> c <> o.
Proof.
  intros [H | H] Ho.
  - unfold is_digit in H. apply andb_true_iff in H. destruct H as [H1 H2].
    apply N.leb_le in H1, H2. lia.
  - cbn [In] in H.
    repeat (destruct H as [<- | H]; [lia |]). contradiction.
Qed.

Lemma digits_plain (s : pystr) : all_digits s -> Forall plain s.
Proof. intros H. eapply Forall_impl; [|exact H]. intros c Hc. left. exact Hc. Qed.

Lemma dms_prefix_plain (D M ip fp : pystr) :
  all_digits D -> all_digits M -> all_digits ip -> all_digits fp ->
  Forall plain (dms_prefix D M (ip ++ ch_dot :: fp)).
Proof.
  intros HD HM Hi Hf. unfold dms_prefix.
  repeat (apply Forall_app; split); auto using digits_plain;
    repeat (constructor; [right; cbn; tauto |]);
    auto using digits_plain; try constructor.
Qed.

Lemma replace_after_prefix (old new p rest : pystr) :
  Forall plain p ->
  match old with o :: _ => (65 <= o <= 90)%N | [] => False end ->
  replace old new (p ++ rest) = p ++ replace old new rest.
Proof.
  intros Hp Ho. destruct old as [|o old']; [contradiction |].
  apply replace_skips_prefix.
  eapply Forall_impl; [|exact Hp]. intros c Hc.
  apply plain_not_letter; assumption.
Qed.

Lemma normalize_formatted (D M ip fp : pystr) (is_lat neg : bool) :
  all_digits D -> all_digits M -> all_digits ip -> all_digits fp ->
  D <> [] ->
  normalize (dms_prefix D M (ip ++ ch_dot :: fp) ++ direction_of is_lat neg)
  = dms_prefix D M (ip ++ ch_dot :: fp) ++ short_direction is_lat neg.
Proof.
  intros HD HM Hi Hf HDne.
  pose proof (dms_prefix_plain D M ip fp HD HM Hi Hf) as Hp.
  set (p := dms_prefix D M (ip ++ ch_dot :: fp)) in *.
  unfold normalize.
  assert (Hup : upper (p ++ direction_of is_lat neg) = p ++ direction_of is_lat neg).
  { rewrite upper_app. f_equal.
    - apply upper_fixed. eapply Forall_impl; [|exact Hp]. apply plain_upper.
    - destruct is_lat, neg; reflexivity. }
  rewrite Hup.
  assert (Hst : strip (p ++ direction_of is_lat neg) = p ++ direction_of is_lat neg).
  { unfold strip.
    assert (Hl : lstrip (p ++ direction_of is_lat neg) = p ++ direction_of is_lat neg).
    { unfold p, dms_prefix. rewrite <- app_assoc.
      apply lstrip_word; auto using digits_no_space. }
    rewrite Hl.
    assert (Hd : exists d0, direction_of is_lat neg = d0 ++ [41%N]).
    { destruct is_lat, neg; eexists; cbv; 
      match goal with |- ?a :: ?b :: ?c :: ?d :: ?e :: ?f = _ => instantiate (1 := [a;b;c;d;e]) end; reflexivity. }
    destruct Hd as [d0 ->]. rewrite app_assoc.
    apply rstrip_snoc_nonspace. reflexivity. }
  rewrite Hst.
  unfold LU, LS, BT, BB.
  repeat (rewrite replace_after_prefix; [| exact Hp | cbv; split; discriminate]).
  f_equal. destruct is_lat, neg; reflexivity.
Qed.

Ltac norm_app := repeat (progress cbn [app] || rewrite <- app_assoc).

Lemma tokens_formatted (D M ip fp : pystr) (is_lat neg : bool) :
  all_digits D -> all_digits M -> all_digits ip -> all_digits fp ->
  D <> [] -> M <> [] -> fp <> [] ->
  tokens (dms_prefix D M (ip ++ ch_dot :: fp) ++ direction_of is_lat neg)
  = [D; M; ip ++ ch_dot :: fp].
Proof.
  intros HD HM Hi Hf HDne HMne Hfne.
  unfold tokens. rewrite normalize_formatted by assumption.
  unfold clean, dms_prefix.
  repeat rewrite filter_app.
  rewrite (filter_kept_digits D), (filter_kept_digits M),
    (filter_kept_digits ip) by assumption.
  assert (HS : filter kept (ch_dot :: fp) = ch_dot :: fp).
  { cbn [filter]. change (kept ch_dot) with true. cbv iota.
    rewrite filter_kept_digits by assumption. reflexivity. }
  rewrite HS.
  assert (Hdir : filter kept (short_direction is_lat neg) = [32%N])
    by (destruct is_lat, neg; reflexivity).
  rewrite Hdir.
  change (filter kept degree_mark) with (@nil N).
  change (filter kept (str " ")) with [32%N].
  change (filter kept (str "' ")) with [32%N].
  change (filter kept [34%N; 32%N]) with [32%N].
  set (S := ip ++ ch_dot :: fp).
  assert (HSns : no_space S).
  { apply Forall_app. split; [apply digits_no_space; assumption |].
    constructor; [reflexivity | apply digits_no_space; assumption]. }
  assert (HSne : S <> []) by (unfold S; destruct ip; discriminate).
  set (W := D ++ 32%N :: M ++ 32%N :: S).
  replace ((D ++ [] ++ [32%N] ++ M ++ [32%N] ++ S ++ [32%N]) ++ [32%N])
    with ((W ++ [32%N]) ++ [32%N])
    by (unfold W; norm_app; reflexivity).
  assert (Hstrip : strip ((W ++ [32%N]) ++ [32%N]) = W).
  { unfold strip.
    replace ((W ++ [32%N]) ++ [32%N]) with (D ++ (32%N :: M ++ 32%N :: S ++ [32%N; 32%N]))
      by (unfold W; norm_app; reflexivity).
    rewrite lstrip_word by auto using digits_no_space.
    replace (D ++ (32%N :: M ++ 32%N :: S ++ [32%N; 32%N]))
      with ((((D ++ 32%N :: M ++ [32%N]) ++ S) ++ [32%N]) ++ [32%N])
      by (norm_app; reflexivity).
    rewrite !rstrip_snoc_space by reflexivity.
    rewrite rstrip_word by assumption.
    unfold W; norm_app; reflexivity. }
  rewrite Hstrip. unfold W.
  apply split_three_words; auto using digits_no_space.
Qed.

Lemma south_or_west_formatted (D M ip fp : pystr) (is_lat neg : bool) :
  all_digits D -> all_digits M -> all_digits ip -> all_digits fp ->
  D <> [] ->
  south_or_west
    (dms_prefix D M (ip ++ ch_dot :: fp) ++ direction_of is_lat neg)
  = neg.
Proof.
  intros HD HM Hi Hf HDne. unfold south_or_west.
  rewrite normalize_formatted by assumption.
  pose proof (dms_prefix_plain D M ip fp HD HM Hi Hf) as Hp.
  rewrite !contains_app.
  rewrite (contains_false ch_S), (contains_false ch_W).
  - destruct is_lat, neg; reflexivity.
  - eapply Forall_impl; [|exact Hp]. intros c Hc.
    apply plain_not_letter; [assumption | cbv; split; discriminate].
  - eapply Forall_impl; [|exact Hp]. intros c Hc.
    apply plain_not_letter; [assumption | cbv; split; discriminate].
Qed.

Lemma int_of_float_floor (x : Q) : (0 <= x)%Q -> int_of_float x = Qfloor x.
Proof.
  destruct x as [n d]. unfold Qle, int_of_float, Qfloor. cbn [Qnum Qden].
  intros H. apply Z.quot_div_nonneg; lia.
Qed.

Lemma Qfloor_nonneg (x : Q) : (0 <= x)%Q -> 0 <= Qfloor x.
Proof.
  intros H. change 0 with (Qfloor 0). apply Qfloor_resp_le. exact H.
Qed.

Lemma round_half_even_close (y : Q) :
  (Qabs (inject_Z (round_half_even y) - y) <= 1 # 2)%Q.
Proof.
  unfold round_half_even.
  pose proof (Qfloor_le y) as Hlo. pose proof (Qlt_floor y) as Hhi.
  rewrite inject_Z_plus in Hhi. change (inject_Z 1) with 1%Q in Hhi.
  apply Qabs_Qle_condition.
  destruct (Qcompare_spec (y - inject_Z (Qfloor y)) (1 # 2)) as [E | E | E].
  - destruct (Z.even (Qfloor y));
      [|rewrite inject_Z_plus; change (inject_Z 1) with 1%Q]; split; lra.
  - split; lra.
  - rewrite inject_Z_plus. change (inject_Z 1) with 1%Q. split; lra.
Qed.

Lemma round_half_even_nonneg (y : Q) : (0 <= y)%Q -> 0 <= round_half_even y.
Proof.
  intros H. pose proof (Qfloor_nonneg y H). unfold round_half_even.
  destruct (Qcompare _ _); [destruct (Z.even _) | |]; lia.
Qed.

(** Degrees, minutes and rounded seconds add up to the value, up to half
    a unit of the fourth decimal of the seconds. *)
Lemma roundtrip_arith (a q : Q) (d m R : Z) :
  d = Qfloor a ->
  m = Qfloor ((a - inject_Z d) * 60) ->
  R = round_half_even (((a - inject_Z d) * 60 - inject_Z m) * 60 * 10000) ->
  (q == R # 10000)%Q ->
  (Qabs (inject_Z d + inject_Z m / 60 + q / 3600 - a) <= 1 # 72000000)%Q.
Proof.
  intros Hd Hm HR Hq.
  pose proof (round_half_even_close
                (((a - inject_Z d) * 60 - inject_Z m) * 60 * 10000)) as Hc.
  rewrite <- HR in Hc.
  apply Qabs_Qle_condition in Hc. destruct Hc as [Hc1 Hc2].
  assert (HRq : (inject_Z R == q * 10000)%Q).
  { rewrite Hq. unfold Qeq, inject_Z, Qmult. cbn [Qnum Qden]. lia. }
  rewrite HRq in Hc1, Hc2.
  unfold Qdiv. change (/ 60)%Q with (1 # 60)%Q.
  change (/ 3600)%Q with (1 # 3600)%Q.
  apply Qabs_Qle_condition. split; lra.
Qed.

Lemma int_to_str_nonneg (z : Z) : 0 <= z -> int_to_str z = nat_digits (Z.to_N z).
Proof. destruct z; [reflexivity | reflexivity | lia]. Qed.

Lemma repr_float_round (R : Z) :
  0 <= R -> repr_float (R # 10000) = repr_body (Z.to_N R).
Proof.
  intros HR. unfold repr_float, repr_body.
  assert (Hs : Qltb (R # 10000) 0 = false).
  { destruct (Qltb (R # 10000) 0) eqn:E; [|reflexivity].
    apply Qltb_lt in E. unfold Qlt in E. cbn [Qnum Qden] in E. lia. }
  rewrite Hs.
  assert (Hn : Z.abs_N (Qfloor (Qabs (R # 10000) * 10000)) = Z.to_N R).
  { unfold Qabs, Qmult, Qfloor. cbn [Qnum Qden].
    rewrite (Z.abs_eq R HR).
    change (Z.pos (10000 * 1)) with 10000.
    rewrite Z.div_mul by discriminate. lia. }
  rewrite Hn. reflexivity.
Qed.

Lemma dd_to_dms_shape (dd : Q) (is_lat : bool) :
  let a := Qabs dd in
  let d := Qfloor a in
  let m := Qfloor ((a - inject_Z d) * 60) in
  let R := round_half_even (((a - inject_Z d) * 60 - inject_Z m) * 60 * 10000) in
  0 <= d /\ 0 <= m /\ 0 <= R /\
  dd_to_dms dd is_lat
  = dms_prefix (nat_digits (Z.to_N d)) (nat_digits (Z.to_N m))
               (repr_body (Z.to_N R))
    ++ direction_of is_lat (Qltb dd 0).
Proof.
  intros a d m R.
  assert (Ha : (0 <= a)%Q) by apply Qabs_nonneg.
  assert (Hd : 0 <= d) by (apply Qfloor_nonneg; exact Ha).
  pose proof (Qfloor_le a) as Hda. fold d in Hda.
  assert (Hmf : (0 <= (a - inject_Z d) * 60)%Q) by lra.
  assert (Hm : 0 <= m) by (apply Qfloor_nonneg; exact Hmf).
  pose proof (Qfloor_le ((a - inject_Z d) * 60)) as Hmm. fold m in Hmm.
  assert (Hx : (0 <= ((a - inject_Z d) * 60 - inject_Z m) * 60 * 10000)%Q) by lra.
  assert (HR : 0 <= R) by (apply round_half_even_nonneg; exact Hx).
  repeat split; try assumption.
  unfold dd_to_dms. fold a.
  rewrite (int_of_float_floor a Ha). fold d.
  rewrite (int_of_float_floor _ Hmf). fold m.
  unfold round4. fold R.
  rewrite (repr_float_round R HR).
  rewrite !int_to_str_nonneg by assumption.
  unfold dms_prefix. norm_app. reflexivity.
Qed.

Lemma parse_formatted (dd : Q) (is_lat : bool) :
  exists q : Q,
    let a := Qabs dd in
    let d := Qfloor a in
    let m := Qfloor ((a - inject_Z d) * 60) in
    let R := round_half_even (((a - inject_Z d) * 60 - inject_Z m) * 60 * 10000) in
    (q == R # 10000)%Q /\
    parse_dms (VStr (dd_to_dms dd is_lat))
    = VFloat (dms_value (Qltb dd 0) (inject_Z d) (inject_Z m) q).
Proof.
  destruct (dd_to_dms_shape dd is_lat) as (Hd & Hm & HR & Hshape).
  cbv zeta in *.
  set (a := Qabs dd) in *. set (d := Qfloor a) in *.
  set (m := Qfloor ((a - inject_Z d) * 60)) in *.
  set (R := round_half_even _) in *.
  destruct (float_of_repr_body (Z.to_N R)) as (q & Hq & Hqv).
  exists q. split.
  { rewrite Hqv. rewrite Z2N.id by assumption. reflexivity. }
  rewrite Hshape, parse_dms_str.
  destruct (frac_digits_spec (Z.to_N R mod 10000)) as (Hf & Hfne & _).
  { apply N.mod_lt. discriminate. }
  unfold repr_body in *.
  rewrite tokens_formatted, south_or_west_formatted;
    auto using nat_digits_digits, nat_digits_nonempty.
  unfold token_values.
  rewrite !float_of_token_digits, Hq
    by auto using nat_digits_digits, nat_digits_nonempty.
  rewrite !digits_value_nat_digits, !Z2N.id by assumption.
  assert (Hnn : Qltb (d # 1) 0 = false).
  { destruct (Qltb (d # 1) 0) eqn:E; [|reflexivity].
    apply Qltb_lt in E. unfold Qlt in E. cbn [Qnum Qden] in E. lia. }
  rewrite Hnn, orb_false_r. reflexivity.
Qed.

(** C1. For every decimal degree value d and either axis, parsing the text
    that the formatter writes gives a number within 1/3600 of d:
    |parse_dms(dd_to_dms(d, is_lat)) - d| <= 1/3600. *)
Theorem dms_round_trip (dd : Q) (is_lat : bool) :
  exists r : Q,
    parse_dms (VStr (dd_to_dms dd is_lat)) = VFloat r
    /\ (Qabs (r - dd) <= 1 # 3600)%Q.
Proof.
  destruct (parse_formatted dd is_lat) as (q & Hq & Hp). cbv zeta in *.
  eexists. split; [exact Hp |].
  pose proof (roundtrip_arith (Qabs dd) q _ _ _ eq_refl eq_refl eq_refl Hq) as H.
  set (d := Qfloor (Qabs dd)) in *.
  set (m := Qfloor ((Qabs dd - inject_Z d) * 60)) in *.
  assert (Hd : (Qabs (inject_Z d) == inject_Z d)%Q).
  { apply Qabs_pos. change 0%Q with (inject_Z 0). rewrite <- Zle_Qle.
    apply Qfloor_nonneg, Qabs_nonneg. }
  apply Qabs_Qle_condition in H. destruct H as [H1 H2].
  unfold dms_value.
  unfold Qdiv in *. change (/ 60)%Q with (1 # 60)%Q in *.
  change (/ 3600)%Q with (1 # 3600)%Q in *.
  destruct (Qltb dd 0) eqn:E; apply Qabs_Qle_condition; rewrite Hd.
  - apply Qltb_lt in E.
    assert (Ha : (Qabs dd == - dd)%Q) by (apply Qabs_neg; lra).
    rewrite Ha in H1, H2. split; lra.
  - assert (E' : (0 <= dd)%Q).
    { apply Qnot_lt_le. intros C. apply Qltb_lt in C. congruence. }
    assert (Ha : (Qabs dd == dd)%Q) by (apply Qabs_pos; exact E').
    rewrite Ha in H1, H2. split; lra.
Qed.

End RoundTripFacts.

(** ** Doubles: rounding to the nearest one *)

Module Float64Facts.
Import Fmt Float64.

Lemma Qabs_pos_eq (a : Q) : (0 < a)%Q -> Qabs a = a.
Proof.
  destruct a as [n d]. unfold Qlt, Qabs. cbn. intros H.
  rewrite Z.abs_eq by lia. reflexivity.
Qed.

Lemma two_pos (e : Z) : (0 < 2 ^ e)%Q.
Proof. apply Qpower_0_lt. reflexivity. Qed.

Lemma two_succ (e : Z) : (2 ^ (e + 1) == 2 * 2 ^ e)%Q.
Proof. rewrite Qpower_plus by discriminate. change (2 ^ 1)%Q with 2%Q. ring. Qed.

Lemma two_le (n m : Z) : n <= m -> (2 ^ n <= 2 ^ m)%Q.
Proof. intros H. apply Qpower_le_compat_l; [exact H | discriminate]. Qed.

Lemma two_lt_inv (n m : Z) : (2 ^ n < 2 ^ m)%Q -> n < m.
Proof. intros H. apply (Qpower_lt_compat_l_inv 2); [exact H | reflexivity]. Qed.

Lemma two_Z (n : Z) : 0 <= n -> (inject_Z (2 ^ n) == 2 ^ n)%Q.
Proof. intros H. rewrite Zpower_Qpower by exact H. reflexivity. Qed.

Lemma exponent_spec (a : Q) :
  (0 < a)%Q ->
  (2 ^ exponent a <= a)%Q /\ (a < 2 ^ (exponent a + 1))%Q.
Proof.
  intros Ha. unfold exponent. destruct (Qle_bool 1 a) eqn:E.
  - apply Qle_bool_iff in E.
    assert (Hf : 1 <= Qfloor a).
    { change 1 with (Qfloor 1). apply Qfloor_resp_le. exact E. }
    destruct (Z.log2_spec (Qfloor a)) as [L U]; [lia |].
    pose proof (Z.log2_nonneg (Qfloor a)) as Hn.
    split.
    + rewrite <- two_Z by exact Hn.
      apply Qle_trans with (inject_Z (Qfloor a)); [| apply Qfloor_le].
      rewrite <- Zle_Qle. exact L.
    + rewrite <- two_Z by lia.
      apply Qlt_le_trans with (inject_Z (Qfloor a + 1)); [apply Qlt_floor |].
      rewrite <- Zle_Qle. change (Z.succ (Z.log2 (Qfloor a)))
        with (Z.log2 (Qfloor a) + 1) in U. lia.
  - assert (E' : (a < 1)%Q).
    { apply Qnot_le_lt. intros C. apply Qle_bool_iff in C. congruence. }
    assert (Hinv : (1 < / a)%Q).
    { apply Qlt_shift_inv_l; [exact Ha |]. lra. }
    assert (Hc : 2 <= Qceiling (/ a)).
    { pose proof (Qle_ceiling (/ a)) as H.
      assert (H1 : (inject_Z 1 < inject_Z (Qceiling (/ a)))%Q).
      { change (inject_Z 1) with 1%Q. lra. }
      rewrite <- Zlt_Qlt in H1. lia. }
    destruct (Z.log2_up_spec (Qceiling (/ a))) as [L U]; [lia |].
    set (k := Z.log2_up (Qceiling (/ a))) in *.
    assert (Hk : 0 < k) by (apply Z.log2_up_pos; lia).
    assert (Hmul : (a * / a == 1)%Q) by (apply Qmult_inv_r; lra).
    split.
    + rewrite Qpower_opp.
      apply Qle_shift_inv_r; [apply two_pos |].
      assert (Hle : (/ a <= 2 ^ k)%Q).
      { apply Qle_trans with (inject_Z (Qceiling (/ a))); [apply Qle_ceiling |].
        rewrite <- two_Z by lia. rewrite <- Zle_Qle. exact U. }
      rewrite <- Hmul. rewrite (Qmult_comm a (2 ^ k)), (Qmult_comm a (/ a)).
      apply Qmult_le_compat_r; [exact Hle | lra].
    + replace (- k + 1) with (- (k - 1)) by lia. rewrite Qpower_opp.
      apply Qlt_shift_inv_l; [apply two_pos |].
      assert (Hlt : (2 ^ (k - 1) < / a)%Q).
      { apply Qle_lt_trans with (inject_Z (Qceiling (/ a) - 1));
          [| apply Qceiling_lt].
        rewrite <- two_Z by lia. rewrite <- Zle_Qle.
        change (Z.pred k) with (k - 1) in L. lia. }
      rewrite <- Hmul. apply Qmult_lt_l; [exact Ha | exact Hlt].
Qed.

Lemma exponent_unique (a : Q) (e : Z) :
  (2 ^ e <= a)%Q -> (a < 2 ^ (e + 1))%Q -> exponent a = e.
Proof.
  intros L U.
  assert (Ha : (0 < a)%Q) by (pose proof (two_pos e); lra).
  destruct (exponent_spec a Ha) as [L' U'].
  assert (e < exponent a + 1) by (apply two_lt_inv; lra).
  assert (exponent a < e + 1) by (apply two_lt_inv; lra).
  lia.
Qed.

(** Rounding to the nearest integer. *)
Lemma rhe_range (x : Q) :
  Qfloor x <= round_half_even x <= Qfloor x + 1.
Proof.
  unfold round_half_even.
  destruct (Qcompare _ _); [destruct (Z.even _) |..]; lia.
Qed.

Lemma rhe_Z (n : Z) : round_half_even (inject_Z n) = n.
Proof.
  unfold round_half_even. rewrite Qfloor_Z.
  destruct (Qcompare_spec (inject_Z n - inject_Z n) (1 # 2)) as [E|L|G];
    [exfalso; lra | reflexivity | exfalso; lra].
Qed.

Lemma rhe_mono (x y : Q) :
  (x <= y)%Q -> round_half_even x <= round_half_even y.
Proof.
  intros H. pose proof (Qfloor_resp_le x y H) as Hf.
  destruct (Z.eq_dec (Qfloor x) (Qfloor y)) as [E | NE].
  - unfold round_half_even. rewrite <- E.
    destruct (Qcompare_spec (x - inject_Z (Qfloor x)) (1 # 2)) as [E1|L1|G1];
    destruct (Qcompare_spec (y - inject_Z (Qfloor x)) (1 # 2)) as [E2|L2|G2];
      try (destruct (Z.even (Qfloor x))); try lia; exfalso; lra.
  - pose proof (rhe_range x). pose proof (rhe_range y). lia.
Qed.

Lemma rhe_ge (x : Q) (n : Z) : (inject_Z n <= x)%Q -> n <= round_half_even x.
Proof. intros H. rewrite <- (rhe_Z n). apply rhe_mono. exact H. Qed.

Lemma rhe_le (x : Q) (n : Z) : (x <= inject_Z n)%Q -> round_half_even x <= n.
Proof. intros H. rewrite <- (rhe_Z n). apply rhe_mono. exact H. Qed.

Lemma rhe_close (y : Q) :
  (Qabs (inject_Z (round_half_even y) - y) <= 1 # 2)%Q.
Proof.
  unfold round_half_even.
  pose proof (Qfloor_le y) as Hlo. pose proof (Qlt_floor y) as Hhi.
  rewrite inject_Z_plus in Hhi. change (inject_Z 1) with 1%Q in Hhi.
  apply Qabs_Qle_condition.
  destruct (Qcompare_spec (y - inject_Z (Qfloor y)) (1 # 2)) as [E|L|G];
    [destruct (Z.even (Qfloor y)) |..];
    rewrite ?inject_Z_plus; change (inject_Z 1) with 1%Q; split; lra.
Qed.

(** The shape of a rounded positive number. *)
Lemma round64_pos (a : Q) :
  (0 < a)%Q ->
  round64 a
  = (inject_Z (round_half_even (a / 2 ^ (exponent a - 52)))
     * 2 ^ (exponent a - 52))%Q.
Proof.
  intros Ha. unfold round64, ulp. rewrite (Qabs_pos_eq a Ha).
  destruct (Qeq_bool a 0) eqn:E; [|reflexivity].
  apply Qeq_bool_iff in E. lra.
Qed.

Lemma round64_zero (a : Q) : (a == 0)%Q -> round64 a = 0%Q.
Proof.
  intros H. unfold round64. apply Qeq_bool_iff in H. rewrite H. reflexivity.
Qed.

Lemma scaled_bounds (a : Q) :
  (0 < a)%Q ->
  (inject_Z (2 ^ 52) <= a / 2 ^ (exponent a - 52))%Q
  /\ (a / 2 ^ (exponent a - 52) < inject_Z (2 ^ 53))%Q.
Proof.
  intros Ha. destruct (exponent_spec a Ha) as [L U].
  set (e := exponent a) in *.
  pose proof (two_pos (e - 52)) as Hu.
  rewrite !two_Z by lia.
  assert (E1 : (2 ^ e == 2 ^ 52 * 2 ^ (e - 52))%Q).
  { rewrite <- Qpower_plus by discriminate. replace (52 + (e - 52)) with e by lia.
    reflexivity. }
  assert (E2 : (2 ^ (e + 1) == 2 ^ 53 * 2 ^ (e - 52))%Q).
  { rewrite <- Qpower_plus by discriminate.
    replace (53 + (e - 52)) with (e + 1) by lia. reflexivity. }
  split.
  - apply Qle_shift_div_l; [exact Hu |]. rewrite <- E1. exact L.
  - apply Qlt_shift_div_r; [exact Hu |]. rewrite <- E2. exact U.
Qed.

Lemma round64_bounds (a : Q) :
  (0 < a)%Q ->
  (2 ^ exponent a <= round64 a)%Q /\ (round64 a <= 2 ^ (exponent a + 1))%Q.
Proof.
  intros Ha. rewrite (round64_pos a Ha).
  destruct (scaled_bounds a Ha) as [L U].
  set (e := exponent a) in *.
  pose proof (two_pos (e - 52)) as Hu.
  assert (E1 : (2 ^ e == inject_Z (2 ^ 52) * 2 ^ (e - 52))%Q).
  { rewrite two_Z by lia. rewrite <- Qpower_plus by discriminate.
    replace (52 + (e - 52)) with e by lia. reflexivity. }
  assert (E2 : (2 ^ (e + 1) == inject_Z (2 ^ 53) * 2 ^ (e - 52))%Q).
  { rewrite two_Z by lia. rewrite <- Qpower_plus by discriminate.
    replace (53 + (e - 52)) with (e + 1) by lia. reflexivity. }
  rewrite E1, E2.
  split; apply Qmult_le_compat_r; try lra; rewrite <- Zle_Qle.
  - apply rhe_ge. exact L.
  - apply rhe_le. lra.
Qed.

Lemma exponent_mono (a b : Q) :
  (0 < a)%Q -> (a <= b)%Q -> exponent a <= exponent b.
Proof.
  intros Ha H. destruct (exponent_spec a Ha) as [La Ua].
  destruct (exponent_spec b) as [Lb Ub]; [lra |].
  assert (exponent a < exponent b + 1) by (apply two_lt_inv; lra). lia.
Qed.

Lemma round64_nonneg (a : Q) : (0 <= a)%Q -> (0 <= round64 a)%Q.
Proof.
  intros H. destruct (Qeq_dec a 0) as [E | NE].
  - rewrite (round64_zero a E). lra.
  - assert (Ha : (0 < a)%Q) by (apply Qle_lteq in H; destruct H; [assumption | exfalso; apply NE; symmetry; assumption]).
    destruct (round64_bounds a Ha) as [L _].
    pose proof (two_pos (exponent a)). lra.
Qed.

Lemma round64_mono (a b : Q) :
  (0 <= a)%Q -> (a <= b)%Q -> (round64 a <= round64 b)%Q.
Proof.
  intros H0 H. destruct (Qeq_dec a 0) as [E | NE].
  - rewrite (round64_zero a E). apply round64_nonneg. lra.
  - assert (Ha : (0 < a)%Q) by (apply Qle_lteq in H0; destruct H0; [assumption | exfalso; apply NE; symmetry; assumption]).
    assert (Hb : (0 < b)%Q) by lra.
    pose proof (exponent_mono a b Ha H) as He.
    destruct (Z.eq_dec (exponent a) (exponent b)) as [E | NE'].
    + rewrite (round64_pos a Ha), (round64_pos b Hb), <- E.
      pose proof (two_pos (exponent a - 52)) as Hu.
      apply Qmult_le_compat_r; [| lra]. rewrite <- Zle_Qle.
      apply rhe_mono. apply Qmult_le_compat_r; [exact H |].
      apply Qlt_le_weak, Qinv_lt_0_compat. exact Hu.
    + destruct (round64_bounds a Ha) as [_ U].
      destruct (round64_bounds b Hb) as [L _].
      pose proof (two_le (exponent a + 1) (exponent b) ltac:(lia)). lra.
Qed.

Lemma rhe_comp (x y : Q) : (x == y)%Q -> round_half_even x = round_half_even y.
Proof.
  intros H. apply Z.le_antisymm; apply rhe_mono; rewrite H; apply Qle_refl.
Qed.

(** Whole numbers below 2^53 are doubles. *)
Lemma round64_Z (n : Z) :
  0 <= n < 2 ^ 53 -> (round64 (inject_Z n) == inject_Z n)%Q.
Proof.
  intros [H0 H1]. destruct (Z.eq_dec n 0) as [-> | NE]; [reflexivity |].
  assert (Ha : (0 < inject_Z n)%Q).
  { change 0%Q with (inject_Z 0). rewrite <- Zlt_Qlt. lia. }
  rewrite (round64_pos _ Ha).
  destruct (exponent_spec _ Ha) as [L U].
  set (e := exponent (inject_Z n)) in *.
  assert (He : e < 53).
  { apply two_lt_inv. rewrite <- (two_Z 53) by lia.
    apply Qle_lt_trans with (inject_Z n); [exact L |].
    rewrite <- Zlt_Qlt. exact H1. }
  assert (He0 : 0 <= e).
  { assert (0 < e + 1); [| lia]. apply two_lt_inv.
    apply Qle_lt_trans with (inject_Z n); [| exact U].
    change (2 ^ 0)%Q with (inject_Z 1). rewrite <- Zle_Qle. lia. }
  assert (Hu : (2 ^ (e - 52) == / inject_Z (2 ^ (52 - e)))%Q).
  { replace (e - 52) with (- (52 - e)) by lia. rewrite Qpower_opp.
    rewrite two_Z by lia. reflexivity. }
  assert (Hp : (0 < inject_Z (2 ^ (52 - e)))%Q).
  { rewrite two_Z by lia. apply two_pos. }
  rewrite (rhe_comp _ (inject_Z (n * 2 ^ (52 - e)))).
  - rewrite rhe_Z, Hu, inject_Z_mult.
    set (P := inject_Z (2 ^ (52 - e))) in *. field. apply Qnot_eq_sym, Qlt_not_eq, Hp.
  - rewrite Hu, inject_Z_mult.
    set (P := inject_Z (2 ^ (52 - e))) in *. field.
    apply Qnot_eq_sym, Qlt_not_eq, Hp.
Qed.

Lemma inject_Z_minus_1 (n : Z) : (inject_Z (n - 1) == inject_Z n - 1)%Q.
Proof. unfold Z.sub. rewrite inject_Z_plus. reflexivity. Qed.

(** Rounding next to an even whole number. *)
Lemma rhe_up_to_even (t : Q) (n : Z) :
  Z.even n = true -> (inject_Z n - (1 # 2) <= t)%Q -> n <= round_half_even t.
Proof.
  intros Hev H.
  assert (Hf : n - 1 <= Qfloor t).
  { assert (Hlt : (inject_Z (n - 1) < inject_Z (Qfloor t + 1))%Q).
    { pose proof (Qlt_floor t). rewrite inject_Z_minus_1. lra. }
    rewrite <- Zlt_Qlt in Hlt. lia. }
  destruct (Z.eq_dec (Qfloor t) (n - 1)) as [E | NE].
  - unfold round_half_even. rewrite E.
    assert (Hodd : Z.even (n - 1) = false).
    { rewrite Z.even_sub, Hev. reflexivity. }
    rewrite Hodd.
    destruct (Qcompare_spec (t - inject_Z (n - 1)) (1 # 2)) as [E1|L1|G1];
      try lia.
    exfalso. rewrite inject_Z_minus_1 in L1. lra.
  - pose proof (rhe_range t). lia.
Qed.

Lemma rhe_below_half (t : Q) (n : Z) :
  (t < inject_Z n - (1 # 2))%Q -> round_half_even t <= n - 1.
Proof.
  intros H.
  assert (Hf : Qfloor t <= n - 1).
  { assert (Hlt : (inject_Z (Qfloor t) < inject_Z n)%Q).
    { pose proof (Qfloor_le t). lra. }
    rewrite <- Zlt_Qlt in Hlt. lia. }
  destruct (Z.eq_dec (Qfloor t) (n - 1)) as [E | NE].
  - unfold round_half_even. rewrite E.
    destruct (Qcompare_spec (t - inject_Z (n - 1)) (1 # 2)) as [E1|L1|G1];
      try lia; exfalso; rewrite inject_Z_minus_1 in *; lra.
  - pose proof (rhe_range t). lia.
Qed.

(** The sum [lat + 80] rounds to 80 or more exactly from 2^-47 below 0. *)
Lemma round64_reaches_80 (x : Q) :
  (0 <= x)%Q ->
  ((80 <= round64 x)%Q <-> (80 - (1 # 2 ^ 47) <= x)%Q).
Proof.
  intros H0.
  assert (R80 : (round64 80 == 80)%Q) by (apply (round64_Z 80); lia).
  assert (R64 : (round64 64 == 64)%Q) by (apply (round64_Z 64); lia).
  destruct (Qlt_le_dec x 64) as [Hs | Hb].
  { pose proof (round64_mono x 64 H0 (Qlt_le_weak _ _ Hs)) as Hm.
    split; intros H; exfalso.
    - lra.
    - assert ((64 < 80 - (1 # 2 ^ 47))%Q) by reflexivity. lra. }
  destruct (Qlt_le_dec x 80) as [Hlt | Hge].
  - assert (He : exponent x = 6).
    { apply exponent_unique.
      - change (2 ^ 6)%Q with 64%Q. exact Hb.
      - change (2 ^ (6 + 1))%Q with 128%Q. lra. }
    assert (Hx : (0 < x)%Q) by lra.
    rewrite (round64_pos x Hx), He.
    change (2 ^ (6 - 52))%Q with (1 # 2 ^ 46)%Q.
    set (N := 80 * 2 ^ 46).
    assert (Hdiv : (x / (1 # 2 ^ 46) == x * inject_Z (2 ^ 46))%Q).
    { unfold Qdiv. change (/ (1 # 2 ^ 46))%Q with (inject_Z (2 ^ 46)).
      reflexivity. }
    rewrite (rhe_comp _ _ Hdiv).
    change (inject_Z (2 ^ 46)) with 70368744177664%Q.
    split; intros H.
    + apply Qnot_lt_le. intros C.
      assert (Hr : round_half_even (x * 70368744177664) <= N - 1).
      { apply rhe_below_half. unfold N.
        change (inject_Z (80 * 2 ^ 46)) with 5629499534213120%Q.
        change (1 # 2 ^ 47)%Q with (1 # 140737488355328)%Q in C. lra. }
      rewrite Zle_Qle in Hr. unfold N in Hr.
      change (inject_Z (80 * 2 ^ 46 - 1)) with 5629499534213119%Q in Hr.
      change (1 # 2 ^ 46)%Q with (1 # 70368744177664)%Q in H. lra.
    + assert (Hr : N <= round_half_even (x * 70368744177664)).
      { apply rhe_up_to_even; [reflexivity |]. unfold N.
        change (inject_Z (80 * 2 ^ 46)) with 5629499534213120%Q.
        change (1 # 2 ^ 47)%Q with (1 # 140737488355328)%Q in H. lra. }
      rewrite Zle_Qle in Hr. unfold N in Hr.
      change (inject_Z (80 * 2 ^ 46)) with 5629499534213120%Q in Hr.
      change (1 # 2 ^ 46)%Q with (1 # 70368744177664)%Q. lra.
  - pose proof (round64_mono 80 x ltac:(lra) Hge) as Hm.
    split; intros H.
    + assert ((80 - (1 # 2 ^ 47) <= 80)%Q) by (intro; discriminate). lra.
    + lra.
Qed.

Lemma two_half (e : Z) : (2 ^ (e - 1) == (1 # 2) * 2 ^ e)%Q.
Proof.
  replace e with ((e - 1) + 1) at 2 by lia. rewrite two_succ. ring.
Qed.

Lemma round64_above (a : Q) :
  (0 < a)%Q -> (round64 a <= a + 2 ^ (exponent a - 53))%Q.
Proof.
  intros Ha. rewrite (round64_pos a Ha).
  replace (exponent a - 53) with ((exponent a - 52) - 1) by lia.
  rewrite two_half.
  pose proof (two_pos (exponent a - 52)) as Hg.
  set (g := (2 ^ (exponent a - 52))%Q) in *.
  pose proof (rhe_close (a / g)) as Hc.
  apply Qabs_Qle_condition in Hc. destruct Hc as [_ Hc].
  assert (Ht : (a == a / g * g)%Q) by (field; lra).
  set (t := (a / g)%Q) in *.
  set (r := inject_Z (round_half_even t)) in *.
  assert (Hm : ((r - t) * g <= (1 # 2) * g)%Q)
    by (apply Qmult_le_compat_r; lra).
  lra.
Qed.

Lemma Qfloor_between (r : Q) (k : Z) :
  (inject_Z k <= r)%Q -> (r < inject_Z (k + 1))%Q -> Qfloor r = k.
Proof.
  intros L U.
  pose proof (Qfloor_le r) as Hl. pose proof (Qlt_floor r) as Hu.
  assert (H1 : (inject_Z k < inject_Z (Qfloor r + 1))%Q) by lra.
  assert (H2 : (inject_Z (Qfloor r) < inject_Z (k + 1))%Q) by lra.
  rewrite <- Zlt_Qlt in H1, H2. lia.
Qed.

(** The quotient by 6 of a double up to 512 has, as a double, the same
    whole part: the division never rounds up to the next whole number. *)
Lemma fdiv6_floor (x : Q) :
  (0 <= x)%Q -> (x < 512)%Q ->
  Qfloor (round64 (round64 x / 6)) = Qfloor (round64 x / 6).
Proof.
  intros H0 Hx.
  destruct (Qeq_dec x 0) as [E | NE].
  { rewrite (round64_zero x E). reflexivity. }
  assert (Ha : (0 < x)%Q) by (apply Qle_lteq in H0; destruct H0; [assumption | exfalso; apply NE; symmetry; assumption]).
  destruct (round64_bounds x Ha) as [Ly Uy].
  destruct (exponent_spec x Ha) as [Lx Ux].
  assert (He : exponent x < 9).
  { apply two_lt_inv. change (2 ^ 9)%Q with 512%Q. lra. }
  pose proof (round64_pos x Ha) as Hy.
  set (e := exponent x) in *.
  pose proof (two_pos (e - 52)) as Hg.
  pose proof (two_pos e) as Hpe.
  set (y := round64 x) in *.
  set (m := round_half_even (x / 2 ^ (e - 52))) in *.
  assert (Hy0 : (0 < y)%Q) by lra.
  set (q := (y / 6)%Q).
  assert (Hq0 : (0 < q)%Q) by (unfold q, Qdiv; change (/ 6)%Q with (1 # 6)%Q; lra).
  set (k := Qfloor q).
  pose proof (Qfloor_le q) as Hkl. pose proof (Qlt_floor q) as Hku.
  fold k in Hkl, Hku.
  assert (Hk0 : 0 <= k).
  { change 0 with (Qfloor 0). apply Qfloor_resp_le. lra. }
  assert (Hy512 : (y <= 512)%Q).
  { apply Qle_trans with (2 ^ (e + 1))%Q; [exact Uy |].
    change 512%Q with (2 ^ 9)%Q. apply two_le. lia. }
  assert (Hk86 : k < 86).
  { assert (Hlt : (inject_Z k < inject_Z 86)%Q).
    { change (inject_Z 86) with 86%Q. unfold q, Qdiv in Hkl.
      change (/ 6)%Q with (1 # 6)%Q in Hkl. lra. }
    rewrite <- Zlt_Qlt in Hlt. exact Hlt. }
  apply Qfloor_between.
  - apply Qle_trans with (round64 (inject_Z k)).
    + rewrite round64_Z by lia. apply Qle_refl.
    + apply round64_mono; [| exact Hkl].
      change 0%Q with (inject_Z 0). rewrite <- Zle_Qle. exact Hk0.
  - (* the grid of [y] *)
    set (P := 2 ^ (52 - e)).
    assert (HP : (inject_Z P * 2 ^ (e - 52) == 1)%Q).
    { unfold P. rewrite two_Z by lia. rewrite <- Qpower_plus by discriminate.
      replace (52 - e + (e - 52)) with 0 by lia. reflexivity. }
    set (g := (2 ^ (e - 52))%Q) in *.
    assert (HK : (inject_Z (6 * (k + 1)) == inject_Z (6 * (k + 1) * P) * g)%Q).
    { rewrite (inject_Z_mult (6 * (k + 1)) P).
      rewrite <- Qmult_assoc, HP. ring. }
    assert (Hm : m + 1 <= 6 * (k + 1) * P).
    { assert (Hlt : (inject_Z m < inject_Z (6 * (k + 1) * P))%Q).
      { apply (proj1 (Qmult_lt_r _ _ g Hg)). rewrite <- HK.
        replace (inject_Z m * g)%Q with y by exact Hy.
        rewrite inject_Z_mult. change (inject_Z 6) with 6%Q.
        unfold q, Qdiv in Hku. change (/ 6)%Q with (1 # 6)%Q in Hku. lra. }
      rewrite <- Zlt_Qlt in Hlt. lia. }
    assert (Hgrid : (y + g <= inject_Z (6 * (k + 1)))%Q).
    { rewrite HK. replace y with (inject_Z m * g)%Q by (symmetry; exact Hy).
      rewrite Zle_Qle, inject_Z_plus in Hm. change (inject_Z 1) with 1%Q in Hm.
      set (M := inject_Z (6 * (k + 1) * P)) in *.
      assert (((inject_Z m + 1) * g <= M * g)%Q)
        by (apply Qmult_le_compat_r; lra).
      lra. }
    (* the exponent of the quotient *)
    destruct (exponent_spec q Hq0) as [Lq Uq].
    assert (Heq : exponent q <= e - 2).
    { assert (exponent q < e - 1); [| lia].
      apply two_lt_inv. apply Qle_lt_trans with q; [exact Lq |].
      rewrite two_half. rewrite two_succ in Uy.
      unfold q, Qdiv. change (/ 6)%Q with (1 # 6)%Q. lra. }
    pose proof (round64_above q Hq0) as Hab.
    assert (Hu8 : (2 ^ (exponent q - 53) <= (1 # 8) * g)%Q).
    { apply Qle_trans with (2 ^ (e - 55))%Q; [apply two_le; lia |].
      unfold g. replace (e - 55) with (((e - 52) - 1) - 1 - 1) by lia.
      rewrite !two_half. set (g' := (2 ^ (e - 52))%Q). lra. }
    rewrite inject_Z_mult in Hgrid. change (inject_Z 6) with 6%Q in Hgrid.
    unfold q, Qdiv in *. change (/ 6)%Q with (1 # 6)%Q in *.
    lra.
Qed.

End Float64Facts.

(** ** Automatic UTM zone *)

Module UtmFacts.
Import Py Utm Float64 Float64Facts.

Lemma Qleb_le (a b : Q) : Qleb a b = true <-> (a <= b)%Q.
Proof. apply Qle_bool_iff. Qed.

Lemma Qleb_gt (a b : Q) : Qleb a b = false <-> (b < a)%Q.
Proof.
  split.
  - intros H. apply Qnot_le_lt. intros C. apply Qleb_le in C. congruence.
  - intros H. destruct (Qleb a b) eqn:E; [|reflexivity].
    apply Qleb_le in E. exfalso. apply (Qlt_not_le _ _ H E).
Qed.

(** The double [latitude + 80] of a latitude in the accepted range. *)
Lemma lat_sum_range (lat : Q) :
  (-80 <= lat)%Q -> (lat <= 84)%Q ->
  (0 <= fadd lat 80)%Q /\ (fadd lat 80 <= 164)%Q.
Proof.
  intros Hlo Hhi. unfold fadd. split.
  - apply round64_nonneg. lra.
  - assert (R : (round64 164 == 164)%Q) by (apply (round64_Z 164); lia).
    rewrite <- R. apply round64_mono; lra.
Qed.

Lemma band_index_range (lat : Q) :
  (-80 <= lat)%Q -> (lat <= 84)%Q ->
  0 <= Z.shiftr (Fmt.int_of_float (fadd lat 80)) 3 <= 20.
Proof.
  intros Hlo Hhi. destruct (lat_sum_range lat Hlo Hhi) as [H0 H1].
  rewrite (RoundTripFacts.int_of_float_floor _ H0).
  assert (F0 : 0 <= Qfloor (fadd lat 80))
    by (apply RoundTripFacts.Qfloor_nonneg; exact H0).
  assert (F1 : Qfloor (fadd lat 80) <= 164).
  { change 164 with (Qfloor 164). apply Qfloor_resp_le. exact H1. }
  rewrite Z.shiftr_div_pow2 by lia. change (2 ^ 3) with 8.
  assert (Qfloor (fadd lat 80) / 8 < 21)
    by (apply Z.div_lt_upper_bound; lia).
  split; [apply Z.div_pos; lia | lia].
Qed.

(** The band index reaches 10, the band of the letter N, exactly from
    2^-47 below the equator. *)
Lemma band_index_north (lat : Q) :
  (-80 <= lat)%Q -> (lat <= 84)%Q ->
  10 <= Z.shiftr (Fmt.int_of_float (fadd lat 80)) 3
  <-> (north_threshold <= lat)%Q.
Proof.
  intros Hlo Hhi. destruct (lat_sum_range lat Hlo Hhi) as [H0 H1].
  rewrite (RoundTripFacts.int_of_float_floor _ H0).
  rewrite Z.shiftr_div_pow2 by lia. change (2 ^ 3) with 8.
  assert (Hx : (0 <= lat + 80)%Q) by lra.
  pose proof (round64_reaches_80 (lat + 80) Hx) as Hr. fold (fadd lat 80) in Hr.
  pose proof (Qfloor_le (fadd lat 80)) as Fl.
  unfold north_threshold. split.
  - intros H.
    assert (H80 : 80 <= Qfloor (fadd lat 80)).
    { apply Z.le_trans with (8 * (Qfloor (fadd lat 80) / 8));
        [lia | apply Z.mul_div_le; lia]. }
    rewrite Zle_Qle in H80. change (inject_Z 80) with 80%Q in H80.
    assert (Hge : (80 <= fadd lat 80)%Q) by lra.
    apply Hr in Hge. lra.
  - intros H.
    assert (Hge : (80 <= fadd lat 80)%Q) by (apply Hr; lra).
    assert (H80 : 80 <= Qfloor (fadd lat 80)).
    { change 80 with (Qfloor 80). apply Qfloor_resp_le. exact Hge. }
    apply Z.div_le_lower_bound; lia.
Qed.

Lemma letter_at (n : nat) :
  (n <= 20)%nat ->
  exists c,
    nth_error ZONE_LETTERS n = Some c
    /\ str_geb (upper [c]) (str "N") = (10 <=? n)%nat.
Proof.
  intros H.
  do 21 (destruct n as [|n]; [eexists; split; reflexivity |]). lia.
Qed.

(** The letter of an accepted latitude, and its comparison with N. *)
Lemma zone_letter_north (lat : Q) :
  (-80 <= lat)%Q -> (lat <= 84)%Q ->
  exists c,
    latitude_to_zone_letter lat = Return (Some [c])
    /\ str_geb (upper [c]) (str "N") = Qleb north_threshold lat.
Proof.
  intros Hlo Hhi. unfold latitude_to_zone_letter.
  rewrite (proj2 (Qleb_le _ _) Hlo), (proj2 (Qleb_le _ _) Hhi). cbn [andb].
  pose proof (band_index_range lat Hlo Hhi) as Hr.
  pose proof (band_index_north lat Hlo Hhi) as Hn.
  set (i := Z.shiftr (Fmt.int_of_float (fadd lat 80)) 3) in *.
  destruct (letter_at (Z.to_nat i)) as (c & Hc & Hg); [lia |].
  exists c. rewrite Hc. split; [reflexivity |]. rewrite Hg.
  destruct (Qleb north_threshold lat) eqn:E.
  - apply Qleb_le in E. apply Hn in E. apply Nat.leb_le. lia.
  - apply Qleb_gt in E. apply Nat.leb_gt.
    assert (~ 10 <= i).
    { intros C. apply Hn in C. apply (Qlt_not_le _ _ E C). }
    lia.
Qed.

Lemma label_hemisphere_snoc (digits : pystr) (h : N) :
  label_hemisphere (digits ++ [h]) = Some h.
Proof. unfold label_hemisphere. rewrite rev_app_distr. reflexivity. Qed.

(** What the conversion gives on an accepted point. *)
Lemma convert_accepted (project : Q -> Q -> Z -> Q * Q) (lat lon : Q) :
  in_utm_range lat lon = true ->
  convert_dd_to_auto_utm project (VFloat lat) (VFloat lon)
  = (VFloat (fst (project lat lon (latlon_to_zone_number lat lon))),
     VFloat (snd (project lat lon (latlon_to_zone_number lat lon))),
     VStr (int_to_str (latlon_to_zone_number lat lon)
           ++ [if Qleb north_threshold lat then 78%N else 83%N])).
Proof.
  intros Hr. unfold convert_dd_to_auto_utm, from_latlon. rewrite Hr.
  unfold in_utm_range in Hr.
  repeat (apply andb_true_iff in Hr; destruct Hr as [Hr ?]).
  destruct (zone_letter_north lat) as (c & Hc & Hg);
    try (apply Qleb_le; assumption).
  rewrite Hc. cbn [bind].
  destruct (project lat lon (latlon_to_zone_number lat lon)) as [e n].
  cbn [fst snd]. rewrite Hg.
  destruct (Qleb north_threshold lat); reflexivity.
Qed.

(** C5, as stated, fails just south of the equator: at latitude -2^-60
    the double [latitude + 80] is 80, the band letter is N and so is the
    label, although the latitude is negative. The same happens at the
    double -1e-17, which is -6490371073168535 / 2^109. *)
Lemma auto_utm_hemisphere_below_equator :
  in_utm_range (- (1 # 2 ^ 60)) 107 = true
  /\ (- (1 # 2 ^ 60) < 0)%Q
  /\ latitude_to_zone_letter (- (1 # 2 ^ 60)) = Return (Some (str "N"))
  /\ convert_dd_to_auto_utm (fun _ _ _ => (0, 0)%Q)
       (VFloat (- (1 # 2 ^ 60))) (VFloat 107)
     = (VFloat 0, VFloat 0, VStr (str "48N"))
  /\ convert_dd_to_auto_utm (fun _ _ _ => (0, 0)%Q)
       (VFloat (- (6490371073168535 # 2 ^ 109))) (VFloat 107)
     = (VFloat 0, VFloat 0, VStr (str "48N")).
Proof. repeat split; vm_compute; reflexivity. Qed.

(** C5 (amended). For every point in the accepted range the hemisphere
    letter of the zone label is N exactly when the band letter of the
    package is N or later, and S otherwise. The band letter comes from the
    double [latitude + 80], so this is N from latitude -2^-47 on: N for
    every latitude that is at least 0, S for every latitude below -2^-47,
    and N again for the negative latitudes in between. *)
Theorem auto_utm_hemisphere
  (project : Q -> Q -> Z -> Q * Q) (lat lon : Q) :
  in_utm_range lat lon = true ->
  exists (e n : Q) (label letter : pystr),
    convert_dd_to_auto_utm project (VFloat lat) (VFloat lon)
    = (VFloat e, VFloat n, VStr label)
    /\ latitude_to_zone_letter lat = Return (Some letter)
    /\ (label_hemisphere label = Some 78%N
        <-> str_geb (upper letter) (str "N") = true)
    /\ (label_hemisphere label = Some 83%N
        <-> str_geb (upper letter) (str "N") = false)
    /\ (label_hemisphere label = Some 78%N <-> (north_threshold <= lat)%Q)
    /\ (label_hemisphere label = Some 83%N <-> (lat < north_threshold)%Q)
    /\ ((0 <= lat)%Q -> label_hemisphere label = Some 78%N).
Proof.
  intros Hr. rewrite (convert_accepted project lat lon Hr).
  unfold in_utm_range in Hr.
  repeat (apply andb_true_iff in Hr; destruct Hr as [Hr ?]).
  destruct (zone_letter_north lat) as (c & Hc & Hg);
    try (apply Qleb_le; assumption).
  exists (fst (project lat lon (latlon_to_zone_number lat lon))),
         (snd (project lat lon (latlon_to_zone_number lat lon))).
  eexists. exists [c]. split; [reflexivity |]. split; [exact Hc |].
  rewrite label_hemisphere_snoc, Hg.
  assert (Hneg : (north_threshold < 0)%Q) by reflexivity.
  destruct (Qleb north_threshold lat) eqn:E.
  - apply Qleb_le in E.
    repeat split; try reflexivity; try discriminate; try (intros; exact E).
    intros C. exfalso. apply (Qlt_not_le _ _ C E).
  - apply Qleb_gt in E.
    repeat split; try reflexivity; try discriminate; try (intros; exact E).
    + intros C. exfalso. apply (Qlt_not_le _ _ E C).
    + intros C. exfalso. lra.
Qed.

Lemma auto_utm_hemisphere_witness :
  exists (e n : Q) (label letter : pystr),
    convert_dd_to_auto_utm (fun _ _ _ => (0, 0)%Q)
      (VFloat (- (6175392 # 1000000))) (VFloat (106827153 # 1000000))
    = (VFloat e, VFloat n, VStr label)
    /\ latitude_to_zone_letter (- (6175392 # 1000000)) = Return (Some letter)
    /\ (label_hemisphere label = Some 78%N
        <-> str_geb (upper letter) (str "N") = true)
    /\ (label_hemisphere label = Some 83%N
        <-> str_geb (upper letter) (str "N") = false)
    /\ (label_hemisphere label = Some 78%N
        <-> (north_threshold <= - (6175392 # 1000000))%Q)
    /\ (label_hemisphere label = Some 83%N
        <-> (- (6175392 # 1000000) < north_threshold)%Q)
    /\ ((0 <= - (6175392 # 1000000))%Q -> label_hemisphere label = Some 78%N).
Proof.
  apply (auto_utm_hemisphere (fun _ _ _ => (0, 0)%Q)).
  reflexivity.
Defined.

(** The double [longitude + 180] of an accepted longitude. *)
Lemma lon_sum_range (lon : Q) :
  (-180 <= lon)%Q -> (lon <= 180)%Q ->
  (0 <= fadd lon 180)%Q /\ (fadd lon 180 <= 360)%Q.
Proof.
  intros Hlo Hhi. unfold fadd. split.
  - apply round64_nonneg. lra.
  - assert (R : (round64 360 == 360)%Q) by (apply (round64_Z 360); lia).
    rewrite <- R. apply round64_mono; lra.
Qed.

(** The whole part of the quotient by 6: the division of the package does
    not round it up. *)
Lemma zone_quotient (lon : Q) :
  (-180 <= lon)%Q -> (lon <= 180)%Q ->
  Fmt.int_of_float (fdiv (fadd lon 180) 6) = Qfloor (fadd lon 180 / 6)
  /\ 0 <= Qfloor (fadd lon 180 / 6) <= 60.
Proof.
  intros Hlo Hhi. destruct (lon_sum_range lon Hlo Hhi) as [H0 H1].
  assert (Hq0 : (0 <= fadd lon 180 / 6)%Q).
  { unfold Qdiv. change (/ 6)%Q with (1 # 6)%Q. lra. }
  assert (Hq1 : (fadd lon 180 / 6 <= 60)%Q).
  { unfold Qdiv. change (/ 6)%Q with (1 # 6)%Q. lra. }
  split.
  - unfold fdiv. rewrite RoundTripFacts.int_of_float_floor
      by (apply round64_nonneg; exact Hq0).
    unfold fadd. apply fdiv6_floor; lra.
  - split.
    + apply RoundTripFacts.Qfloor_nonneg. exact Hq0.
    + change 60 with (Qfloor 60). apply Qfloor_resp_le. exact Hq1.
Qed.

Lemma zone_number_regular (lat lon : Q) :
  (-180 <= lon)%Q -> (lon <= 180)%Q ->
  in_special_band lat lon = false ->
  latlon_to_zone_number lat lon = Qfloor (fadd lon 180 / 6) mod 60 + 1.
Proof.
  intros Hlo Hhi H. unfold in_special_band in H. unfold latlon_to_zone_number.
  apply orb_false_iff in H. destruct H as [-> ->].
  rewrite (proj1 (zone_quotient lon Hlo Hhi)). reflexivity.
Qed.

Lemma zone_number_bounds (lat lon : Q) :
  (-180 <= lon)%Q -> (lon <= 180)%Q ->
  1 <= latlon_to_zone_number lat lon <= 60.
Proof.
  intros Hlo Hhi. unfold latlon_to_zone_number.
  destruct (_ && Qltb lon 12); [lia |].
  destruct (_ && Qltb lon 42).
  - destruct (Qltb lon 9); [lia |]. destruct (Qltb lon 21); [lia |].
    destruct (Qltb lon 33); lia.
  - pose proof (Z.mod_pos_bound
                  (Fmt.int_of_float (fdiv (fadd lon 180) 6)) 60 ltac:(lia)).
    lia.
Qed.

(** Where the double [longitude + 180] stays below the next zone boundary
    and the longitude below 180, the zone of the package is the one of the
    formula. *)
Lemma zone_number_formula (lon : Q) :
  (-180 <= lon)%Q -> (lon < 180)%Q ->
  (fadd lon 180 < inject_Z (6 * formula_zone lon))%Q ->
  Qfloor (fadd lon 180 / 6) mod 60 + 1 = formula_zone lon.
Proof.
  intros Hlo Hhi Hs. unfold formula_zone in *.
  set (k := Qfloor ((lon + 180) / 6)) in *.
  pose proof (Qfloor_le ((lon + 180) / 6)) as Kl.
  pose proof (Qlt_floor ((lon + 180) / 6)) as Ku. fold k in Kl, Ku.
  unfold Qdiv in Kl, Ku. change (/ 6)%Q with (1 # 6)%Q in Kl, Ku.
  rewrite inject_Z_plus in Ku. change (inject_Z 1) with 1%Q in Ku.
  assert (Hk0 : 0 <= k).
  { apply RoundTripFacts.Qfloor_nonneg. unfold Qdiv.
    change (/ 6)%Q with (1 # 6)%Q. lra. }
  assert (Hk59 : k < 60).
  { rewrite Zlt_Qlt. change (inject_Z 60) with 60%Q. lra. }
  assert (Hlow : (inject_Z (6 * k) <= fadd lon 180)%Q).
  { rewrite <- (round64_Z (6 * k)) by lia. unfold fadd.
    apply round64_mono.
    - change 0%Q with (inject_Z 0). rewrite <- Zle_Qle. lia.
    - rewrite inject_Z_mult. change (inject_Z 6) with 6%Q. lra. }
  assert (Hf : Qfloor (fadd lon 180 / 6) = k).
  { apply Qfloor_between; unfold Qdiv; change (/ 6)%Q with (1 # 6)%Q.
    - rewrite inject_Z_mult in Hlow. change (inject_Z 6) with 6%Q in Hlow. lra.
    - rewrite inject_Z_mult in Hs. change (inject_Z 6) with 6%Q in Hs. lra. }
  rewrite Hf. rewrite Z.mod_small by lia. reflexivity.
Qed.

(** C6, as stated, fails in three places. In the Norway band the zone is
    32 where the formula gives 31 (latitude 60, longitude 5). At longitude
    180 the zone is 1 where the formula gives 61. Just west of a zone
    boundary the double [longitude + 180] is the boundary itself, and the
    zone is the next one: at longitude 6 - 2^-50 it is 32 where the formula
    gives 31. *)
Lemma auto_utm_zone_off_formula :
  (convert_dd_to_auto_utm (fun _ _ _ => (0, 0)%Q) (VFloat 60) (VFloat 5)
   = (VFloat 0, VFloat 0, VStr (str "32N"))
   /\ formula_zone 5 = 31)
  /\ (convert_dd_to_auto_utm (fun _ _ _ => (0, 0)%Q) (VFloat 0) (VFloat 180)
      = (VFloat 0, VFloat 0, VStr (str "1N"))
      /\ formula_zone 180 = 61)
  /\ (convert_dd_to_auto_utm (fun _ _ _ => (0, 0)%Q)
        (VFloat 0) (VFloat (6 - (1 # 2 ^ 50)))
      = (VFloat 0, VFloat 0, VStr (str "32N"))
      /\ formula_zone (6 - (1 # 2 ^ 50)) = 31).
Proof. repeat split; vm_compute; reflexivity. Qed.

(** C6 (amended). For every accepted point the label starts with a zone
    number from 1 to 60. In the Norway band it is 32 and in the Svalbard
    bands 31, 33, 35 and 37. Everywhere else it is
    floor(s/6) mod 60 + 1 for the double s = longitude + 180, which is
    floor((lon+180)/6)+1 wherever the longitude is below 180 and s is below
    the next zone boundary. *)
Theorem auto_utm_zone_number
  (project : Q -> Q -> Z -> Q * Q) (lat lon : Q) :
  in_utm_range lat lon = true ->
  exists (e n : Q) (z : Z) (h : N),
    convert_dd_to_auto_utm project (VFloat lat) (VFloat lon)
    = (VFloat e, VFloat n, VStr (int_to_str z ++ [h]))
    /\ 1 <= z <= 60
    /\ ((56 <= lat)%Q -> (lat < 64)%Q -> (3 <= lon)%Q -> (lon < 12)%Q ->
        z = 32)
    /\ ((72 <= lat)%Q -> (0 <= lon)%Q -> (lon < 9)%Q -> z = 31)
    /\ ((72 <= lat)%Q -> (9 <= lon)%Q -> (lon < 21)%Q -> z = 33)
    /\ ((72 <= lat)%Q -> (21 <= lon)%Q -> (lon < 33)%Q -> z = 35)
    /\ ((72 <= lat)%Q -> (33 <= lon)%Q -> (lon < 42)%Q -> z = 37)
    /\ (in_special_band lat lon = false ->
        z = Qfloor (fadd lon 180 / 6) mod 60 + 1
        /\ ((lon < 180)%Q ->
            (fadd lon 180 < inject_Z (6 * formula_zone lon))%Q ->
            z = formula_zone lon)).
Proof.
  intros Hr. rewrite (convert_accepted project lat lon Hr).
  unfold in_utm_range in Hr.
  repeat (apply andb_true_iff in Hr; destruct Hr as [Hr ?]).
  repeat match goal with
         | H : Qleb _ _ = true |- _ => apply Qleb_le in H
         end.
  do 4 eexists. split; [reflexivity |].
  split; [apply zone_number_bounds; assumption |].
  assert (T : forall a b, (a <= b)%Q -> Qleb a b = true)
    by (intros a b; apply Qleb_le).
  assert (Tl : forall a b, (a < b)%Q -> Qltb a b = true)
    by (intros a b; apply DmsFacts.Qltb_lt).
  assert (Fl : forall a b, (b <= a)%Q -> Qltb a b = false).
  { intros a b Hab. destruct (Qltb a b) eqn:E; [|reflexivity].
    apply DmsFacts.Qltb_lt in E. exfalso. apply (Qlt_not_le _ _ E Hab). }
  assert (Fe : forall a b, (b < a)%Q -> Qleb a b = false)
    by (intros a b; apply Qleb_gt).
  split.
  { intros A B C D. unfold latlon_to_zone_number.
    rewrite (T _ _ A), (Tl _ _ B), (T _ _ C), (Tl _ _ D). reflexivity. }
  assert (Hnot : forall l, (72 <= lat)%Q ->
                 Qleb 56 lat && Qltb lat 64 && Qleb 3 l && Qltb l 12 = false).
  { intros l A. rewrite (Fl lat 64%Q) by lra. rewrite andb_false_r. reflexivity. }
  split.
  { intros A B C. unfold latlon_to_zone_number.
    rewrite Hnot by exact A.
    rewrite (T 72%Q lat A), (T lat 84%Q) by assumption.
    rewrite (T 0%Q lon B), (Tl lon 42%Q) by lra. cbn [andb].
    rewrite (Tl lon 9%Q C). reflexivity. }
  split.
  { intros A B C. unfold latlon_to_zone_number.
    rewrite Hnot by exact A.
    rewrite (T 72%Q lat A), (T lat 84%Q) by assumption.
    rewrite (T 0%Q lon), (Tl lon 42%Q) by lra. cbn [andb].
    rewrite (Fl lon 9%Q B), (Tl lon 21%Q C). reflexivity. }
  split.
  { intros A B C. unfold latlon_to_zone_number.
    rewrite Hnot by exact A.
    rewrite (T 72%Q lat A), (T lat 84%Q) by assumption.
    rewrite (T 0%Q lon), (Tl lon 42%Q) by lra. cbn [andb].
    rewrite (Fl lon 9%Q), (Fl lon 21%Q B), (Tl lon 33%Q C) by lra. reflexivity. }
  split.
  { intros A B C. unfold latlon_to_zone_number.
    rewrite Hnot by exact A.
    rewrite (T 72%Q lat A), (T lat 84%Q) by assumption.
    rewrite (T 0%Q lon), (Tl lon 42%Q C) by lra. cbn [andb].
    rewrite (Fl lon 9%Q), (Fl lon 21%Q), (Fl lon 33%Q B) by lra. reflexivity. }
  intros Hs. rewrite (zone_number_regular lat lon) by assumption.
  split; [reflexivity |].
  intros Hlt Hb. apply zone_number_formula; assumption.
Qed.

Lemma auto_utm_zone_number_witness :
  exists (e n : Q) (z : Z) (h : N),
    convert_dd_to_auto_utm (fun _ _ _ => (0, 0)%Q)
      (VFloat (- (6175392 # 1000000))) (VFloat (106827153 # 1000000))
    = (VFloat e, VFloat n, VStr (int_to_str z ++ [h]))
    /\ 1 <= z <= 60
    /\ ((56 <= - (6175392 # 1000000))%Q -> (- (6175392 # 1000000) < 64)%Q ->
        (3 <= 106827153 # 1000000)%Q -> (106827153 # 1000000 < 12)%Q ->
        z = 32)
    /\ ((72 <= - (6175392 # 1000000))%Q -> (0 <= 106827153 # 1000000)%Q ->
        (106827153 # 1000000 < 9)%Q -> z = 31)
    /\ ((72 <= - (6175392 # 1000000))%Q -> (9 <= 106827153 # 1000000)%Q ->
        (106827153 # 1000000 < 21)%Q -> z = 33)
    /\ ((72 <= - (6175392 # 1000000))%Q -> (21 <= 106827153 # 1000000)%Q ->
        (106827153 # 1000000 < 33)%Q -> z = 35)
    /\ ((72 <= - (6175392 # 1000000))%Q -> (33 <= 106827153 # 1000000)%Q ->
        (106827153 # 1000000 < 42)%Q -> z = 37)
    /\ (in_special_band (- (6175392 # 1000000)) (106827153 # 1000000) = false ->
        z = Qfloor (fadd (106827153 # 1000000) 180 / 6) mod 60 + 1
        /\ ((106827153 # 1000000 < 180)%Q ->
            (fadd (106827153 # 1000000) 180
             < inject_Z (6 * formula_zone (106827153 # 1000000)))%Q ->
            z = formula_zone (106827153 # 1000000))).
Proof.
  apply (auto_utm_zone_number (fun _ _ _ => (0, 0)%Q)); reflexivity.
Defined.

Example auto_utm_monas_label :
  snd (convert_dd_to_auto_utm (fun _ _ _ => (0, 0)%Q)
         (VFloat (- (6175392 # 1000000))) (VFloat (106827153 # 1000000)))
  = VStr (str "48S").
Proof. vm_compute. reflexivity. Qed.
End UtmFacts.

(** ** Tables *)

Module PandasFacts.
Import Py PyFacts Pandas.

Lemma col_pos_Some (n : pystr) (cols : list pystr) (p : nat) :
  col_pos n cols = Some p -> nth_error cols p = Some n.
Proof.
  revert p; induction cols as [|c cols IH]; intros p; cbn [col_pos].
  - discriminate.
  - destruct (str_eqb n c) eqn:E.
    + intros [= <-]. apply str_eqb_eq in E. subst. reflexivity.
    + destruct (col_pos n cols) as [q|]; [|discriminate].
      intros [= <-]. cbn [nth_error]. apply IH. reflexivity.
Qed.

Lemma col_pos_lt (n : pystr) (cols : list pystr) (p : nat) :
  col_pos n cols = Some p -> (p < List.length cols)%nat.
Proof.
  intros H. apply col_pos_Some in H. apply nth_error_Some. congruence.
Qed.

Lemma col_pos_None (n : pystr) (cols : list pystr) :
  col_pos n cols = None <-> ~ In n cols.
Proof.
  induction cols as [|c cols IH]; cbn [col_pos In]; [tauto |].
  destruct (str_eqb n c) eqn:E.
  - apply str_eqb_eq in E. subst. split; [discriminate | tauto].
  - assert (Hne : c <> n).
    { intros ->. rewrite (proj2 (str_eqb_eq n n) eq_refl) in E.
      discriminate. }
    destruct (col_pos n cols) as [q|].
    + split; [discriminate |]. intros H. exfalso.
      assert (C : Some q = @None nat) by (apply IH; tauto). discriminate.
    + split; [|reflexivity]. intros _ [C | C]; [congruence |].
      apply (proj1 IH eq_refl C).
Qed.

Lemma col_pos_In (n : pystr) (cols : list pystr) :
  In n cols -> exists p, col_pos n cols = Some p.
Proof.
  intros H. destruct (col_pos n cols) as [p|] eqn:E; [eauto |].
  apply col_pos_None in E. contradiction.
Qed.

Lemma col_pos_app_l (n : pystr) (cols more : list pystr) (p : nat) :
  col_pos n cols = Some p -> col_pos n (cols ++ more) = Some p.
Proof.
  revert p; induction cols as [|c cols IH]; intros p; cbn [col_pos app].
  - discriminate.
  - destruct (str_eqb n c); [auto |].
    destruct (col_pos n cols) as [q|]; [|discriminate].
    intros [= <-]. rewrite (IH q eq_refl). reflexivity.
Qed.

Lemma col_pos_app_new (n : pystr) (cols : list pystr) :
  col_pos n cols = None -> col_pos n (cols ++ [n]) = Some (List.length cols).
Proof.
  induction cols as [|c cols IH]; cbn [col_pos app List.length].
  - rewrite (proj2 (str_eqb_eq n n) eq_refl). reflexivity.
  - destruct (str_eqb n c); [discriminate |].
    destruct (col_pos n cols); [discriminate |].
    intros _. rewrite IH; reflexivity.
Qed.

Lemma col_pos_diff (n m : pystr) (cols : list pystr) (p q : nat) :
  col_pos n cols = Some p -> col_pos m cols = Some q -> n <> m -> p <> q.
Proof.
  intros Hp Hq Hne ->. apply col_pos_Some in Hp, Hq. congruence.
Qed.

Lemma nth_list_set_same {A} (p : nat) (v d : A) (l : list A) :
  (p < List.length l)%nat -> nth p (list_set p v l) d = v.
Proof.
  revert p; induction l as [|a l IH]; intros [|p] H; cbn in *; try lia; auto.
  apply IH. lia.
Qed.

Lemma nth_list_set_other {A} (p q : nat) (v d : A) (l : list A) :
  p <> q -> nth q (list_set p v l) d = nth q l d.
Proof.
  revert p q; induction l as [|a l IH]; intros [|p] [|q] H; cbn; try reflexivity; try lia.
  apply IH. lia.
Qed.

Lemma length_list_set {A} (p : nat) (v : A) (l : list A) :
  List.length (list_set p v l) = List.length l.
Proof.
  revert p; induction l as [|a l IH]; intros [|p]; cbn; auto.
Qed.

Lemma map_fst_combine {A B C} (g : A -> C) (l : list A) (l' : list B) :
  List.length l = List.length l' ->
  List.map (fun ab => g (fst ab)) (combine l l') = List.map g l.
Proof.
  revert l'; induction l as [|a l IH]; intros [|b l'] H; cbn in *; try lia; auto.
  f_equal. apply IH. lia.
Qed.

Lemma map_snd_combine {A B C} (g : B -> C) (l : list A) (l' : list B) :
  List.length l = List.length l' ->
  List.map (fun ab => g (snd ab)) (combine l l') = List.map g l'.
Proof.
  revert l'; induction l as [|a l IH]; intros [|b l'] H; cbn in *; try lia; auto.
  f_equal. apply IH. lia.
Qed.

Lemma set_column_columns (n : pystr) (vals : list pyval) (df : frame) :
  columns (set_column n vals df)
  = match col_pos n (columns df) with
    | Some _ => columns df
    | None => columns df ++ [n]
    end.
Proof. unfold set_column. destruct (col_pos n (columns df)); reflexivity. Qed.

Lemma set_column_index (n : pystr) (vals : list pyval) (df : frame) :
  List.length vals = List.length (rows df) ->
  index_of (set_column n vals df) = index_of df.
Proof.
  intros H. unfold index_of, set_column.
  destruct (col_pos n (columns df)); cbn [rows]; rewrite map_map; cbn [fst];
    apply (map_fst_combine fst); congruence.
Qed.

Lemma set_column_length (n : pystr) (vals : list pyval) (df : frame) :
  List.length vals = List.length (rows df) ->
  List.length (rows (set_column n vals df)) = List.length (rows df).
Proof.
  intros H. unfold set_column.
  destruct (col_pos n (columns df)); cbn [rows];
    rewrite length_map, length_combine; lia.
Qed.

Lemma set_column_aligned (n : pystr) (vals : list pyval) (df : frame) :
  aligned df -> aligned (set_column n vals df).
Proof.
  unfold aligned, set_column. intros H.
  destruct (col_pos n (columns df)); cbn [rows columns];
    apply Forall_forall; intros r Hr; apply in_map_iff in Hr;
    destruct Hr as ([r0 v] & <- & Hin); apply in_combine_l in Hin;
    rewrite Forall_forall in H; specialize (H r0 Hin); cbn [fst snd].
  - rewrite length_list_set. exact H.
  - rewrite !length_app, H. reflexivity.
Qed.

Lemma get_set_same (n : pystr) (vals : list pyval) (df : frame) :
  aligned df -> List.length vals = List.length (rows df) ->
  get_column n (set_column n vals df) = Return vals.
Proof.
  intros Ha Hl. unfold get_column. rewrite set_column_columns.
  unfold set_column.
  destruct (col_pos n (columns df)) as [p|] eqn:E.
  - rewrite E. cbn [rows]. f_equal. rewrite map_map. cbn [snd].
    rewrite <- (map_id vals) at 2.
    rewrite <- (map_snd_combine (fun v => v) (rows df) vals) by congruence.
    apply map_ext_in. intros [r v] Hin. cbn [fst snd].
    apply nth_list_set_same. apply in_combine_l in Hin.
    unfold aligned in Ha. rewrite Forall_forall in Ha.
    rewrite (Ha r Hin). eapply col_pos_lt; eassumption.
  - rewrite (col_pos_app_new _ _ E). cbn [rows]. f_equal. rewrite map_map.
    cbn [snd].
    rewrite <- (map_id vals) at 2.
    rewrite <- (map_snd_combine (fun v => v) (rows df) vals) by congruence.
    apply map_ext_in. intros [r v] Hin. cbn [fst snd].
    apply in_combine_l in Hin.
    unfold aligned in Ha. rewrite Forall_forall in Ha.
    rewrite <- (Ha r Hin). rewrite app_nth2, Nat.sub_diag by lia. reflexivity.
Qed.

Lemma get_set_other (n m : pystr) (vals : list pyval) (df : frame) :
  aligned df -> List.length vals = List.length (rows df) ->
  n <> m -> In m (columns df) ->
  get_column m (set_column n vals df) = get_column m df.
Proof.
  intros Ha Hl Hne Hin. unfold get_column. rewrite set_column_columns.
  destruct (col_pos_In m _ Hin) as [q Hq].
  unfold set_column.
  destruct (col_pos n (columns df)) as [p|] eqn:E.
  - rewrite Hq. cbn [rows]. f_equal. rewrite map_map. cbn [snd].
    rewrite <- (map_fst_combine (fun r => nth q (snd r) VNA) (rows df) vals)
      by congruence.
    apply map_ext. intros [r v]. cbn [fst snd].
    apply nth_list_set_other. eapply col_pos_diff; eassumption.
  - rewrite (col_pos_app_l _ _ _ _ Hq), Hq. cbn [rows]. f_equal.
    rewrite map_map. cbn [snd].
    rewrite <- (map_fst_combine (fun r => nth q (snd r) VNA) (rows df) vals)
      by congruence.
    apply map_ext_in. intros [r v] Hrv. cbn [fst snd].
    apply in_combine_l in Hrv.
    unfold aligned in Ha. rewrite Forall_forall in Ha.
    apply app_nth1. rewrite (Ha r Hrv). eapply col_pos_lt; eassumption.
Qed.

Lemma get_column_length (n : pystr) (df : frame) (vals : list pyval) :
  get_column n df = Return vals -> List.length vals = List.length (rows df).
Proof.
  unfold get_column. destruct (col_pos n (columns df)); [|discriminate].
  intros [= <-]. apply length_map.
Qed.

Lemma get_column_In (n : pystr) (df : frame) (vals : list pyval) :
  get_column n df = Return vals -> In n (columns df).
Proof.
  unfold get_column. destruct (col_pos n (columns df)) as [p|] eqn:E;
    [|discriminate].
  intros _. apply col_pos_Some in E. eapply nth_error_In; eassumption.
Qed.

Lemma set_column_In (n m : pystr) (vals : list pyval) (df : frame) :
  In m (columns df) \/ m = n -> In m (columns (set_column n vals df)).
Proof.
  rewrite set_column_columns. intros [H | ->].
  - destruct (col_pos n (columns df)); [assumption |].
    apply in_or_app. left. assumption.
  - destruct (col_pos n (columns df)) eqn:E.
    + apply col_pos_Some in E. eapply nth_error_In; eassumption.
    + apply in_or_app. right. left. reflexivity.
Qed.

Lemma map_filter_mask {A B} (f : A -> bool) (g : A -> B) (l : list A) :
  List.map g (filter f l) = mask_filter (List.map f l) (List.map g l).
Proof.
  induction l as [|a l IH]; [reflexivity |].
  cbn [filter List.map mask_filter]. destruct (f a); cbn [List.map]; rewrite IH; reflexivity.
Qed.

Lemma map_combine_map {A B C D} (ga : A -> B) (gb : A -> C)
  (h : B * C -> D) (l : list A) :
  List.map h (combine (List.map ga l) (List.map gb l))
  = List.map (fun a => h (ga a, gb a)) l.
Proof. induction l as [|a l IH]; cbn; [reflexivity | rewrite IH; reflexivity]. Qed.

Lemma dropna_spec (a b : pystr) (df : frame) (va vb : list pyval) :
  get_column a df = Return va -> get_column b df = Return vb ->
  exists df',
    dropna [a; b] df = Return df'
    /\ columns df' = columns df
    /\ index_of df' = mask_filter (both_present va vb) (index_of df)
    /\ (aligned df -> aligned df')
    /\ (forall m vals, get_column m df = Return vals ->
          get_column m df' = Return (mask_filter (both_present va vb) vals)).
Proof.
  unfold get_column, dropna. cbn [positions].
  destruct (col_pos a (columns df)) as [pa|]; [|discriminate].
  destruct (col_pos b (columns df)) as [pb|]; [|discriminate].
  intros [= <-] [= <-].
  eexists. split; [reflexivity |]. cbn [columns rows].
  assert (Hmask :
    both_present (List.map (fun r => nth pa (snd r) VNA) (rows df))
                 (List.map (fun r => nth pb (snd r) VNA) (rows df))
    = List.map (fun r : Z * list pyval =>
                  forallb (fun p => negb (isna (nth p (snd r) VNA))) [pa; pb])
               (rows df)).
  { unfold both_present. rewrite map_combine_map. apply map_ext.
    intros r. cbn [forallb fst snd]. rewrite andb_true_r. reflexivity. }
  rewrite Hmask.
  split; [reflexivity |]. split; [|split].
  - unfold index_of. cbn [rows]. apply map_filter_mask.
  - unfold aligned. cbn [rows columns]. intros H.
    apply Forall_forall. intros r Hr. apply filter_In in Hr.
    rewrite Forall_forall in H. apply H. tauto.
  - intros m vals. destruct (col_pos m (columns df)) as [q|]; [|discriminate].
    intros [= <-]. f_equal. apply map_filter_mask.
Qed.

Lemma positions_spec (names cols : list pystr) :
  (forall n, In n names -> In n cols) ->
  positions names cols = Some (List.map (pos_or_zero cols) names).
Proof.
  induction names as [|n names IH]; intros H; [reflexivity |].
  cbn [positions List.map]. unfold pos_or_zero at 1.
  destruct (col_pos_In n cols) as [p ->]; [apply H; left; reflexivity |].
  rewrite IH; [reflexivity |]. intros m Hm. apply H. right. exact Hm.
Qed.

Lemma select_spec (names : list pystr) (df : frame) :
  (forall n, In n names -> In n (columns df)) ->
  exists out,
    select names df = Return out
    /\ columns out = names
    /\ index_of out = index_of df
    /\ (forall m, In m names -> get_column m out = get_column m df).
Proof.
  intros H. unfold select. rewrite (positions_spec _ _ H).
  eexists. split; [reflexivity |]. cbn [columns].
  split; [reflexivity |]. split.
  - unfold index_of. cbn [rows]. rewrite map_map. reflexivity.
  - intros m Hm. unfold get_column. cbn [columns rows].
    destruct (col_pos_In m names Hm) as [k Hk]. rewrite Hk.
    destruct (col_pos_In m (columns df) (H m Hm)) as [q Hq]. rewrite Hq.
    f_equal. rewrite map_map. apply map_ext. intros r. cbn [snd].
    pose proof (col_pos_lt _ _ _ Hk) as Hlt.
    pose proof (col_pos_Some _ _ _ Hk) as Hnth.
    rewrite (nth_indep _ VNA (nth O (snd r) VNA))
      by (rewrite length_map, length_map; exact Hlt).
    rewrite (map_nth (fun p => nth p (snd r) VNA)).
    f_equal.
    rewrite (nth_indep _ O (pos_or_zero (columns df) [])) by (rewrite length_map; exact Hlt).
    rewrite (map_nth (pos_or_zero (columns df))).
    rewrite (nth_error_nth _ _ _ Hnth). unfold pos_or_zero. rewrite Hq.
    reflexivity.
Qed.

End PandasFacts.

(** ** The batch pipeline *)

Module PipelineFacts.
Import Py PyFacts Pandas PandasFacts Pipeline.

Lemma col_pos_app_none (m n : pystr) (cols : list pystr) :
  col_pos m cols = None -> m <> n -> col_pos m (cols ++ [n]) = None.
Proof.
  intros H Hne. apply col_pos_None. apply col_pos_None in H.
  intros C. apply in_app_or in C. destruct C as [C | [C | []]]; congruence.
Qed.

Lemma get_set_ne (n m : pystr) (vals : list pyval) (df : frame) :
  aligned df -> List.length vals = List.length (rows df) ->
  n <> m ->
  get_column m (set_column n vals df) = get_column m df.
Proof.
  intros Ha Hl Hne.
  destruct (col_pos m (columns df)) as [q|] eqn:E.
  - apply get_set_other; auto.
    apply col_pos_Some in E. eapply nth_error_In; eassumption.
  - unfold get_column. rewrite set_column_columns, E.
    destruct (col_pos n (columns df)); [rewrite E; reflexivity |].
    rewrite col_pos_app_none; auto.
Qed.

Lemma str_eqb_neq (a b : pystr) : str_eqb a b = false <-> a <> b.
Proof.
  split.
  - intros H ->. rewrite (proj2 (str_eqb_eq b b) eq_refl) in H. discriminate.
  - intros H. destruct (str_eqb a b) eqn:E; [|reflexivity].
    apply str_eqb_eq in E. contradiction.
Qed.

(** Reading a column after an assignment. *)
Lemma get_set (n m : pystr) (vals : list pyval) (df : frame) :
  aligned df -> List.length vals = List.length (rows df) ->
  get_column m (set_column n vals df)
  = if str_eqb m n then Return vals else get_column m df.
Proof.
  intros Ha Hl. destruct (str_eqb m n) eqn:E.
  - apply str_eqb_eq in E. subst. apply get_set_same; assumption.
  - apply str_eqb_neq in E. apply get_set_ne; auto.
Qed.

Section WithLibraries.


Variable numeric_of_text : pystr -> pyfloat.
Variable py_int : pystr -> result Z.
Variable float_of_text : pystr -> option Q.
Variable make_transformer :
  pystr -> result (pyfloat -> pyfloat -> pyfloat * pyfloat).
Variable project : Q -> Q -> Z -> Q * Q.


Lemma not_late (c : pystr) :
  ~ In c late_columns ->
  str_eqb c lon_dms = false /\ str_eqb c lat_dms = false
  /\ str_eqb c easting_utm = false /\ str_eqb c northing_utm = false
  /\ str_eqb c zone_utm = false.
Proof.
  intros H. repeat split; apply str_eqb_neq; intros ->; apply H; cbn; tauto.
Qed.

Lemma stage2_spec (df_input df : frame) (lons lats : list pyval) :
  aligned df ->
  get_column lon_dd df = Return lons ->
  get_column lat_dd df = Return lats ->
  (forall c, In c (columns df_input) -> In c (columns df)) ->
  exists out,
    stage2 float_of_text project df_input df = Return out
    /\ columns out = original_cols df_input ++ output_columns
    /\ index_of out = index_of df
    /\ (forall c, In c (original_cols df_input) -> ~ In c late_columns ->
          get_column c out = get_column c df)
    /\ get_column lon_dd out = Return lons
    /\ get_column lat_dd out = Return lats
    /\ get_column lon_dms out
       = Return (List.map (dd_to_dms_cell float_of_text false) lons)
    /\ get_column lat_dms out
       = Return (List.map (dd_to_dms_cell float_of_text true) lats)
    /\ get_column zone_utm out
       = Return (List.map snd (auto_utm project lats lons))
    /\ get_column easting_utm out
       = Return (List.map (fun t => fst (fst t)) (auto_utm project lats lons))
    /\ get_column northing_utm out
       = Return (List.map (fun t => snd (fst t)) (auto_utm project lats lons)).
Proof.
  intros Ha Hlon Hlat Hsub.
  pose proof (get_column_length _ _ _ Hlon) as Llon.
  pose proof (get_column_length _ _ _ Hlat) as Llat.
  unfold stage2. rewrite Hlon. cbn [bind].
  set (df1 := set_column lon_dms _ df).
  assert (A1 : aligned df1) by (apply set_column_aligned; exact Ha).
  assert (L1 : List.length (rows df1) = List.length (rows df))
    by (apply set_column_length; rewrite length_map; exact Llon).
  assert (G1 : forall m, get_column m df1
             = if str_eqb m lon_dms
               then Return (List.map (dd_to_dms_cell float_of_text false) lons)
               else get_column m df)
    by (intros m; apply get_set; [exact Ha | rewrite length_map; exact Llon]).
  rewrite (G1 lat_dd). change (str_eqb lat_dd lon_dms) with false. cbv iota.
  rewrite Hlat. cbn [bind].
  set (df2 := set_column lat_dms _ df1).
  assert (A2 : aligned df2) by (apply set_column_aligned; exact A1).
  assert (L2 : List.length (rows df2) = List.length (rows df))
    by (rewrite <- L1; apply set_column_length; rewrite length_map; lia).
  assert (G2 : forall m, get_column m df2
             = if str_eqb m lat_dms
               then Return (List.map (dd_to_dms_cell float_of_text true) lats)
               else get_column m df1)
    by (intros m; apply get_set; [exact A1 | rewrite length_map; lia]).
  rewrite (G2 lat_dd), (G1 lat_dd). change (str_eqb lat_dd lat_dms) with false.
  change (str_eqb lat_dd lon_dms) with false. cbv iota. rewrite Hlat. cbn [bind].
  rewrite (G2 lon_dd), (G1 lon_dd). change (str_eqb lon_dd lat_dms) with false.
  change (str_eqb lon_dd lon_dms) with false. cbv iota. rewrite Hlon. cbn [bind].
  fold (auto_utm project lats lons).
  assert (Lt : List.length (auto_utm project lats lons) = List.length (rows df)).
  { unfold auto_utm. rewrite length_map, length_combine. lia. }
  set (df3 := set_column easting_utm _ df2).
  assert (A3 : aligned df3) by (apply set_column_aligned; exact A2).
  assert (L3 : List.length (rows df3) = List.length (rows df))
    by (rewrite <- L2; apply set_column_length; rewrite length_map; lia).
  assert (G3 : forall m, get_column m df3
             = if str_eqb m easting_utm
               then Return (List.map (fun t => fst (fst t)) (auto_utm project lats lons))
               else get_column m df2)
    by (intros m; apply get_set; [exact A2 | rewrite length_map; lia]).
  set (df4 := set_column northing_utm _ df3).
  assert (A4 : aligned df4) by (apply set_column_aligned; exact A3).
  assert (L4 : List.length (rows df4) = List.length (rows df))
    by (rewrite <- L3; apply set_column_length; rewrite length_map; lia).
  assert (G4 : forall m, get_column m df4
             = if str_eqb m northing_utm
               then Return (List.map (fun t => snd (fst t)) (auto_utm project lats lons))
               else get_column m df3)
    by (intros m; apply get_set; [exact A3 | rewrite length_map; lia]).
  set (df5 := set_column zone_utm _ df4).
  assert (G5 : forall m, get_column m df5
             = if str_eqb m zone_utm
               then Return (List.map (fun t => snd t) (auto_utm project lats lons))
               else get_column m df4)
    by (intros m; apply get_set; [exact A4 | rewrite length_map; lia]).
  assert (I5 : index_of df5 = index_of df).
  { unfold df5. rewrite set_column_index by (rewrite length_map; lia).
    unfold df4. rewrite set_column_index by (rewrite length_map; lia).
    unfold df3. rewrite set_column_index by (rewrite length_map; lia).
    unfold df2. rewrite set_column_index by (rewrite length_map; lia).
    unfold df1. rewrite set_column_index by (rewrite length_map; lia).
    reflexivity. }
  assert (C5 : forall c, In c (columns df) \/ In c late_columns ->
                         In c (columns df5)).
  { intros c Hc. unfold df5, df4, df3, df2, df1.
    repeat (apply set_column_In;
            match goal with
            | |- _ \/ c = ?n =>
                destruct (str_eqb c n) eqn:?E;
                [right; apply str_eqb_eq; assumption | left]
            end).
    destruct Hc as [Hc | Hc]; [exact Hc |].
    cbn [late_columns In] in Hc.
    repeat match goal with
           | H : str_eqb c ?n = false |- _ => apply str_eqb_neq in H
           end.
    intuition congruence. }
  fold (original_cols df_input).
  destruct (select_spec (original_cols df_input ++ output_columns) df5)
    as (out & Hsel & Hcols & Hidx & Hget).
  { intros n Hn. apply C5. apply in_app_or in Hn. destruct Hn as [Hn | Hn].
    - left. apply Hsub. unfold original_cols in Hn. apply filter_In in Hn. tauto.
    - cbn [output_columns In] in Hn.
      destruct Hn as [<- | [<- | Hn]].
      + left. eapply get_column_In; eassumption.
      + left. eapply get_column_In; eassumption.
      + right. cbn [late_columns In]. tauto. }
  exists out. split; [exact Hsel |]. split; [exact Hcols |].
  split; [congruence |].
  assert (Hout : forall m, In m output_columns -> get_column m out = get_column m df5).
  { intros m Hm. apply Hget. apply in_or_app. right. exact Hm. }
  split.
  { intros c Hc Hnl. rewrite Hget by (apply in_or_app; left; exact Hc).
    destruct (not_late c Hnl) as (E1 & E2 & E3 & E4 & E5).
    rewrite G5, E5, G4, E4, G3, E3, G2, E2, G1, E1. reflexivity. }
  repeat split.
  - rewrite Hout by (cbn; tauto). rewrite G5, G4, G3, G2, G1. exact Hlon.
  - rewrite Hout by (cbn; tauto). rewrite G5, G4, G3, G2, G1. exact Hlat.
  - rewrite Hout by (cbn; tauto). rewrite G5, G4, G3, G2, G1. reflexivity.
  - rewrite Hout by (cbn; tauto). rewrite G5, G4, G3, G2. reflexivity.
  - rewrite Hout by (cbn; tauto). rewrite G5. reflexivity.
  - rewrite Hout by (cbn; tauto). rewrite G5, G4, G3. reflexivity.
  - rewrite Hout by (cbn; tauto). rewrite G5, G4. reflexivity.
Qed.

Lemma finish_spec (df_input df : frame) (log : list message)
  (lons lats : list pyval) :
  aligned df ->
  get_column lon_dd df = Return lons ->
  get_column lat_dd df = Return lats ->
  (forall c, In c (columns df_input) -> In c (columns df)) ->
  let mask := both_present lons lats in
  match mask_filter mask (index_of df) with
  | [] =>
      finish float_of_text project df_input df log
      = (Return None, log ++ [no_valid_data])
  | _ :: _ =>
      exists out,
        finish float_of_text project df_input df log = (Return (Some out), log)
        /\ columns out = original_cols df_input ++ output_columns
        /\ index_of out = mask_filter mask (index_of df)
        /\ (forall c vals, In c (original_cols df_input) ->
              ~ In c late_columns ->
              get_column c df = Return vals ->
              get_column c out = Return (mask_filter mask vals))
        /\ get_column lon_dd out = Return (mask_filter mask lons)
        /\ get_column lat_dd out = Return (mask_filter mask lats)
        /\ get_column lon_dms out
           = Return (List.map (dd_to_dms_cell float_of_text false)
                              (mask_filter mask lons))
        /\ get_column lat_dms out
           = Return (List.map (dd_to_dms_cell float_of_text true)
                              (mask_filter mask lats))
        /\ get_column zone_utm out
           = Return (List.map snd (auto_utm project (mask_filter mask lats)
                                            (mask_filter mask lons)))
        /\ get_column easting_utm out
           = Return (List.map (fun t => fst (fst t))
                       (auto_utm project (mask_filter mask lats)
                                         (mask_filter mask lons)))
        /\ get_column northing_utm out
           = Return (List.map (fun t => snd (fst t))
                       (auto_utm project (mask_filter mask lats)
                                         (mask_filter mask lons)))
  end.
Proof.
  intros Ha Hlon Hlat Hsub mask.
  destruct (dropna_spec lon_dd lat_dd df lons lats Hlon Hlat)
    as (df' & Hdrop & Hcols & Hidx & Hal & Hget).
  fold mask in Hidx, Hget.
  unfold finish. rewrite Hdrop.
  assert (Hempty : empty df' = match index_of df' with [] => true | _ => false end).
  { unfold empty, index_of. rewrite Hcols.
    pose proof (get_column_In _ _ _ Hlon) as Hin.
    destruct (columns df); [contradiction |].
    destruct (rows df'); reflexivity. }
  rewrite Hempty, Hidx.
  destruct (mask_filter mask (index_of df)) as [|i rest] eqn:E; [reflexivity |].
  destruct (stage2_spec df_input df' _ _ (Hal Ha) (Hget _ _ Hlon) (Hget _ _ Hlat))
    as (out & Hs2 & Hc & Hi & Ho & H1 & H2 & H3 & H4 & H5 & H6 & H7).
  { intros c Hcin. rewrite Hcols. apply Hsub. exact Hcin. }
  exists out. rewrite Hs2. split; [reflexivity |]. split; [exact Hc |].
  split; [congruence |].
  split.
  { intros c vals Hcin Hnl Hv. rewrite Ho by assumption. apply Hget. exact Hv. }
  repeat split; assumption.
Qed.

Lemma finish_after_stage1 (df : frame) (log : list message)
  (lons lats : list pyval) :
  aligned df ->
  List.length lons = List.length (rows df) ->
  List.length lats = List.length (rows df) ->
  let df2 := set_column lat_dd lats (set_column lon_dd lons df) in
  let mask := both_present lons lats in
  match mask_filter mask (index_of df) with
  | [] =>
      finish float_of_text project df df2 log
      = (Return None, log ++ [no_valid_data])
  | _ :: _ =>
      exists out,
        finish float_of_text project df df2 log = (Return (Some out), log)
        /\ columns out = original_cols df ++ output_columns
        /\ index_of out = mask_filter mask (index_of df)
        /\ (forall c vals, In c (original_cols df) ->
              ~ In c output_columns ->
              get_column c df = Return vals ->
              get_column c out = Return (mask_filter mask vals))
        /\ get_column lon_dd out = Return (mask_filter mask lons)
        /\ get_column lat_dd out = Return (mask_filter mask lats)
        /\ get_column lon_dms out
           = Return (List.map (dd_to_dms_cell float_of_text false)
                              (mask_filter mask lons))
        /\ get_column lat_dms out
           = Return (List.map (dd_to_dms_cell float_of_text true)
                              (mask_filter mask lats))
        /\ get_column zone_utm out
           = Return (List.map snd (auto_utm project (mask_filter mask lats)
                                            (mask_filter mask lons)))
        /\ get_column easting_utm out
           = Return (List.map (fun t => fst (fst t))
                       (auto_utm project (mask_filter mask lats)
                                         (mask_filter mask lons)))
        /\ get_column northing_utm out
           = Return (List.map (fun t => snd (fst t))
                       (auto_utm project (mask_filter mask lats)
                                         (mask_filter mask lons)))
  end.
Proof.
  intros Ha Llon Llat df2 mask.
  set (df1 := set_column lon_dd lons df) in *.
  assert (A1 : aligned df1) by (apply set_column_aligned; exact Ha).
  assert (L1 : List.length (rows df1) = List.length (rows df))
    by (apply set_column_length; exact Llon).
  assert (A2 : aligned df2) by (apply set_column_aligned; exact A1).
  assert (G1 : forall m, get_column m df1
             = if str_eqb m lon_dd then Return lons else get_column m df)
    by (intros m; apply get_set; assumption).
  assert (G2 : forall m, get_column m df2
             = if str_eqb m lat_dd then Return lats else get_column m df1)
    by (intros m; apply get_set; [exact A1 | lia]).
  assert (I2 : index_of df2 = index_of df).
  { unfold df2. rewrite set_column_index by lia.
    unfold df1. apply set_column_index. exact Llon. }
  assert (Hlon : get_column lon_dd df2 = Return lons).
  { rewrite G2, G1. reflexivity. }
  assert (Hlat : get_column lat_dd df2 = Return lats).
  { rewrite G2. reflexivity. }
  assert (Hsub : forall c, In c (columns df) -> In c (columns df2)).
  { intros c Hc. unfold df2, df1. apply set_column_In. left.
    apply set_column_In. left. exact Hc. }
  pose proof (finish_spec df df2 log lons lats A2 Hlon Hlat Hsub) as H.
  cbv zeta in H. fold mask in H. rewrite I2 in H.
  destruct (mask_filter mask (index_of df)) as [|i rest]; [exact H |].
  destruct H as (out & Hf & Hc & Hi & Ho & H1 & H2 & H3 & H4 & H5 & H6 & H7).
  exists out. split; [exact Hf |]. split; [exact Hc |]. split; [exact Hi |].
  split.
  { intros c vals Hcin Hno Hv. apply Ho; [exact Hcin | |].
    - intros C. apply Hno. cbn [late_columns output_columns In] in *. tauto.
    - rewrite G2, G1.
      assert (E1 : str_eqb c lat_dd = false)
        by (apply str_eqb_neq; intros ->; apply Hno; cbn; tauto).
      assert (E2 : str_eqb c lon_dd = false)
        by (apply str_eqb_neq; intros ->; apply Hno; cbn; tauto).
      rewrite E1, E2. exact Hv. }
  repeat split; assumption.
Qed.

Lemma both_present_survivors (rep : InputRepresentation)
  (tr : pyfloat -> pyfloat -> pyfloat * pyfloat) (xs ys : list pyval) :
  both_present
    (List.map (fun p => fst (stage1_point numeric_of_text rep tr (fst p) (snd p)))
              (combine xs ys))
    (List.map (fun p => snd (stage1_point numeric_of_text rep tr (fst p) (snd p)))
              (combine xs ys))
  = survivors numeric_of_text rep tr xs ys.
Proof.
  unfold both_present, survivors, survives.
  rewrite map_combine_map. reflexivity.
Qed.

Lemma combine_map2 {A B C D} (f : A -> C) (g : B -> D)
  (l : list A) (l' : list B) :
  combine (List.map f l) (List.map g l')
  = List.map (fun p => (f (fst p), g (snd p))) (combine l l').
Proof.
  revert l'; induction l as [|a l IH]; intros [|b l']; cbn; try reflexivity.
  rewrite IH. reflexivity.
Qed.

Lemma utm_to_dd_resolved (df : frame) (datum zone : pystr)
  (tr : pyfloat -> pyfloat -> pyfloat * pyfloat) (xs ys : list pyval) :
  resolve_transformer py_int make_transformer datum zone = Return tr ->
  get_column col_x df = Return xs ->
  get_column col_y df = Return ys ->
  utm_to_dd numeric_of_text py_int make_transformer df datum zone
  = Return
      (set_column lat_dd
         (List.map (fun p => snd (stage1_point numeric_of_text UTM tr (fst p) (snd p)))
                   (combine xs ys))
         (set_column lon_dd
            (List.map (fun p => fst (stage1_point numeric_of_text UTM tr (fst p) (snd p)))
                      (combine xs ys))
            df)).
Proof.
  unfold resolve_transformer, utm_to_dd, bind. intros Hr Hx Hy.
  destruct (py_int (removelast zone)); [|discriminate].
  destruct (rev zone); [discriminate |].
  destruct (Resolver.get_input_epsg_code _ _ _); [|discriminate].
  rewrite Hr, Hx, Hy. f_equal.
  unfold stage1_point. rewrite combine_map2, !map_map. cbn [fst snd].
  reflexivity.
Qed.

Lemma process_spec (rep : InputRepresentation) (df : frame)
  (xs ys : list pyval) (datum zone : pystr)
  (tr : pyfloat -> pyfloat -> pyfloat * pyfloat) :
  aligned df ->
  get_column col_x df = Return xs ->
  get_column col_y df = Return ys ->
  (rep = UTM ->
   resolve_transformer py_int make_transformer datum zone = Return tr) ->
  let lons := stage1_lons numeric_of_text rep tr xs ys in
  let lats := stage1_lats numeric_of_text rep tr xs ys in
  let mask := survivors numeric_of_text rep tr xs ys in
  let run := process_coordinates numeric_of_text py_int float_of_text
               make_transformer project df (crs_name rep) datum zone in
  match mask_filter mask (index_of df) with
  | [] => fst run = Return None /\ In no_valid_data (snd run)
  | _ :: _ =>
      exists out,
        fst run = Return (Some out)
        /\ columns out = original_cols df ++ output_columns
        /\ index_of out = mask_filter mask (index_of df)
        /\ (forall c vals, In c (original_cols df) ->
              ~ In c output_columns ->
              get_column c df = Return vals ->
              get_column c out = Return (mask_filter mask vals))
        /\ get_column lon_dd out = Return (mask_filter mask lons)
        /\ get_column lat_dd out = Return (mask_filter mask lats)
        /\ get_column lon_dms out
           = Return (List.map (dd_to_dms_cell float_of_text false)
                              (mask_filter mask lons))
        /\ get_column lat_dms out
           = Return (List.map (dd_to_dms_cell float_of_text true)
                              (mask_filter mask lats))
        /\ get_column zone_utm out
           = Return (List.map snd (auto_utm project (mask_filter mask lats)
                                            (mask_filter mask lons)))
        /\ get_column easting_utm out
           = Return (List.map (fun t => fst (fst t))
                       (auto_utm project (mask_filter mask lats)
                                         (mask_filter mask lons)))
        /\ get_column northing_utm out
           = Return (List.map (fun t => snd (fst t))
                       (auto_utm project (mask_filter mask lats)
                                         (mask_filter mask lons)))
  end.
Proof.
  intros Ha Hx Hy Htr lons lats mask run.
  pose proof (get_column_length _ _ _ Hx) as Lx.
  pose proof (get_column_length _ _ _ Hy) as Ly.
  assert (Llon : List.length lons = List.length (rows df)).
  { unfold lons, stage1_lons. rewrite length_map, length_combine. lia. }
  assert (Llat : List.length lats = List.length (rows df)).
  { unfold lats, stage1_lats. rewrite length_map, length_combine. lia. }
  assert (Hrun : exists log,
    run = finish float_of_text project df
            (set_column lat_dd lats (set_column lon_dd lons df)) log).
  { unfold run, process_coordinates. destruct rep.
    - change (str_eqb (crs_name DecimalDegrees) (str "Decimal Degrees (DD)"))
        with true. cbv iota. rewrite Hx.
      rewrite get_set by (try assumption; rewrite length_map; lia).
      change (str_eqb col_y lon_dd) with false. cbv iota. rewrite Hy.
      eexists. f_equal. f_equal.
      + unfold lats, stage1_lats, stage1_point. cbn [snd].
        symmetry. apply map_snd_combine. lia.
      + f_equal. unfold lons, stage1_lons, stage1_point. cbn [fst].
        symmetry. apply map_fst_combine. lia.
    - change (str_eqb (crs_name DMS) (str "Decimal Degrees (DD)")) with false.
      change (str_eqb (crs_name DMS) (str "Geografis (DMS)")) with true.
      cbv iota. rewrite Hx. unfold apply_parse_dms.
      rewrite get_set by (try assumption; rewrite length_map; lia).
      change (str_eqb col_y lon_dd) with false. cbv iota. rewrite Hy.
      eexists. f_equal. f_equal.
      + unfold lats, stage1_lats, stage1_point. cbn [snd].
        symmetry. apply map_snd_combine. lia.
      + f_equal. unfold lons, stage1_lons, stage1_point. cbn [fst].
        symmetry. apply map_fst_combine. lia.
    - change (str_eqb (crs_name UTM) (str "Decimal Degrees (DD)")) with false.
      change (str_eqb (crs_name UTM) (str "Geografis (DMS)")) with false.
      change (str_eqb (crs_name UTM) (str "UTM")) with true.
      cbv iota.
      rewrite (utm_to_dd_resolved df datum zone tr xs ys (Htr eq_refl) Hx Hy).
      eexists. reflexivity. }
  destruct Hrun as [log Hrun].
  pose proof (finish_after_stage1 df log lons lats Ha Llon Llat) as H.
  cbv zeta in H.
  assert (Hm : both_present lons lats = mask)
    by apply both_present_survivors.
  rewrite Hm in H. rewrite <- Hrun in H.
  destruct (mask_filter mask (index_of df)) as [|i rest].
  - rewrite H. cbn [fst snd]. split; [reflexivity |].
    apply in_or_app. right. left. reflexivity.
  - destruct H as (out & Hf & Hrest). exists out. rewrite Hf.
    split; [reflexivity | exact Hrest].
Qed.

Lemma mask_filter_length {A} (mask : list bool) (l : list A) :
  List.length mask = List.length l ->
  (List.length (mask_filter mask l) + List.length (filter negb mask)
   = List.length l)%nat.
Proof.
  revert l; induction mask as [|b mask IH]; intros [|a l] H; cbn in *;
    try lia.
  destruct b; cbn; specialize (IH l); lia.
Qed.

Lemma parse_failure_drops (rep : InputRepresentation)
  (tr : pyfloat -> pyfloat -> pyfloat * pyfloat) (x y : pyval) :
  (rep = UTM -> forall a b, a = NaN \/ b = NaN -> tr a b = (NaN, NaN)) ->
  parse_fails numeric_of_text rep x = true
  \/ parse_fails numeric_of_text rep y = true ->
  survives numeric_of_text rep tr x y = false.
Proof.
  intros Hnan H. unfold survives, stage1_point, parse_fails in *.
  destruct rep; cbn [fst snd].
  - destruct H as [-> | ->]; [reflexivity | apply andb_false_r].
  - destruct H as [-> | ->]; [reflexivity | apply andb_false_r].
  - specialize (Hnan eq_refl).
    assert (Hc : cell_float (to_numeric numeric_of_text x) = NaN
                 \/ cell_float (to_numeric numeric_of_text y) = NaN).
    { destruct H as [H | H]; [left | right];
        destruct (to_numeric numeric_of_text _); try discriminate; reflexivity. }
    rewrite (Hnan _ _ Hc). reflexivity.
Qed.


(** C7. Rows whose x or y does not parse in stage 1 are dropped and the
    run goes on. The result is never an exception. When some row survives
    it is the table of the surviving rows in their order, each one
    processed: the columns are the metadata columns followed by the seven
    computed ones (x and y are gone), with the decimal degrees of stage 1,
    their DMS texts, and the automatic UTM easting, northing and zone
    label; metadata cells that no computed column overwrites are the cells
    of the surviving rows. When no row survives the result is the empty
    outcome with the "no valid data" warning. In UTM mode the batch has
    its transformer, which gives no coordinates for a missing one. *)
Theorem process_drops_unparsable (rep : InputRepresentation) (df : frame)
  (xs ys : list pyval) (datum zone : pystr)
  (tr : pyfloat -> pyfloat -> pyfloat * pyfloat) :
  aligned df ->
  get_column col_x df = Return xs ->
  get_column col_y df = Return ys ->
  (rep = UTM ->
   resolve_transformer py_int make_transformer datum zone = Return tr
   /\ forall a b, a = NaN \/ b = NaN -> tr a b = (NaN, NaN)) ->
  let run := process_coordinates numeric_of_text py_int float_of_text
               make_transformer project df (crs_name rep) datum zone in
  let kept := survivors numeric_of_text rep tr xs ys in
  let lons := mask_filter kept (stage1_lons numeric_of_text rep tr xs ys) in
  let lats := mask_filter kept (stage1_lats numeric_of_text rep tr xs ys) in
  (forall x y,
     parse_fails numeric_of_text rep x = true
     \/ parse_fails numeric_of_text rep y = true ->
     survives numeric_of_text rep tr x y = false)
  /\ match mask_filter kept (index_of df) with
     | [] => fst run = Return None /\ In no_valid_data (snd run)
     | index =>
         exists out,
           fst run = Return (Some out)
           /\ index_of out = index
           /\ columns out = original_cols df ++ output_columns
           /\ ~ In col_x (columns out) /\ ~ In col_y (columns out)
           /\ get_column lon_dd out = Return lons
           /\ get_column lat_dd out = Return lats
           /\ get_column lon_dms out
              = Return (List.map (dd_to_dms_cell float_of_text false) lons)
           /\ get_column lat_dms out
              = Return (List.map (dd_to_dms_cell float_of_text true) lats)
           /\ get_column easting_utm out
              = Return (List.map (fun t => fst (fst t))
                                 (auto_utm project lats lons))
           /\ get_column northing_utm out
              = Return (List.map (fun t => snd (fst t))
                                 (auto_utm project lats lons))
           /\ get_column zone_utm out
              = Return (List.map snd (auto_utm project lats lons))
           /\ (forall c vals,
                 In c (original_cols df) -> ~ In c output_columns ->
                 get_column c df = Return vals ->
                 get_column c out = Return (mask_filter kept vals))
     end.
Proof.
  intros Ha Hx Hy Hutm run kept lons lats. split.
  - intros x y. apply parse_failure_drops. intros E. apply Hutm. exact E.
  - pose proof (process_spec rep df xs ys datum zone tr Ha Hx Hy
                  (fun E => proj1 (Hutm E))) as H.
    cbv zeta in H. fold run kept in H. fold lons lats in H.
    destruct (mask_filter kept (index_of df)) as [|i rest]; [exact H |].
    destruct H as (out & H1 & H2 & H3 & H4 & H5 & H6 & H7 & H8 & H9 & H10 & H11).
    exists out. split; [exact H1 |]. split; [exact H3 |].
    split; [exact H2 |].
    assert (Hxy : ~ In col_x (columns out) /\ ~ In col_y (columns out)).
    { rewrite H2. split; intros C; apply in_app_or in C;
        (destruct C as [C | C];
         [unfold original_cols in C; apply filter_In in C;
          destruct C as [_ C]; discriminate C
         | cbn in C; repeat destruct C as [C | C]; try discriminate C;
           exact C]). }
    destruct Hxy as [Hnx Hny].
    repeat (split; [assumption |]). exact H4.
Qed.

(** C8 (amended). No count of dropped rows is reported: the result holds
    the surviving rows only. The rows of the result and the dropped rows
    add up to the rows of the batch, and no result at all means that every
    row was dropped. *)
Theorem process_row_balance (rep : InputRepresentation) (df : frame)
  (xs ys : list pyval) (datum zone : pystr)
  (tr : pyfloat -> pyfloat -> pyfloat * pyfloat) :
  aligned df ->
  get_column col_x df = Return xs ->
  get_column col_y df = Return ys ->
  (rep = UTM ->
   resolve_transformer py_int make_transformer datum zone = Return tr) ->
  match fst (process_coordinates numeric_of_text py_int float_of_text
               make_transformer project df (crs_name rep) datum zone) with
  | Return (Some out) =>
      (List.length (rows out) + dropped_count numeric_of_text rep tr xs ys
       = List.length (rows df))%nat
  | Return None =>
      dropped_count numeric_of_text rep tr xs ys = List.length (rows df)
  | Raise _ => False
  end.
Proof.
  intros Ha Hx Hy Hutm.
  pose proof (process_spec rep df xs ys datum zone tr Ha Hx Hy Hutm) as H.
  cbv zeta in H.
  pose proof (get_column_length _ _ _ Hx) as Lx.
  pose proof (get_column_length _ _ _ Hy) as Ly.
  assert (Lm : List.length (survivors numeric_of_text rep tr xs ys)
               = List.length (index_of df)).
  { unfold survivors, index_of. rewrite !length_map, length_combine. lia. }
  pose proof (mask_filter_length _ _ Lm) as Hb.
  unfold dropped_count.
  destruct (mask_filter _ (index_of df)) as [|i rest].
  - destruct H as [-> _]. unfold index_of in Hb. rewrite length_map in Hb.
    cbn [List.length] in Hb. lia.
  - destruct H as (out & -> & _ & Hi & _).
    assert (List.length (rows out) = List.length (i :: rest))
      by (rewrite <- Hi; unfold index_of; rewrite length_map; reflexivity).
    unfold index_of in Hb. rewrite length_map in Hb. lia.
Qed.

(** Metadata columns whose names differ from the computed ones are kept,
    cell by cell, in front of the computed columns; x and y are gone. *)
Lemma process_keeps_metadata (rep : InputRepresentation) (df out : frame)
  (xs ys : list pyval) (datum zone : pystr)
  (tr : pyfloat -> pyfloat -> pyfloat * pyfloat) :
  aligned df ->
  get_column col_x df = Return xs ->
  get_column col_y df = Return ys ->
  (rep = UTM ->
   resolve_transformer py_int make_transformer datum zone = Return tr) ->
  fst (process_coordinates numeric_of_text py_int float_of_text
         make_transformer project df (crs_name rep) datum zone)
  = Return (Some out) ->
  columns out = original_cols df ++ output_columns
  /\ ~ In col_x (original_cols df) /\ ~ In col_y (original_cols df)
  /\ forall c vals,
       In c (original_cols df) -> ~ In c output_columns ->
       get_column c df = Return vals ->
       get_column c out
       = Return (mask_filter (survivors numeric_of_text rep tr xs ys) vals).
Proof.
  intros Ha Hx Hy Hutm Hrun.
  pose proof (process_spec rep df xs ys datum zone tr Ha Hx Hy Hutm) as H.
  cbv zeta in H. rewrite Hrun in H.
  assert (Hxy : ~ In col_x (original_cols df) /\ ~ In col_y (original_cols df)).
  { unfold original_cols. split; intros C; apply filter_In in C;
      destruct C as [_ C]; discriminate C. }
  destruct (mask_filter _ (index_of df)) as [|i rest].
  - destruct H as [H _]. discriminate H.
  - destruct H as (out' & [= <-] & Hc & _ & Ho & _). tauto.
Qed.

End WithLibraries.

(** The batch of three rows of section 8 as decimal degrees, and a batch
    of three UTM rows in zone 48S: in both the second row has x = abc, and
    the other two come back, processed. *)
Lemma process_drops_unparsable_witness :
  ((forall x y,
      parse_fails Sample.numeric_of_text DecimalDegrees x = true
      \/ parse_fails Sample.numeric_of_text DecimalDegrees y = true ->
      survives Sample.numeric_of_text DecimalDegrees Sample.no_transform x y
      = false)
   /\ exists out,
        fst (Sample.process Sample.batch_three DecimalDegrees)
        = Return (Some out)
        /\ index_of out = [0; 2]
        /\ columns out = str "nama_lokasi" :: output_columns
        /\ ~ In col_x (columns out) /\ ~ In col_y (columns out)
        /\ get_column lon_dd out = Return Sample.lons_three
        /\ get_column lat_dd out = Return Sample.lats_three
        /\ get_column lon_dms out
           = Return (List.map (dd_to_dms_cell Sample.float_of_text false)
                              Sample.lons_three)
        /\ get_column lat_dms out
           = Return (List.map (dd_to_dms_cell Sample.float_of_text true)
                              Sample.lats_three)
        /\ get_column easting_utm out
           = Return (List.map (fun t => fst (fst t))
                       (auto_utm Sample.project Sample.lats_three
                                 Sample.lons_three))
        /\ get_column northing_utm out
           = Return (List.map (fun t => snd (fst t))
                       (auto_utm Sample.project Sample.lats_three
                                 Sample.lons_three))
        /\ get_column zone_utm out
           = Return (List.map snd
                       (auto_utm Sample.project Sample.lats_three
                                 Sample.lons_three))
        /\ (forall c vals,
              In c (original_cols Sample.batch_three) ->
              ~ In c output_columns ->
              get_column c Sample.batch_three = Return vals ->
              get_column c out
              = Return (mask_filter [true; false; true] vals)))
  /\ ((forall x y,
         parse_fails Sample.numeric_of_text UTM x = true
         \/ parse_fails Sample.numeric_of_text UTM y = true ->
         survives Sample.numeric_of_text UTM SampleUtm.transform x y = false)
      /\ exists out,
           fst (SampleUtm.process SampleUtm.batch_utm) = Return (Some out)
           /\ index_of out = [0; 2]
           /\ columns out = str "nama_lokasi" :: output_columns
           /\ ~ In col_x (columns out) /\ ~ In col_y (columns out)
           /\ get_column lon_dd out = Return SampleUtm.lons_utm
           /\ get_column lat_dd out = Return SampleUtm.lats_utm
           /\ get_column lon_dms out
              = Return (List.map (dd_to_dms_cell Sample.float_of_text false)
                                 SampleUtm.lons_utm)
           /\ get_column lat_dms out
              = Return (List.map (dd_to_dms_cell Sample.float_of_text true)
                                 SampleUtm.lats_utm)
           /\ get_column easting_utm out
              = Return (List.map (fun t => fst (fst t))
                          (auto_utm Sample.project SampleUtm.lats_utm
                                    SampleUtm.lons_utm))
           /\ get_column northing_utm out
              = Return (List.map (fun t => snd (fst t))
                          (auto_utm Sample.project SampleUtm.lats_utm
                                    SampleUtm.lons_utm))
           /\ get_column zone_utm out
              = Return (List.map snd
                          (auto_utm Sample.project SampleUtm.lats_utm
                                    SampleUtm.lons_utm))
           /\ (forall c vals,
                 In c (original_cols SampleUtm.batch_utm) ->
                 ~ In c output_columns ->
                 get_column c SampleUtm.batch_utm = Return vals ->
                 get_column c out
                 = Return (mask_filter [true; false; true] vals))).
Proof.
  split.
  - apply (process_drops_unparsable Sample.numeric_of_text Sample.py_int
             Sample.float_of_text Sample.make_transformer Sample.project
             DecimalDegrees Sample.batch_three
             (Sample.xs Sample.batch_three) (Sample.ys Sample.batch_three)
             (str "WGS84") [] Sample.no_transform).
    + repeat constructor.
    + reflexivity.
    + reflexivity.
    + intros E. discriminate E.
  - apply (process_drops_unparsable Sample.numeric_of_text Sample2.read_int
             Sample.float_of_text SampleUtm.make_transformer Sample.project
             UTM SampleUtm.batch_utm
             (Sample.xs SampleUtm.batch_utm) (Sample.ys SampleUtm.batch_utm)
             (str "WGS84") (str "48S") SampleUtm.transform).
    + repeat constructor.
    + reflexivity.
    + reflexivity.
    + intros _. split; [reflexivity |].
      intros a b [-> | ->]; [| destruct a]; reflexivity.
Defined.

(** C8, as stated, fails: a batch with one good row and the same batch
    with one more, unparsable, row give the same rows and the same
    messages, so nothing in what comes back tells 0 dropped rows from 1. *)
Lemma process_reports_no_count :
  Sample.process Sample.batch_one DecimalDegrees
  = Sample.process Sample.batch_one_and_bad DecimalDegrees
  /\ (exists out,
        fst (Sample.process Sample.batch_one DecimalDegrees)
        = Return (Some out) /\ index_of out = [0])
  /\ snd (Sample.process Sample.batch_one_and_bad DecimalDegrees) = []
  /\ dropped_count Sample.numeric_of_text DecimalDegrees Sample.no_transform
       (Sample.xs Sample.batch_one) (Sample.ys Sample.batch_one) = 0%nat
  /\ dropped_count Sample.numeric_of_text DecimalDegrees Sample.no_transform
       (Sample.xs Sample.batch_one_and_bad)
       (Sample.ys Sample.batch_one_and_bad) = 1%nat.
Proof.
  split; [vm_compute; reflexivity |].
  split; [eexists; split; vm_compute; reflexivity |].
  repeat split; vm_compute; reflexivity.
Qed.

Lemma process_row_balance_witness :
  exists out,
    fst (Sample.process Sample.batch_three DecimalDegrees) = Return (Some out)
    /\ (List.length (rows out) + 1 = 3)%nat.
Proof.
  pose proof (process_row_balance Sample.numeric_of_text Sample.py_int
                Sample.float_of_text Sample.make_transformer Sample.project
                DecimalDegrees Sample.batch_three
                (Sample.xs Sample.batch_three) (Sample.ys Sample.batch_three)
                (str "WGS84") [] Sample.no_transform
                ltac:(repeat constructor) eq_refl eq_refl
                ltac:(intros E; discriminate E)) as W.
  change (process_coordinates Sample.numeric_of_text Sample.py_int
            Sample.float_of_text Sample.make_transformer Sample.project
            Sample.batch_three (crs_name DecimalDegrees) (str "WGS84") [])
    with (Sample.process Sample.batch_three DecimalDegrees) in W.
  destruct (fst (Sample.process Sample.batch_three DecimalDegrees))
    as [[out|]|] eqn:E.
  - exists out. split; [reflexivity | exact W].
  - vm_compute in W. discriminate W.
  - contradiction.
Defined.

Example process_dms_row :
  exists out,
    Sample.process Sample.batch_dms DMS = (Return (Some out), [])
    /\ get_column lon_dd out
       = Return [VFloat (Dms.dms_value false 106 49 37)]
    /\ get_column lat_dd out
       = Return [VFloat (Dms.dms_value true 6 10 30)]
    /\ get_column zone_utm out = Return [VStr (str "48S")].
Proof.
  eexists. split; [vm_compute; reflexivity |].
  repeat split; vm_compute; reflexivity.
Qed.

(** C9. Every column of the batch other than x and y is to come back
    unchanged, in front of the computed columns. That fails on a batch whose
    metadata column is named lat_dd: the column comes back twice, and both
    times with the computed latitude in the place of the cell of the
    batch. *)
Lemma metadata_overwritten_on_collision :
  get_column lat_dd Sample.batch_collision = Return [VStr (str "note")]
  /\ exists out,
       fst (Sample.process Sample.batch_collision DecimalDegrees)
       = Return (Some out)
       /\ columns out
          = [lat_dd; lat_dd; lon_dd; lat_dms; lon_dms;
             easting_utm; northing_utm; zone_utm]
       /\ List.map snd (rows out)
          = [[VFloat (Qopp (6175392 # 1000000));
              VFloat (Qopp (6175392 # 1000000));
              VFloat (106827153 # 1000000);
              VStr (Fmt.dd_to_dms (Qopp (6175392 # 1000000)) true);
              VStr (Fmt.dd_to_dms (106827153 # 1000000) false);
              VFloat 0; VFloat 0; VStr (str "48S")]].
Proof.
  split; [reflexivity |]. eexists. split; [vm_compute; reflexivity |].
  split; vm_compute; reflexivity.
Qed.

End PipelineFacts.

(** * Further properties of the code *)

(** ** Resolver: where it succeeds, and what tells its codes apart *)

Module ResolverMore.
Import Py PyFacts Resolver ResolverFacts DigitFacts Shape More.

Lemma upper_cp_other (c : N) :
  (c < 97 \/ 122 < c)%N -> ~ In c special_upper -> upper_cp c = [c].
Proof.
  intros Hc Hs. unfold upper_cp.
  destruct (N.leb_spec 97 c); destruct (N.leb_spec c 122); cbn [andb];
    try lia;
    repeat match goal with
           | |- context [N.eqb c ?k] =>
               destruct (N.eqb_spec c k);
               [exfalso; apply Hs; subst c; cbn; tauto |]
           end; reflexivity.
Qed.

Lemma upper_cp_lower (c : N) :
  (97 <= c <= 122)%N -> upper_cp c = [(c - 32)%N].
Proof.
  intros Hc. unfold upper_cp.
  destruct (N.leb_spec 97 c); destruct (N.leb_spec c 122); cbn [andb];
    try lia; reflexivity.
Qed.

Lemma upper_cp_idem (c : N) : upper (upper_cp c) = upper_cp c.
Proof.
  destruct (N.le_gt_cases 97 c) as [H1 | H1];
    [destruct (N.le_gt_cases c 122) as [H2 | H2] |].
  - rewrite upper_cp_lower by lia. unfold upper. cbn [flat_map].
    rewrite app_nil_r. apply upper_cp_other; [lia |].
    cbn [special_upper In]. lia.
  - destruct (in_dec N.eq_dec c special_upper) as [Hin | Hout].
    + cbn [special_upper In] in Hin.
      repeat (destruct Hin as [<- | Hin]; [reflexivity |]). contradiction.
    + rewrite upper_cp_other by (auto; lia). unfold upper. cbn [flat_map].
      rewrite app_nil_r. apply upper_cp_other; [lia | exact Hout].
  - rewrite upper_cp_other.
    + unfold upper. cbn [flat_map]. rewrite app_nil_r.
      apply upper_cp_other; [lia |]. cbn [special_upper In]. lia.
    + lia.
    + cbn [special_upper In]. lia.
Qed.

Lemma upper_idem (s : pystr) : upper (upper s) = upper s.
Proof.
  induction s as [|c s IH]; [reflexivity |].
  change (upper (c :: s)) with (upper_cp c ++ upper s).
  rewrite upper_app, upper_cp_idem, IH. reflexivity.
Qed.

Lemma dict_get_some_n (z : Z) :
  46 <= z <= 54 -> exists c, dict_get z epsg_map_dgn95_n = Some c.
Proof.
  intros Hz. pattern z. apply (zone_cases 46 54 z); [exact Hz |].
  intros n Hn. cbv in Hn.
  repeat (destruct n as [|n];
          [ eexists; vm_compute; reflexivity
          | first [ apply le_S_n in Hn | exfalso; inversion Hn ] ]).
Qed.

Lemma dict_get_some_s (z : Z) :
  46 <= z <= 54 -> exists c, dict_get z epsg_map_dgn95_s = Some c.
Proof.
  intros Hz. pattern z. apply (zone_cases 46 54 z); [exact Hz |].
  intros n Hn. cbv in Hn.
  repeat (destruct n as [|n];
          [ eexists; vm_compute; reflexivity
          | first [ apply le_S_n in Hn | exfalso; inversion Hn ] ]).
Qed.

(** The resolver returns a code exactly for WGS84 with a zone in [1,60]
    and for DGN95 with a zone in [46,54], whatever the hemisphere text. *)
Theorem resolver_success_domain (z : Z) (h d : pystr) :
  (exists c, get_input_epsg_code z h d = Return c)
  <-> (d = str "WGS84" /\ 1 <= z <= 60)
      \/ (d = str "DGN95" /\ 46 <= z <= 54).
Proof.
  unfold get_input_epsg_code. split.
  - intros [c H].
    destruct (str_eqb d (str "WGS84")) eqn:E1.
    + left. apply str_eqb_eq in E1. split; [exact E1 |].
      destruct ((1 <=? z) && (z <=? 60)) eqn:E; [|discriminate H].
      apply andb_true_iff in E. destruct E as [Ea Eb].
      apply Z.leb_le in Ea, Eb. lia.
    + destruct (str_eqb d (str "DGN95")) eqn:E2; [|discriminate H].
      right. apply str_eqb_eq in E2. split; [exact E2 |].
      destruct (Z_le_dec 46 z) as [Ha | Ha];
        [destruct (Z_le_dec z 54) as [Hb | Hb]; [lia |] |];
        (destruct (str_eqb (upper h) (str "N"));
         [rewrite dict_get_none_n in H by lia
         | rewrite dict_get_none_s in H by lia]; discriminate H).
  - intros [[-> Hz] | [-> Hz]].
    + change (str_eqb (str "WGS84") (str "WGS84")) with true. cbv iota.
      assert (E : (1 <=? z) && (z <=? 60) = true).
      { apply andb_true_iff. split; apply Z.leb_le; lia. }
      rewrite E. cbn [negb].
      destruct (str_eqb (upper h) (str "S")); eexists; reflexivity.
    + change (str_eqb (str "DGN95") (str "WGS84")) with false.
      change (str_eqb (str "DGN95") (str "DGN95")) with true. cbv iota.
      destruct (str_eqb (upper h) (str "N")).
      * destruct (dict_get_some_n z Hz) as [c ->]. eexists; reflexivity.
      * destruct (dict_get_some_s z Hz) as [c ->]. eexists; reflexivity.
Qed.

(** A hemisphere text that is neither N nor S in upper case counts as
    North for WGS84 and as South for DGN95. *)
Theorem resolver_other_hemisphere (z : Z) (h : pystr) :
  upper h <> str "N" -> upper h <> str "S" ->
  get_input_epsg_code z h (str "WGS84") = resolveEpsg WGS84 z North
  /\ get_input_epsg_code z h (str "DGN95") = resolveEpsg DGN95 z South.
Proof.
  intros Hn Hs. unfold resolveEpsg, get_input_epsg_code.
  assert (En : str_eqb (upper h) (str "N") = false).
  { destruct (str_eqb (upper h) (str "N")) eqn:E; [|reflexivity].
    apply str_eqb_eq in E. contradiction. }
  assert (Es : str_eqb (upper h) (str "S") = false).
  { destruct (str_eqb (upper h) (str "S")) eqn:E; [|reflexivity].
    apply str_eqb_eq in E. contradiction. }
  rewrite En, Es. split; reflexivity.
Qed.

Lemma int_to_str_inj (a b : Z) :
  0 <= a -> 0 <= b -> int_to_str a = int_to_str b -> a = b.
Proof.
  intros Ha Hb H.
  destruct a as [|pa|pa]; destruct b as [|pb|pb]; try lia;
    cbn [int_to_str] in H;
    apply (f_equal Dms.digits_value) in H;
    rewrite !digits_value_nat_digits in H; lia.
Qed.

Lemma resolve_number (d : Datum) (z : Z) (h : Hemisphere) (c : pystr) :
  resolveEpsg d z h = Return c ->
  c = int_to_str (epsg_number d z h)
  /\ match d with WGS84 => 1 <= z <= 60 | DGN95 => 46 <= z <= 54 end.
Proof.
  intros H.
  assert (Hd : exists c', get_input_epsg_code z (hemi_letter h) (datum_name d)
                          = Return c') by (exists c; exact H).
  apply resolver_success_domain in Hd.
  destruct d.
  - destruct Hd as [[_ Hz] | [C _]]; [|discriminate C].
    rewrite (wgs84_in_range z h Hz) in H. injection H as <-. auto.
  - destruct Hd as [[C _] | [_ Hz]]; [discriminate C |].
    rewrite (dgn95_in_range z h Hz) in H. injection H as <-. auto.
Qed.

(** Two resolutions that give the same code have the same datum, zone
    and hemisphere. *)
Theorem resolver_injective (d d' : Datum) (z z' : Z) (h h' : Hemisphere)
  (c : pystr) :
  resolveEpsg d z h = Return c ->
  resolveEpsg d' z' h' = Return c ->
  d = d' /\ z = z' /\ h = h'.
Proof.
  intros H H'.
  apply resolve_number in H, H'.
  destruct H as [-> Hz]. destruct H' as [E Hz'].
  apply int_to_str_inj in E.
  - destruct d, d', h, h'; cbn [epsg_number dgn95_table] in E;
      repeat match goal with
             | H : context [Z.eqb ?a ?b] |- _ =>
                 destruct (Z.eqb_spec a b)
             end;
      try lia; repeat split; try reflexivity; lia.
  - destruct d, h; cbn [epsg_number dgn95_table];
      repeat match goal with
             | |- context [Z.eqb ?a ?b] => destruct (Z.eqb_spec a b)
             end; lia.
  - destruct d', h'; cbn [epsg_number dgn95_table];
      repeat match goal with
             | |- context [Z.eqb ?a ?b] => destruct (Z.eqb_spec a b)
             end; lia.
Qed.

End ResolverMore.

(** ** DMS parser: what it ignores, what it needs, and the sign it gives *)

Module DmsMore.
Import Py PyFacts Dms DmsFacts DigitFacts Shape More ResolverMore.

Lemma parse_dms_normalize (t1 t2 : pystr) :
  normalize t1 = normalize t2 -> parse_dms (VStr t1) = parse_dms (VStr t2).
Proof.
  intros H. rewrite !parse_dms_str. unfold tokens, south_or_west.
  rewrite H. reflexivity.
Qed.

(** The parser does not tell upper case from lower case. *)
Theorem parse_dms_case_insensitive (text : pystr) :
  parse_dms (VStr (upper text)) = parse_dms (VStr text).
Proof.
  apply parse_dms_normalize. unfold normalize. rewrite upper_idem.
  reflexivity.
Qed.

Lemma space_upper (c : N) : is_space c = true -> upper_cp c = [c].
Proof.
  intros H. apply upper_cp_other.
  - destruct (N.le_gt_cases 97 c); [|lia].
    destruct (N.le_gt_cases c 122); [|lia].
    exfalso. revert H. unfold is_space.
    repeat match goal with
           | |- context [N.leb ?a ?b] => destruct (N.leb_spec a b); try lia
           | |- context [N.eqb ?a ?b] => destruct (N.eqb_spec a b); try lia
           end; cbn; discriminate.
  - intros Hin. revert H. cbn [special_upper In] in Hin.
    repeat (destruct Hin as [<- | Hin]; [cbv; discriminate |]).
    contradiction.
Qed.

Lemma lstrip_spaces (ws s : pystr) : all_space ws -> lstrip (ws ++ s) = lstrip s.
Proof.
  induction 1 as [|c ws Hc _ IH]; [reflexivity |].
  cbn [app lstrip]. rewrite Hc. exact IH.
Qed.

Lemma rstrip_spaces (s ws : pystr) : all_space ws -> rstrip (s ++ ws) = rstrip s.
Proof.
  intros H. unfold rstrip. rewrite rev_app_distr.
  rewrite lstrip_spaces; [reflexivity |].
  apply Forall_rev. exact H.
Qed.

Lemma lstrip_app_nonempty (s t : pystr) :
  lstrip s <> [] -> lstrip (s ++ t) = lstrip s ++ t.
Proof.
  induction s as [|c s IH]; cbn [lstrip app]; [congruence |].
  destruct (is_space c); [exact IH | reflexivity].
Qed.

Lemma lstrip_all_space (s : pystr) : lstrip s = [] -> all_space s.
Proof.
  induction s as [|c s IH]; cbn [lstrip]; [constructor |].
  destruct (is_space c) eqn:E; [|discriminate].
  intros H. constructor; [exact E | apply IH; exact H].
Qed.

Lemma strip_spaces (a s b : pystr) :
  all_space a -> all_space b -> strip (a ++ s ++ b) = strip s.
Proof.
  intros Ha Hb. unfold strip. rewrite lstrip_spaces by exact Ha.
  destruct (lstrip s) as [|c r] eqn:E.
  - apply lstrip_all_space in E.
    assert (Hall : all_space (s ++ b)) by (apply Forall_app; auto).
    assert (El : lstrip (s ++ b) = []).
    { rewrite <- (app_nil_r (s ++ b)). rewrite lstrip_spaces by exact Hall.
      reflexivity. }
    rewrite El. reflexivity.
  - rewrite lstrip_app_nonempty by congruence. rewrite E.
    apply rstrip_spaces. exact Hb.
Qed.

(** White space around the text is ignored. *)
Theorem parse_dms_surrounding_space (a text b : pystr) :
  all_space a -> all_space b ->
  parse_dms (VStr (a ++ text ++ b)) = parse_dms (VStr text).
Proof.
  intros Ha Hb. apply parse_dms_normalize. unfold normalize.
  rewrite !upper_app.
  rewrite (upper_fixed a), (upper_fixed b).
  - rewrite strip_spaces by assumption. reflexivity.
  - eapply Forall_impl; [|exact Hb]. apply space_upper.
  - eapply Forall_impl; [|exact Ha]. apply space_upper.
Qed.

Lemma upper_cp_no_digit (c : N) : is_digit c = false -> no_digit (upper_cp c).
Proof.
  intros Hc.
  destruct (N.le_gt_cases 97 c) as [H1 | H1];
    [destruct (N.le_gt_cases c 122) as [H2 | H2] |].
  - rewrite upper_cp_lower by lia. constructor; [|constructor].
    unfold is_digit. destruct (N.leb_spec (c - 32) 57); [lia |].
    apply andb_false_r.
  - destruct (in_dec N.eq_dec c special_upper) as [Hin | Hout].
    + cbn [special_upper In] in Hin.
      repeat (destruct Hin as [<- | Hin]; [repeat constructor |]).
      contradiction.
    + rewrite upper_cp_other by (auto; lia). constructor; [exact Hc | constructor].
  - rewrite upper_cp_other.
    + constructor; [exact Hc | constructor].
    + lia.
    + cbn [special_upper In]. lia.
Qed.

Lemma upper_no_digit (s : pystr) : no_digit s -> no_digit (upper s).
Proof.
  induction 1 as [|c s Hc _ IH]; [constructor |].
  change (upper (c :: s)) with (upper_cp c ++ upper s).
  apply Forall_app. split; [apply upper_cp_no_digit; exact Hc | exact IH].
Qed.

Lemma lstrip_Forall (P : N -> Prop) (s : pystr) :
  Forall P s -> Forall P (lstrip s).
Proof.
  induction 1 as [|c s Hc Hs IH]; [constructor |].
  cbn [lstrip]. destruct (is_space c); [exact IH | constructor; assumption].
Qed.

Lemma strip_Forall (P : N -> Prop) (s : pystr) :
  Forall P s -> Forall P (strip s).
Proof.
  intros H. unfold strip, rstrip.
  apply Forall_rev, lstrip_Forall, Forall_rev, lstrip_Forall. exact H.
Qed.

Lemma replace_Forall (P : N -> Prop) (old new s : pystr) :
  Forall P new -> Forall P s -> Forall P (replace old new s).
Proof.
  intros Hn Hs. unfold replace. generalize O.
  induction Hs as [|c s Hc Hs IH]; intros skip; [constructor |].
  cbn [replace_from]. destruct skip as [|k]; [|apply IH].
  destruct (strip_prefix old (c :: s)).
  - apply Forall_app. split; [exact Hn | apply IH].
  - constructor; [exact Hc | apply IH].
Qed.

Lemma normalize_no_digit (text : pystr) :
  no_digit text -> no_digit (normalize text).
Proof.
  intros H. unfold normalize.
  repeat (apply replace_Forall; [repeat constructor |]).
  apply strip_Forall, upper_no_digit. exact H.
Qed.

Lemma filter_Forall (P : N -> Prop) (f : N -> bool) (s : pystr) :
  Forall P s -> Forall P (filter f s).
Proof.
  intros H. apply Forall_forall. intros c Hc. apply filter_In in Hc.
  rewrite Forall_forall in H. apply H. tauto.
Qed.

Lemma split_from_Forall (P : N -> Prop) (cur : pystr) (b : bool) (s : pystr) :
  Forall P cur -> Forall P s -> Forall (Forall P) (split_from cur b s).
Proof.
  intros Hc Hs. revert cur b Hc.
  induction Hs as [|c s Hcs Hs IH]; intros cur b Hc; cbn [split_from].
  - constructor; [apply Forall_rev; exact Hc | constructor].
  - destruct (is_space c); [destruct b |].
    + apply IH. exact Hc.
    + constructor; [apply Forall_rev; exact Hc | apply IH; constructor].
    + apply IH. constructor; assumption.
Qed.

Lemma span_digits_no_digit (s : pystr) : no_digit s -> span_digits s = ([], s).
Proof.
  intros H. destruct H as [|c s Hc _]; [reflexivity |].
  cbn [span_digits]. rewrite Hc. reflexivity.
Qed.

Lemma float_body_no_digit (neg : bool) (body : pystr) :
  no_digit body ->
  (let (ip, rest) := span_digits body in
   match rest with
   | [] => match ip with [] => None | _ => Some (decimal_value neg ip []) end
   | c :: rest' =>
       if N.eqb c ch_dot then
         let (fp, rest'') := span_digits rest' in
         match rest'', ip ++ fp with
         | [], _ :: _ => Some (decimal_value neg ip fp)
         | _, _ => None
         end
       else None
   end) = None.
Proof.
  intros Hb. rewrite (span_digits_no_digit body Hb).
  destruct Hb as [|c r Hc Hr]; [reflexivity |].
  destruct (N.eqb c ch_dot); [|reflexivity].
  rewrite (span_digits_no_digit r Hr). cbn [app].
  destruct r; reflexivity.
Qed.

Lemma float_of_token_no_digit (t : pystr) :
  no_digit t -> float_of_token t = None.
Proof.
  intros H. unfold float_of_token.
  destruct H as [|c b Hc Hb].
  - apply (float_body_no_digit false []). constructor.
  - destruct (N.eqb c ch_minus).
    + apply (float_body_no_digit true b Hb).
    + apply (float_body_no_digit false (c :: b)). constructor; assumption.
Qed.

Lemma token_values_first_none (t : pystr) (rest : list pystr) :
  float_of_token t = None -> token_values (t :: rest) = None.
Proof.
  intros H. unfold token_values. rewrite H.
  destruct rest as [|m [|s r]]; reflexivity.
Qed.

(** A text without any digit is never parsed. *)
Theorem parse_dms_needs_digit (text : pystr) :
  no_digit text -> parse_dms (VStr text) = VNA.
Proof.
  intros H. rewrite parse_dms_str.
  assert (Ht : Forall no_digit (tokens text)).
  { unfold tokens, re_split_ws, clean.
    apply split_from_Forall; [constructor |].
    apply strip_Forall, filter_Forall, normalize_no_digit. exact H. }
  destruct (tokens text) as [|t rest] eqn:E.
  - exfalso. apply (tokens_nonempty text). exact E.
  - inversion Ht as [|? ? Hd _]; subst.
    rewrite (token_values_first_none t rest (float_of_token_no_digit t Hd)).
    reflexivity.
Qed.

(** The sign of the result: at most zero when the text names S or W or
    the degree is below zero (never flipped back by both), at least zero
    otherwise. *)
Theorem parse_dms_sign (text : pystr) (deg mnt sec : Q) :
  token_values (tokens text) = Some (deg, mnt, sec) ->
  (0 <= mnt)%Q -> (0 <= sec)%Q ->
  exists r : Q,
    parse_dms (VStr text) = VFloat r
    /\ (Qabs r == Qabs deg + mnt / 60 + sec / 3600)%Q
    /\ (if south_or_west text || Qltb deg 0 then (r <= 0)%Q else (0 <= r)%Q).
Proof.
  intros Hv Hm Hs. rewrite parse_dms_str, Hv.
  eexists. split; [reflexivity |].
  assert (Hnn : (0 <= Qabs deg + mnt / 60 + sec / 3600)%Q).
  { pose proof (Qabs_nonneg deg) as Ha.
    unfold Qdiv. change (/ 60)%Q with (1 # 60)%Q.
    change (/ 3600)%Q with (1 # 3600)%Q. lra. }
  unfold dms_value.
  destruct (south_or_west text || Qltb deg 0).
  - split; [rewrite Qabs_opp; apply Qabs_pos; exact Hnn |].
    lra.
  - split; [apply Qabs_pos; exact Hnn | exact Hnn].
Qed.

Lemma numeric_upper (c : N) : numeric_char c -> upper_cp c = [c].
Proof.
  intros [H | H].
  - apply upper_cp_other.
    + unfold is_digit in H. apply andb_true_iff in H. destruct H as [_ H].
      apply N.leb_le in H. lia.
    + unfold is_digit in H. apply andb_true_iff in H. destruct H as [_ H].
      apply N.leb_le in H. cbn [special_upper In]. lia.
  - cbn [In] in H. repeat (destruct H as [<- | H]; [reflexivity |]).
    contradiction.
Qed.

Lemma numeric_not_letter (c o : N) :
  numeric_char c -> (65 <= o <= 90)%N -> c <> o.
Proof.
  intros [H | H] Ho.
  - unfold is_digit in H. apply andb_true_iff in H. destruct H as [_ H].
    apply N.leb_le in H. lia.
  - cbn [In] in H. repeat (destruct H as [<- | H]; [lia |]). contradiction.
Qed.

Lemma replace_after_numeric (old new p rest : pystr) :
  Forall numeric_char p ->
  match old with o :: _ => (65 <= o <= 90)%N | [] => False end ->
  replace old new (p ++ rest) = p ++ replace old new rest.
Proof.
  intros Hp Ho. destruct old as [|o old']; [contradiction |].
  apply replace_skips_prefix.
  eapply Forall_impl; [|exact Hp]. intros c Hc.
  apply numeric_not_letter; assumption.
Qed.

Lemma replacements_after_numeric (p rest : pystr) :
  Forall numeric_char p -> replacements (p ++ rest) = p ++ replacements rest.
Proof.
  intros Hp. unfold replacements, LU, LS, BT, BB.
  repeat (rewrite replace_after_numeric;
          [| exact Hp | cbv; split; discriminate]).
  reflexivity.
Qed.

Lemma last_app_ne {A} (l1 l2 : list A) (d : A) :
  l2 <> [] -> last (l1 ++ l2) d = last l2 d.
Proof.
  intros H. induction l1 as [|a l1 IH]; [reflexivity |].
  cbn [app]. rewrite <- IH. cbn [last].
  destruct (l1 ++ l2) eqn:E; [|reflexivity].
  apply app_eq_nil in E. destruct E. contradiction.
Qed.

Lemma strip_ends (s : pystr) :
  s <> [] -> is_space (hd 0%N s) = false -> is_space (last s 0%N) = false ->
  strip s = s.
Proof.
  intros Hne Hh Hl. unfold strip.
  destruct s as [|c s]; [congruence |]. cbn [hd] in Hh.
  rewrite (lstrip_nonspace c s Hh).
  rewrite (app_removelast_last 0%N Hne) at 1.
  rewrite rstrip_snoc_nonspace by exact Hl.
  symmetry. apply app_removelast_last. exact Hne.
Qed.

Lemma normalize_numeric_prefix (c0 : N) (p sfx : pystr) :
  is_space c0 = false -> Forall numeric_char (c0 :: p) ->
  sfx <> [] -> upper sfx = sfx -> is_space (last sfx 0%N) = false ->
  normalize ((c0 :: p) ++ sfx) = (c0 :: p) ++ replacements sfx.
Proof.
  intros H0 Hp Hne Hup Hl. unfold normalize.
  rewrite upper_app, Hup.
  rewrite (upper_fixed (c0 :: p))
    by (eapply Forall_impl; [|exact Hp]; apply numeric_upper).
  rewrite strip_ends.
  - apply (replacements_after_numeric (c0 :: p) sfx Hp).
  - discriminate.
  - exact H0.
  - rewrite last_app_ne by exact Hne. exact Hl.
Qed.

(** After a numeric part, the Indonesian word or abbreviation of a
    hemisphere is read like its English letter. *)
Theorem parse_dms_hemisphere_words
  (c0 : N) (p word : pystr) (letter : N) :
  is_space c0 = false -> Forall numeric_char (c0 :: p) ->
  In (word, letter) hemisphere_words ->
  parse_dms (VStr ((c0 :: p) ++ 32%N :: word))
  = parse_dms (VStr ((c0 :: p) ++ [32%N; letter])).
Proof.
  intros H0 Hp Hin. apply parse_dms_normalize.
  cbn [hemisphere_words In] in Hin.
  repeat (destruct Hin as [[= <- <-] | Hin];
          [ rewrite !normalize_numeric_prefix
              by (try assumption; try discriminate; reflexivity);
            reflexivity |]).
  contradiction.
Qed.

End DmsMore.

(** ** DMS formatter: the fields it writes *)

Module FmtMore.
Import Py PyFacts Dms DmsFacts Fmt DigitFacts Shape RoundTripFacts More.

Lemma Qfloor_lt_int (x : Q) (k : Z) : (x < inject_Z k)%Q -> Qfloor x < k.
Proof.
  intros H. pose proof (Qfloor_le x) as Hf.
  rewrite Zlt_Qlt. lra.
Qed.

Lemma round_half_even_le (y : Q) (k : Z) :
  (y < inject_Z k)%Q -> round_half_even y <= k.
Proof.
  intros H. pose proof (Qfloor_lt_int y k H) as Hf. unfold round_half_even.
  destruct (Qcompare _ _); [destruct (Z.even _) | |]; lia.
Qed.

(** The fields of the formatted text: whole degrees, minutes from 0 to 59,
    and seconds from 0 to 60.0 in steps of 0.0001. Seconds that round up to
    60.0 are written as such; nothing is carried into the minutes. *)
Theorem dd_to_dms_fields (dd : Q) (is_lat : bool) :
  exists d m R : Z,
    d = Qfloor (Qabs dd) /\ 0 <= d /\ 0 <= m <= 59 /\ 0 <= R <= 600000
    /\ dd_to_dms dd is_lat
       = dms_prefix (nat_digits (Z.to_N d)) (nat_digits (Z.to_N m))
                    (repr_body (Z.to_N R))
         ++ direction_of is_lat (Qltb dd 0).
Proof.
  destruct (dd_to_dms_shape dd is_lat) as (Hd & Hm & HR & Hshape).
  cbv zeta in *.
  set (a := Qabs dd) in *. set (d := Qfloor a) in *.
  set (m := Qfloor ((a - inject_Z d) * 60)) in *.
  set (R := round_half_even _) in *.
  exists d, m, R.
  pose proof (Qlt_floor a) as Ha. fold d in Ha.
  rewrite inject_Z_plus in Ha. change (inject_Z 1) with 1%Q in Ha.
  pose proof (Qlt_floor ((a - inject_Z d) * 60)) as Hmf. fold m in Hmf.
  rewrite inject_Z_plus in Hmf. change (inject_Z 1) with 1%Q in Hmf.
  assert (Hm59 : m < 60).
  { apply Qfloor_lt_int. change (inject_Z 60) with 60%Q. lra. }
  assert (HR6 : R <= 600000).
  { apply round_half_even_le. change (inject_Z 600000) with 600000%Q. lra. }
  repeat split; try assumption; try lia.
Qed.

Example dd_to_dms_sixty_seconds :
  dd_to_dms (999999999 # 1000000000) true
  = str "0" ++ degree_mark ++ str " 59' 60.0" ++ [34%N] ++ str " N (LU)".
Proof. vm_compute. reflexivity. Qed.

(** The hemisphere survives the round trip: a negative value parses back
    as at most zero, any other as at least zero, and the parsed size is
    made of the written fields. *)
Theorem round_trip_keeps_sign (dd : Q) (is_lat : bool) :
  exists r : Q,
    parse_dms (VStr (dd_to_dms dd is_lat)) = VFloat r
    /\ (if Qltb dd 0 then (r <= 0)%Q else (0 <= r)%Q).
Proof.
  destruct (parse_formatted dd is_lat) as (q & Hq & Hp). cbv zeta in *.
  destruct (dd_to_dms_shape dd is_lat) as (Hd & Hm & HR & _).
  cbv zeta in *.
  eexists. split; [exact Hp |].
  set (d := Qfloor (Qabs dd)) in *.
  set (m := Qfloor ((Qabs dd - inject_Z d) * 60)) in *.
  set (R := round_half_even _) in *.
  assert (Hqn : (0 <= q)%Q).
  { rewrite Hq. unfold Qle. cbn [Qnum Qden]. lia. }
  assert (Hdn : (0 <= inject_Z d)%Q)
    by (change 0%Q with (inject_Z 0); rewrite <- Zle_Qle; exact Hd).
  assert (Hmn : (0 <= inject_Z m)%Q)
    by (change 0%Q with (inject_Z 0); rewrite <- Zle_Qle; exact Hm).
  assert (Hv : (0 <= Qabs (inject_Z d) + inject_Z m / 60 + q / 3600)%Q).
  { rewrite (Qabs_pos _ Hdn). unfold Qdiv.
    change (/ 60)%Q with (1 # 60)%Q. change (/ 3600)%Q with (1 # 3600)%Q.
    lra. }
  unfold dms_value. destruct (Qltb dd 0); [lra | exact Hv].
Qed.

End FmtMore.

(** ** Automatic UTM zone: whole or missing *)

Module UtmMore.
Import Py PyFacts Utm UtmFacts.

(** The automatic UTM triple is whole or missing: on two numbers inside
    the UTM range it is easting, northing and a label made of the zone
    number and the letter N or S; on anything else (another kind of cell, a
    polar or out-of-range point) the three fields are missing together. *)
Theorem auto_utm_all_or_nothing
  (project : Q -> Q -> Z -> Q * Q) (lat_dd lon_dd : pyval) :
  match lat_dd, lon_dd with
  | VFloat lat, VFloat lon =>
      if in_utm_range lat lon then
        exists (e n : Q) (z : Z) (h : N),
          convert_dd_to_auto_utm project lat_dd lon_dd
          = (VFloat e, VFloat n, VStr (int_to_str z ++ [h]))
          /\ (h = 78%N \/ h = 83%N)
      else convert_dd_to_auto_utm project lat_dd lon_dd = (VNA, VNA, VNA)
  | _, _ => convert_dd_to_auto_utm project lat_dd lon_dd = (VNA, VNA, VNA)
  end.
Proof.
  destruct lat_dd as [s | lat | inf |]; try reflexivity.
  destruct lon_dd as [s | lon | inf |]; try reflexivity.
  destruct (in_utm_range lat lon) eqn:E.
  - rewrite (convert_accepted project lat lon E). do 4 eexists.
    split; [reflexivity |]. destruct (Qleb _ lat); auto.
  - unfold convert_dd_to_auto_utm, from_latlon. rewrite E. reflexivity.
Qed.

End UtmMore.

(** ** The batch pipeline: edges, errors and what comes back *)

Module PipelineMoreFacts.
Import Py PyFacts Pandas PandasFacts Pipeline PipelineFacts More PipelineMore.

(** The text written for a value reads back close to it (the bound of the
    round trip, from the written fields). *)
Lemma parse_back_close (dd : Q) (is_lat : bool) :
  exists r : Q,
    Dms.parse_dms (VStr (Fmt.dd_to_dms dd is_lat)) = VFloat r
    /\ (Qabs (r - dd) <= 1 # 3600)%Q.
Proof.
  destruct (RoundTripFacts.parse_formatted dd is_lat) as (q & Hq & Hp). cbv zeta in *.
  eexists. split; [exact Hp |].
  pose proof (RoundTripFacts.roundtrip_arith (Qabs dd) q _ _ _ eq_refl eq_refl eq_refl Hq) as H.
  set (d := Qfloor (Qabs dd)) in *.
  set (m := Qfloor ((Qabs dd - inject_Z d) * 60)) in *.
  assert (Hd : (Qabs (inject_Z d) == inject_Z d)%Q).
  { apply Qabs_pos. change 0%Q with (inject_Z 0). rewrite <- Zle_Qle.
    apply RoundTripFacts.Qfloor_nonneg, Qabs_nonneg. }
  apply Qabs_Qle_condition in H. destruct H as [H1 H2].
  unfold Dms.dms_value.
  unfold Qdiv in *. change (/ 60)%Q with (1 # 60)%Q in *.
  change (/ 3600)%Q with (1 # 3600)%Q in *.
  destruct (Qltb dd 0) eqn:E; apply Qabs_Qle_condition; rewrite Hd.
  - apply DmsFacts.Qltb_lt in E.
    assert (Ha : (Qabs dd == - dd)%Q) by (apply Qabs_neg; lra).
    rewrite Ha in H1, H2. split; lra.
  - assert (E' : (0 <= dd)%Q).
    { apply Qnot_lt_le. intros C. apply DmsFacts.Qltb_lt in C. congruence. }
    assert (Ha : (Qabs dd == dd)%Q) by (apply Qabs_pos; exact E').
    rewrite Ha in H1, H2. split; lra.
Qed.

Section MoreLibraries.

Variable numeric_of_text : pystr -> pyfloat.
Variable py_int : pystr -> result Z.
Variable float_of_text : pystr -> option Q.
Variable make_transformer :
  pystr -> result (pyfloat -> pyfloat -> pyfloat * pyfloat).
Variable project : Q -> Q -> Z -> Q * Q.

Lemma select_rows (names : list pystr) (df out : frame) :
  select names df = Return out ->
  columns out = names /\ List.length (rows out) = List.length (rows df).
Proof.
  unfold select. destruct (positions names (columns df)); [|discriminate].
  intros [= <-]. cbn [columns rows]. split; [reflexivity | apply length_map].
Qed.

Lemma stage2_rows (df_input df out : frame) :
  stage2 float_of_text project df_input df = Return out ->
  columns out = original_cols df_input ++ output_columns
  /\ List.length (rows out) = List.length (rows df).
Proof.
  unfold stage2, bind.
  destruct (get_column lon_dd df) as [lon|] eqn:E1; [|discriminate].
  pose proof (get_column_length _ _ _ E1) as L1.
  set (df1 := set_column lon_dms _ df).
  assert (R1 : List.length (rows df1) = List.length (rows df))
    by (apply set_column_length; rewrite length_map; exact L1).
  destruct (get_column lat_dd df1) as [lat|] eqn:E2; [|discriminate].
  pose proof (get_column_length _ _ _ E2) as L2.
  set (df2 := set_column lat_dms _ df1).
  assert (R2 : List.length (rows df2) = List.length (rows df))
    by (rewrite <- R1; apply set_column_length; rewrite length_map; exact L2).
  destruct (get_column lat_dd df2) as [lat2|] eqn:E3; [|discriminate].
  pose proof (get_column_length _ _ _ E3) as L3.
  destruct (get_column lon_dd df2) as [lon2|] eqn:E4; [|discriminate].
  pose proof (get_column_length _ _ _ E4) as L4.
  set (triples := List.map _ (combine lat2 lon2)).
  assert (Lt : List.length triples = List.length (rows df)).
  { unfold triples. rewrite length_map, length_combine. lia. }
  set (df3 := set_column easting_utm _ df2).
  assert (R3 : List.length (rows df3) = List.length (rows df))
    by (rewrite <- R2; apply set_column_length; rewrite length_map; lia).
  set (df4 := set_column northing_utm _ df3).
  assert (R4 : List.length (rows df4) = List.length (rows df))
    by (rewrite <- R3; apply set_column_length; rewrite length_map; lia).
  set (df5 := set_column zone_utm _ df4).
  assert (R5 : List.length (rows df5) = List.length (rows df))
    by (rewrite <- R4; apply set_column_length; rewrite length_map; lia).
  intros H. apply select_rows in H. destruct H as [Hc Hr].
  split; [exact Hc | lia].
Qed.

Lemma dropna_rows (subset : list pystr) (df df' : frame) :
  dropna subset df = Return df' -> columns df' = columns df.
Proof.
  unfold dropna. destruct (positions subset (columns df)); [|discriminate].
  intros [= <-]. reflexivity.
Qed.

Lemma finish_nonempty (df_input df out : frame) (log : list message) :
  fst (finish float_of_text project df_input df log) = Return (Some out) ->
  empty out = false.
Proof.
  unfold finish.
  destruct (dropna [lon_dd; lat_dd] df) as [df'|] eqn:E; [|discriminate].
  destruct (empty df') eqn:Ee; [discriminate |].
  destruct (stage2 float_of_text project df_input df') as [o|] eqn:Es;
    [|discriminate].
  cbn [fst]. intros [= <-].
  apply stage2_rows in Es. destruct Es as [Hc Hr].
  unfold empty in *. rewrite Hc.
  destruct (rows df') as [|r rs]; [destruct (columns df'); discriminate |].
  destruct (rows o); [discriminate |].
  destruct (original_cols df_input); reflexivity.
Qed.

(** What [process_coordinates] returns is never an empty table: it is
    nothing, an exception, or a table with rows and columns. *)
Theorem process_never_empty (df out : frame) (name datum zone : pystr) :
  fst (process_coordinates numeric_of_text py_int float_of_text
         make_transformer project df name datum zone) = Return (Some out) ->
  empty out = false /\ rows out <> [].
Proof.
  intros H.
  assert (He : empty out = false).
  { revert H. unfold process_coordinates.
    repeat match goal with
           | |- context [if ?b then _ else _] => destruct b
           | |- context [match get_column ?n ?d with _ => _ end] =>
               destruct (get_column n d)
           | |- context [let (_, _) := apply_parse_dms ?l in _] =>
               destruct (apply_parse_dms l)
           | |- context [match utm_to_dd ?a ?b ?c ?d ?e ?f with _ => _ end] =>
               destruct (utm_to_dd a b c d e f)
           end;
      try (cbn [fst]; discriminate); apply finish_nonempty. }
  split; [exact He |].
  unfold empty in He. destruct (columns out); [discriminate |].
  destruct (rows out); [discriminate | discriminate].
Qed.

Lemma finish_log (df_input df : frame) (log : list message) :
  finish float_of_text project df_input df log
  = (fst (finish float_of_text project df_input df []),
     log ++ snd (finish float_of_text project df_input df [])).
Proof.
  unfold finish.
  destruct (dropna [lon_dd; lat_dd] df) as [df'|];
    [|cbn [fst snd]; rewrite app_nil_r; reflexivity].
  destruct (empty df'); [reflexivity |].
  destruct (stage2 float_of_text project df_input df');
    cbn [fst snd]; rewrite app_nil_r; reflexivity.
Qed.

Lemma finish_extra (df_input df : frame) :
  snd (finish float_of_text project df_input df []) = []
  \/ snd (finish float_of_text project df_input df []) = [no_valid_data].
Proof.
  unfold finish.
  destruct (dropna [lon_dd; lat_dd] df) as [df'|]; [|left; reflexivity].
  destruct (empty df'); [right; reflexivity |].
  destruct (stage2 float_of_text project df_input df'); left; reflexivity.
Qed.

Lemma parse_log_errors (cells : list pyval) (m : message) :
  In m (snd (apply_parse_dms cells)) -> exists e, m = StError e.
Proof.
  unfold apply_parse_dms. cbn [snd]. intros H.
  apply in_flat_map in H. destruct H as (c & _ & H).
  unfold Dms.parse_dms_log in H. destruct c as [t | q | inf |]; try contradiction.
  destruct (Dms.parse_body _ _); cbn [snd In] in H; [contradiction |].
  destruct H as [<- | []]. eexists. reflexivity.
Qed.

Lemma stage1_errors_are_errors (rep : InputRepresentation)
  (xs ys : list pyval) (m : message) :
  In m (stage1_errors rep xs ys) -> exists e, m = StError e.
Proof.
  destruct rep; cbn [stage1_errors]; try contradiction.
  intros Hm. apply in_app_or in Hm.
  destruct Hm as [Hm | Hm]; eapply parse_log_errors; eassumption.
Qed.

Lemma process_geographic (rep : InputRepresentation) (df : frame)
  (xs ys : list pyval) :
  rep <> UTM -> aligned df ->
  get_column col_x df = Return xs ->
  get_column col_y df = Return ys ->
  exists df2 : frame,
    forall datum zone,
      process_coordinates numeric_of_text py_int float_of_text
        make_transformer project df (crs_name rep) datum zone
      = finish float_of_text project df df2
          (stage1_errors rep xs ys
           ++ if str_eqb datum (str "WGS84") then []
              else [assumed_wgs84 rep]).
Proof.
  intros Hrep Ha Hx Hy.
  pose proof (get_column_length _ _ _ Hx) as Lx.
  destruct rep; [| |congruence].
  - eexists. intros datum zone. unfold process_coordinates.
    change (str_eqb (crs_name DecimalDegrees) (str "Decimal Degrees (DD)"))
      with true. cbv iota. rewrite Hx.
    rewrite get_set by (try assumption; rewrite length_map; lia).
    change (str_eqb col_y lon_dd) with false. cbv iota. rewrite Hy.
    reflexivity.
  - eexists. intros datum zone. unfold process_coordinates.
    change (str_eqb (crs_name DMS) (str "Decimal Degrees (DD)")) with false.
    change (str_eqb (crs_name DMS) (str "Geografis (DMS)")) with true.
    cbv iota. rewrite Hx. unfold apply_parse_dms at 1.
    rewrite get_set by (try assumption; rewrite length_map; lia).
    change (str_eqb col_y lon_dd) with false. cbv iota. rewrite Hy.
    unfold apply_parse_dms at 1. cbn [stage1_errors snd].
    unfold apply_parse_dms. cbn [snd]. rewrite <- app_assoc.
    reflexivity.
Qed.

(** For decimal-degree and DMS input the datum and the zone are not
    used: the outcome is the same for every choice, and a datum other than
    WGS84 only adds a warning. *)
Theorem process_datum_ignored (rep : InputRepresentation) (df : frame)
  (xs ys : list pyval) (datum zone datum' zone' : pystr) :
  rep <> UTM -> aligned df ->
  get_column col_x df = Return xs ->
  get_column col_y df = Return ys ->
  let run d z := process_coordinates numeric_of_text py_int float_of_text
                   make_transformer project df (crs_name rep) d z in
  fst (run datum zone) = fst (run datum' zone')
  /\ (In (assumed_wgs84 rep) (snd (run datum zone)) <-> datum <> str "WGS84").
Proof.
  intros Hrep Ha Hx Hy run.
  destruct (process_geographic rep df xs ys Hrep Ha Hx Hy) as (df2 & Hrun).
  pose proof (stage1_errors_are_errors rep xs ys) as Herr.
  unfold run. rewrite !Hrun. rewrite finish_log.
  rewrite (finish_log df df2 (stage1_errors rep xs ys ++ _)). cbn [fst snd].
  split; [reflexivity |].
  assert (Hw : forall m, m = dd_assumed_wgs84 \/ m = dms_assumed_wgs84 ->
                         m <> no_valid_data /\ forall e, m <> StError e).
  { intros m [-> | ->]; split; try discriminate; intros C;
      vm_compute in C; discriminate C. }
  assert (Hm : assumed_wgs84 rep <> no_valid_data
               /\ forall e, assumed_wgs84 rep <> StError e).
  { apply Hw. destruct rep; cbn; tauto. }
  destruct Hm as [Hn He].
  split.
  - intros Hin Hd.
    assert (E : str_eqb datum (str "WGS84") = true)
      by (apply str_eqb_eq; exact Hd).
    rewrite E in Hin. rewrite app_nil_r in Hin.
    apply in_app_or in Hin. destruct Hin as [Hin | Hin].
    + destruct (Herr _ Hin) as [e C]. apply (He e C).
    + destruct (finish_extra df df2) as [Ex | Ex]; rewrite Ex in Hin.
      * contradiction.
      * destruct Hin as [C | []]. apply Hn. symmetry. exact C.
  - intros Hd.
    assert (E : str_eqb datum (str "WGS84") = false).
    { destruct (str_eqb datum (str "WGS84")) eqn:E; [|reflexivity].
      apply str_eqb_eq in E. contradiction. }
    rewrite E. apply in_or_app. left. apply in_or_app. right. left.
    reflexivity.
Qed.

(** A zone or datum that does not resolve stops a UTM batch before any row
    is read: the outcome is nothing, with one error message, whatever the
    table holds. *)
Theorem process_utm_config_error (df : frame) (datum zone e : pystr) :
  resolve_transformer py_int make_transformer datum zone = Raise e ->
  process_coordinates numeric_of_text py_int float_of_text make_transformer
    project df (crs_name UTM) datum zone
  = (Return None, [utm_error e]).
Proof.
  intros H. unfold process_coordinates.
  change (str_eqb (crs_name UTM) (str "Decimal Degrees (DD)")) with false.
  change (str_eqb (crs_name UTM) (str "Geografis (DMS)")) with false.
  change (str_eqb (crs_name UTM) (str "UTM")) with true. cbv iota.
  assert (Hu : utm_to_dd numeric_of_text py_int make_transformer df datum zone
               = Raise e).
  { revert H. unfold resolve_transformer, utm_to_dd, bind.
    destruct (py_int (removelast zone)); [|congruence].
    destruct (rev zone); [congruence |].
    destruct (Resolver.get_input_epsg_code _ _ _); [|congruence].
    intros ->. reflexivity. }
  rewrite Hu. reflexivity.
Qed.

Lemma get_column_missing (n : pystr) (df : frame) :
  ~ In n (columns df) -> get_column n df = key_error n.
Proof.
  intros H. unfold get_column.
  rewrite (proj2 (col_pos_None n (columns df)) H). reflexivity.
Qed.

Lemma get_column_missing_after_set (n m : pystr) (vals : list pyval) (df : frame) :
  ~ In n (columns df) -> n <> m ->
  get_column n (set_column m vals df) = key_error n.
Proof.
  intros H Hne. apply get_column_missing. rewrite set_column_columns.
  destruct (col_pos m (columns df)); [exact H |].
  intros C. apply in_app_or in C. destruct C as [C | [C | []]]; congruence.
Qed.

(** A table without the column x or without the column y: decimal-degree
    and DMS input raise the KeyError to the caller, UTM input catches it and
    gives nothing, with one error message. *)
Theorem process_missing_column (rep : InputRepresentation) (df : frame)
  (datum zone : pystr) :
  ~ In col_x (columns df) \/ ~ In col_y (columns df) ->
  let run := process_coordinates numeric_of_text py_int float_of_text
               make_transformer project df (crs_name rep) datum zone in
  match rep with
  | UTM => fst run = Return None /\ exists e, snd run = [utm_error e]
  | _ => exists e, fst run = Raise e
  end.
Proof.
  intros Hmiss run. unfold run, process_coordinates. destruct rep.
  - change (str_eqb (crs_name DecimalDegrees) (str "Decimal Degrees (DD)"))
      with true. cbv iota.
    destruct (get_column col_x df) as [xs|e] eqn:Ex; [|eexists; reflexivity].
    destruct Hmiss as [Hm | Hm].
    + rewrite (get_column_missing _ _ Hm) in Ex. discriminate Ex.
    + rewrite get_column_missing_after_set by (auto; discriminate).
      eexists. reflexivity.
  - change (str_eqb (crs_name DMS) (str "Decimal Degrees (DD)")) with false.
    change (str_eqb (crs_name DMS) (str "Geografis (DMS)")) with true.
    cbv iota.
    destruct (get_column col_x df) as [xs|e] eqn:Ex; [|eexists; reflexivity].
    destruct Hmiss as [Hm | Hm].
    + rewrite (get_column_missing _ _ Hm) in Ex. discriminate Ex.
    + unfold apply_parse_dms at 1.
      rewrite get_column_missing_after_set by (auto; discriminate).
      eexists. reflexivity.
  - change (str_eqb (crs_name UTM) (str "Decimal Degrees (DD)")) with false.
    change (str_eqb (crs_name UTM) (str "Geografis (DMS)")) with false.
    change (str_eqb (crs_name UTM) (str "UTM")) with true. cbv iota.
    assert (Hu : exists e,
              utm_to_dd numeric_of_text py_int make_transformer df datum zone
              = Raise e).
    { unfold utm_to_dd, bind.
      destruct (py_int (removelast zone)); [|eexists; reflexivity].
      destruct (rev zone); [eexists; reflexivity |].
      destruct (Resolver.get_input_epsg_code _ _ _); [|eexists; reflexivity].
      destruct (make_transformer _); [|eexists; reflexivity].
      destruct (get_column col_x df) as [xs|e] eqn:Ex; [|eexists; reflexivity].
      destruct Hmiss as [Hm | Hm].
      - rewrite (get_column_missing _ _ Hm) in Ex. discriminate Ex.
      - rewrite (get_column_missing _ _ Hm). eexists. reflexivity. }
    destruct Hu as [e ->]. cbn [fst snd]. split; [reflexivity |].
    eexists. reflexivity.
Qed.

(** A representation name other than the three that the branches test
    fills no coordinate column: on a table without lon_dd the call raises
    the KeyError of [dropna]. *)
Theorem process_unknown_representation (df : frame) (name datum zone : pystr) :
  name <> crs_name DecimalDegrees -> name <> crs_name DMS ->
  name <> crs_name UTM ->
  ~ In lon_dd (columns df) ->
  process_coordinates numeric_of_text py_int float_of_text make_transformer
    project df name datum zone
  = (key_error lon_dd, []).
Proof.
  intros H1 H2 H3 Hl. unfold process_coordinates.
  change (crs_name DecimalDegrees) with (str "Decimal Degrees (DD)") in H1.
  change (crs_name DMS) with (str "Geografis (DMS)") in H2.
  change (crs_name UTM) with (str "UTM") in H3.
  rewrite (proj2 (str_eqb_neq _ _) H1), (proj2 (str_eqb_neq _ _) H2),
    (proj2 (str_eqb_neq _ _) H3).
  unfold finish, dropna. cbn [positions].
  rewrite (proj2 (col_pos_None lon_dd (columns df)) Hl).
  cbn [first_missing].
  rewrite (proj2 (col_pos_None lon_dd (columns df)) Hl). reflexivity.
Qed.

(** A batch without rows gives nothing and the "no valid data" warning. *)
Theorem process_empty_batch (rep : InputRepresentation) (df : frame)
  (datum zone : pystr)
  (tr : pyfloat -> pyfloat -> pyfloat * pyfloat) :
  rows df = [] ->
  In col_x (columns df) -> In col_y (columns df) ->
  (rep = UTM ->
   resolve_transformer py_int make_transformer datum zone = Return tr) ->
  let run := process_coordinates numeric_of_text py_int float_of_text
               make_transformer project df (crs_name rep) datum zone in
  fst run = Return None /\ In no_valid_data (snd run).
Proof.
  intros Hr Hx Hy Hutm run.
  destruct (col_pos_In _ _ Hx) as [px Hpx].
  destruct (col_pos_In _ _ Hy) as [py Hpy].
  assert (Ha : aligned df) by (unfold aligned; rewrite Hr; constructor).
  assert (Gx : get_column col_x df = Return [])
    by (unfold get_column; rewrite Hpx, Hr; reflexivity).
  assert (Gy : get_column col_y df = Return [])
    by (unfold get_column; rewrite Hpy, Hr; reflexivity).
  pose proof (process_spec numeric_of_text py_int float_of_text
                make_transformer project rep df [] [] datum zone tr
                Ha Gx Gy Hutm) as H.
  cbv zeta in H. unfold index_of in H. rewrite Hr in H.
  exact H.
Qed.

Lemma parse_log_count (cells : list pyval) :
  List.length (filter is_st_error (snd (apply_parse_dms cells)))
  = List.length (filter unreadable_text cells).
Proof.
  unfold apply_parse_dms. cbn [snd].
  induction cells as [|c cells IH]; [reflexivity |].
  cbn [flat_map filter]. rewrite filter_app, length_app, IH.
  unfold unreadable_text at 2, Dms.parse_dms, Dms.parse_dms_log.
  destruct c as [t | q | inf |]; try reflexivity.
  destruct (Dms.parse_body _ _); reflexivity.
Qed.

(** For DMS input the caller sees one error message for each text cell of
    x and y that cannot be read, and no other error message. *)
Theorem process_dms_error_messages (df : frame) (xs ys : list pyval)
  (datum zone : pystr) :
  aligned df ->
  get_column col_x df = Return xs ->
  get_column col_y df = Return ys ->
  List.length
    (filter is_st_error
       (snd (process_coordinates numeric_of_text py_int float_of_text
               make_transformer project df (crs_name DMS) datum zone)))
  = List.length (filter unreadable_text (xs ++ ys)).
Proof.
  intros Ha Hx Hy.
  destruct (process_geographic DMS df xs ys ltac:(discriminate) Ha Hx Hy)
    as (df2 & Hrun).
  rewrite Hrun, finish_log. cbn [snd stage1_errors].
  rewrite !filter_app, !length_app, !parse_log_count.
  assert (Hw : List.length
                 (filter is_st_error
                    (if str_eqb datum (str "WGS84") then []
                     else [assumed_wgs84 DMS])) = 0%nat)
    by (destruct (str_eqb datum (str "WGS84")); reflexivity).
  assert (He : List.length
                 (filter is_st_error
                    (snd (finish float_of_text project df df2 []))) = 0%nat)
    by (destruct (finish_extra df df2) as [-> | ->]; reflexivity).
  rewrite Hw, He. lia.
Qed.

Lemma present_float_or_text (v : pyval) :
  isna v = false -> (forall t, v <> VStr t) -> is_float v.
Proof.
  destruct v as [t | q | inf |]; intros H Ht.
  - exfalso. apply (Ht t). reflexivity.
  - exact I.
  - exact I.
  - discriminate H.
Qed.

Lemma parse_dms_no_text (v : pyval) (t : pystr) : Dms.parse_dms v <> VStr t.
Proof.
  destruct v as [s | q | inf |]; try discriminate.
  rewrite DmsFacts.parse_dms_str.
  destruct (Dms.token_values _) as [[[d m] x]|]; discriminate.
Qed.

Lemma float_cell_no_text (o : pyfloat) (t : pystr) : float_cell o <> VStr t.
Proof. destruct o; discriminate. Qed.

Lemma to_numeric_no_text (v : pyval) (t : pystr) :
  to_numeric numeric_of_text v <> VStr t.
Proof.
  destruct v as [s | q | inf |]; cbn [to_numeric]; try discriminate.
  apply float_cell_no_text.
Qed.

Lemma survives_floats (rep : InputRepresentation)
  (tr : pyfloat -> pyfloat -> pyfloat * pyfloat) (x y : pyval) :
  survives numeric_of_text rep tr x y = true ->
  is_float (fst (stage1_point numeric_of_text rep tr x y))
  /\ is_float (snd (stage1_point numeric_of_text rep tr x y)).
Proof.
  unfold survives. intros H. apply andb_true_iff in H.
  destruct H as [H1 H2]. apply negb_true_iff in H1, H2.
  split; apply present_float_or_text; try assumption;
    intros t; destruct rep; cbn [stage1_point fst snd];
    auto using to_numeric_no_text, parse_dms_no_text, float_cell_no_text.
Qed.

Lemma mask_filter_map_Forall {A B} (P : B -> Prop)
  (f : A -> bool) (g : A -> B) (l : list A) :
  (forall a, f a = true -> P (g a)) ->
  Forall P (mask_filter (List.map f l) (List.map g l)).
Proof.
  intros H. induction l as [|a l IH]; [constructor |].
  cbn [List.map mask_filter]. destruct (f a) eqn:E; [|exact IH].
  constructor; [apply H; exact E | exact IH].
Qed.

Lemma survivors_are_floats (rep : InputRepresentation)
  (tr : pyfloat -> pyfloat -> pyfloat * pyfloat) (xs ys : list pyval) :
  Forall is_float (mask_filter (survivors numeric_of_text rep tr xs ys)
                               (stage1_lons numeric_of_text rep tr xs ys))
  /\ Forall is_float (mask_filter (survivors numeric_of_text rep tr xs ys)
                                  (stage1_lats numeric_of_text rep tr xs ys)).
Proof.
  unfold survivors, stage1_lons, stage1_lats.
  split; apply mask_filter_map_Forall; intros [x y] H; cbn [fst snd] in *;
    apply (survives_floats rep tr x y H).
Qed.

Lemma dms_cells_read_back (is_lat : bool) (cells : list pyval) :
  Forall is_float cells ->
  Forall2 reads_back cells
          (List.map (dd_to_dms_cell float_of_text is_lat) cells).
Proof.
  induction 1 as [|v cells Hv _ IH]; [constructor |].
  cbn [List.map]. constructor; [|exact IH].
  destruct v as [s | q | inf |]; try contradiction; cbn [dd_to_dms_cell reads_back].
  - destruct (parse_back_close q is_lat) as (r & Hr & Hb).
    exists (Fmt.dd_to_dms q is_lat), r. auto.
  - reflexivity.
Qed.

(** In the table that comes back, the decimal degrees of every row are
    numbers, and each DMS cell belongs to the number of its row: for a
    finite number it is a text that reads back, through [parse_dms], to
    within 1/3600 of it; an infinite number (which [dropna] keeps) has no
    DMS text. *)
Theorem process_dms_columns_read_back (rep : InputRepresentation)
  (df out : frame) (xs ys : list pyval) (datum zone : pystr)
  (tr : pyfloat -> pyfloat -> pyfloat * pyfloat) :
  aligned df ->
  get_column col_x df = Return xs ->
  get_column col_y df = Return ys ->
  (rep = UTM ->
   resolve_transformer py_int make_transformer datum zone = Return tr) ->
  fst (process_coordinates numeric_of_text py_int float_of_text
         make_transformer project df (crs_name rep) datum zone)
  = Return (Some out) ->
  exists lats lons lat_texts lon_texts : list pyval,
    get_column lat_dd out = Return lats
    /\ get_column lat_dms out = Return lat_texts
    /\ Forall2 reads_back lats lat_texts
    /\ get_column lon_dd out = Return lons
    /\ get_column lon_dms out = Return lon_texts
    /\ Forall2 reads_back lons lon_texts.
Proof.
  intros Ha Hx Hy Hutm Hrun.
  pose proof (process_spec numeric_of_text py_int float_of_text
                make_transformer project rep df xs ys datum zone tr
                Ha Hx Hy Hutm) as H.
  cbv zeta in H. rewrite Hrun in H.
  destruct (survivors_are_floats rep tr xs ys) as [Flon Flat].
  destruct (mask_filter _ (index_of df)) as [|i rest].
  - destruct H as [H _]. discriminate H.
  - destruct H as (out' & [= <-] & _ & _ & _ & H1 & H2 & H3 & H4 & _).
    do 4 eexists.
    split; [exact H2 |]. split; [exact H4 |].
    split; [apply dms_cells_read_back; exact Flat |].
    split; [exact H1 |]. split; [exact H3 |].
    apply dms_cells_read_back; exact Flon.
Qed.

(** An infinite coordinate is no missing value: its row is kept, with the
    decimal degrees, without a DMS text and without UTM fields for it. *)
Example process_infinite_coordinate :
  exists out,
    Sample.process Sample2.batch_infinite DecimalDegrees = (Return (Some out), [])
    /\ get_column lon_dd out = Return [VInf false]
    /\ get_column lon_dms out = Return [VNA]
    /\ get_column lat_dms out
       = Return [VStr (Fmt.dd_to_dms (- (6175392 # 1000000)) true)]
    /\ get_column zone_utm out = Return [VNA].
Proof.
  eexists. split; [vm_compute; reflexivity |].
  repeat split; vm_compute; reflexivity.
Qed.

(** Every zone that the widgets of the UTM settings can deliver resolves:
    the zone text is split back into its number and hemisphere and the
    resolver returns a code for it, so that only building the transformer
    can still fail. The default zone lies inside the bounds. *)
Theorem ui_zone_resolves (datum hemi : pystr) (n : Z) :
  (forall k, 0 <= k -> py_int (int_to_str k) = Return k) ->
  datum = str "WGS84" \/ datum = str "DGN95" ->
  fst (Ui.zone_range datum) <= n <= snd (Ui.zone_range datum) ->
  hemi = str "S" \/ hemi = str "N" ->
  exists code,
    Resolver.get_input_epsg_code n hemi datum = Return code
    /\ resolve_transformer py_int make_transformer datum (Ui.input_zone n hemi)
       = make_transformer code
    /\ fst (Ui.zone_range datum) <= Ui.default_zone datum
       <= snd (Ui.zone_range datum).
Proof.
  intros Hint Hd Hn Hh.
  assert (Hdom : exists code, Resolver.get_input_epsg_code n hemi datum
                              = Return code).
  { apply ResolverMore.resolver_success_domain.
    destruct Hd as [-> | ->]; cbn in Hn; [left | right]; auto. }
  destruct Hdom as [code Hcode]. exists code. split; [exact Hcode |].
  assert (Hn0 : 0 <= n) by (destruct Hd as [-> | ->]; cbn in Hn; lia).
  split.
  - unfold resolve_transformer, Ui.input_zone, bind.
    assert (Hhemi : exists c, hemi = [c] /\ upper [c] = [c]).
    { destruct Hh as [-> | ->]; eexists; split; reflexivity. }
    destruct Hhemi as (c & -> & Hup).
    rewrite removelast_last, (Hint n Hn0), rev_app_distr.
    cbn [rev app]. rewrite Hup, Hcode. reflexivity.
  - destruct Hd as [-> | ->]; cbn; lia.
Qed.

End MoreLibraries.

End PipelineMoreFacts.

(** ** The properties at sample inputs *)

Module MoreWitnesses.
Import Py PyFacts Resolver Dms Fmt Pandas Pipeline More PipelineMore.

Lemma resolver_other_hemisphere_witness :
  get_input_epsg_code 48 (str "x") (str "WGS84") = resolveEpsg WGS84 48 North
  /\ get_input_epsg_code 48 (str "x") (str "DGN95") = resolveEpsg DGN95 48 South.
Proof.
  apply (ResolverMore.resolver_other_hemisphere 48 (str "x")); discriminate.
Defined.

Lemma resolver_injective_witness :
  resolveEpsg DGN95 50 South = Return (str "23890")
  /\ (DGN95 = DGN95 /\ 50 = 50 /\ South = South).
Proof.
  split; [reflexivity |].
  apply (ResolverMore.resolver_injective DGN95 DGN95 50 50 South South
           (str "23890")); reflexivity.
Defined.

Lemma parse_dms_surrounding_space_witness :
  parse_dms (VStr (str "  " ++ str "6 10 30 LS" ++ [9%N; 160%N]))
  = parse_dms (VStr (str "6 10 30 LS")).
Proof.
  apply (DmsMore.parse_dms_surrounding_space (str "  ") (str "6 10 30 LS")
           [9%N; 160%N]); repeat constructor.
Defined.

Lemma parse_dms_needs_digit_witness :
  parse_dms (VStr (str "timur - selatan.")) = VNA.
Proof.
  apply (DmsMore.parse_dms_needs_digit (str "timur - selatan.")).
  repeat constructor.
Defined.

Lemma parse_dms_sign_witness :
  exists r : Q,
    parse_dms (VStr (str "-6 10 30 S")) = VFloat r
    /\ (Qabs r == Qabs (Qopp 6) + 10 / 60 + 30 / 3600)%Q
    /\ (r <= 0)%Q.
Proof.
  apply (DmsMore.parse_dms_sign (str "-6 10 30 S") (Qopp 6) 10 30).
  - reflexivity.
  - discriminate.
  - discriminate.
Defined.

Lemma parse_dms_hemisphere_words_witness :
  parse_dms (VStr (str "6 10 30" ++ 32%N :: str "SELATAN"))
  = parse_dms (VStr (str "6 10 30" ++ [32%N; ch_S])).
Proof.
  apply (DmsMore.parse_dms_hemisphere_words 54 (str " 10 30")
           (str "SELATAN") ch_S).
  - reflexivity.
  - repeat constructor; (left; reflexivity) || (right; cbn; tauto).
  - cbn. tauto.
Defined.

Lemma process_never_empty_witness :
  exists out,
    fst (Sample.process Sample.batch_three DecimalDegrees) = Return (Some out)
    /\ empty out = false /\ rows out <> [].
Proof.
  destruct (fst (Sample.process Sample.batch_three DecimalDegrees))
    as [[out|]|] eqn:E; try (vm_compute in E; discriminate E).
  exists out. split; [reflexivity |].
  apply (PipelineMoreFacts.process_never_empty Sample.numeric_of_text
           Sample.py_int Sample.float_of_text Sample.make_transformer
           Sample.project Sample.batch_three out
           (crs_name DecimalDegrees) (str "WGS84") []).
  exact E.
Defined.

Lemma process_datum_ignored_witness :
  fst (process_coordinates Sample.numeric_of_text Sample.py_int
         Sample.float_of_text Sample.make_transformer Sample.project
         Sample.batch_three (crs_name DecimalDegrees) (str "DGN95") (str "50S"))
  = fst (process_coordinates Sample.numeric_of_text Sample.py_int
           Sample.float_of_text Sample.make_transformer Sample.project
           Sample.batch_three (crs_name DecimalDegrees) (str "WGS84") [])
  /\ (In (assumed_wgs84 DecimalDegrees)
         (snd (process_coordinates Sample.numeric_of_text Sample.py_int
                 Sample.float_of_text Sample.make_transformer Sample.project
                 Sample.batch_three (crs_name DecimalDegrees) (str "DGN95")
                 (str "50S")))
      <-> str "DGN95" <> str "WGS84").
Proof.
  apply (PipelineMoreFacts.process_datum_ignored Sample.numeric_of_text
           Sample.py_int Sample.float_of_text Sample.make_transformer
           Sample.project DecimalDegrees Sample.batch_three
           (Sample.xs Sample.batch_three) (Sample.ys Sample.batch_three)).
  - discriminate.
  - repeat constructor.
  - reflexivity.
  - reflexivity.
Defined.

Lemma process_utm_config_error_witness :
  process_coordinates Sample.numeric_of_text Sample2.read_int
    Sample.float_of_text Sample2.make_same Sample.project
    Sample.batch_three (crs_name UTM) (str "DGN95") (str "45S")
  = (Return None,
     [utm_error (str "Zona 45S tidak memiliki mapping EPSG DGN95 yang valid.")]).
Proof.
  apply (PipelineMoreFacts.process_utm_config_error Sample.numeric_of_text
           Sample2.read_int Sample.float_of_text Sample2.make_same
           Sample.project Sample.batch_three (str "DGN95") (str "45S")).
  reflexivity.
Defined.

Lemma process_missing_column_witness :
  (exists e,
     fst (Sample.process Sample2.batch_without_y DecimalDegrees) = Raise e)
  /\ fst (process_coordinates Sample.numeric_of_text Sample2.read_int
            Sample.float_of_text Sample2.make_same Sample.project
            Sample2.batch_without_y (crs_name UTM) (str "WGS84") (str "48S"))
     = Return None.
Proof.
  split.
  - apply (PipelineMoreFacts.process_missing_column Sample.numeric_of_text
             Sample.py_int Sample.float_of_text Sample.make_transformer
             Sample.project DecimalDegrees Sample2.batch_without_y
             (str "WGS84") []).
    right. cbn. intros [C | [C | []]]; discriminate C.
  - apply (PipelineMoreFacts.process_missing_column Sample.numeric_of_text
             Sample2.read_int Sample.float_of_text Sample2.make_same
             Sample.project UTM Sample2.batch_without_y
             (str "WGS84") (str "48S")).
    right. cbn. intros [C | [C | []]]; discriminate C.
Defined.

Lemma process_unknown_representation_witness :
  process_coordinates Sample.numeric_of_text Sample.py_int
    Sample.float_of_text Sample.make_transformer Sample.project
    Sample.batch_three (str "MGRS") (str "WGS84") []
  = (key_error lon_dd, []).
Proof.
  apply (PipelineMoreFacts.process_unknown_representation
           Sample.numeric_of_text Sample.py_int Sample.float_of_text
           Sample.make_transformer Sample.project Sample.batch_three
           (str "MGRS") (str "WGS84") []); try discriminate.
  cbn. intros [C | [C | [C | []]]]; discriminate C.
Defined.

Lemma process_empty_batch_witness :
  fst (Sample.process Sample2.batch_no_rows DMS) = Return None
  /\ In no_valid_data (snd (Sample.process Sample2.batch_no_rows DMS)).
Proof.
  apply (PipelineMoreFacts.process_empty_batch Sample.numeric_of_text
           Sample.py_int Sample.float_of_text Sample.make_transformer
           Sample.project DMS Sample2.batch_no_rows (str "WGS84") []
           Sample.no_transform).
  - reflexivity.
  - cbn. tauto.
  - cbn. tauto.
  - discriminate.
Defined.

Lemma process_dms_error_messages_witness :
  List.length
    (filter is_st_error
       (snd (Sample.process Sample2.batch_dms_two DMS)))
  = 1%nat.
Proof.
  apply (PipelineMoreFacts.process_dms_error_messages Sample.numeric_of_text
           Sample.py_int Sample.float_of_text Sample.make_transformer
           Sample.project Sample2.batch_dms_two
           (Sample.xs Sample2.batch_dms_two) (Sample.ys Sample2.batch_dms_two)
           (str "WGS84") []).
  - repeat constructor.
  - reflexivity.
  - reflexivity.
Defined.

(** A row with an infinite x as decimal degrees: the row is kept, its
    latitude has a DMS text that reads back, its longitude has none. *)
Lemma process_dms_columns_read_back_witness :
  exists out,
    fst (Sample.process Sample2.batch_infinite DecimalDegrees)
    = Return (Some out)
    /\ exists lats lons lat_texts lon_texts : list pyval,
         get_column lat_dd out = Return lats
         /\ get_column lat_dms out = Return lat_texts
         /\ Forall2 reads_back lats lat_texts
         /\ get_column lon_dd out = Return lons
         /\ get_column lon_dms out = Return lon_texts
         /\ Forall2 reads_back lons lon_texts.
Proof.
  destruct (fst (Sample.process Sample2.batch_infinite DecimalDegrees))
    as [[out|]|] eqn:E; try (vm_compute in E; discriminate E).
  exists out. split; [reflexivity |].
  apply (PipelineMoreFacts.process_dms_columns_read_back
           Sample.numeric_of_text Sample.py_int Sample.float_of_text
           Sample.make_transformer Sample.project DecimalDegrees
           Sample2.batch_infinite out
           (Sample.xs Sample2.batch_infinite) (Sample.ys Sample2.batch_infinite)
           (str "WGS84") [] Sample.no_transform).
  - repeat constructor.
  - reflexivity.
  - reflexivity.
  - discriminate.
  - exact E.
Defined.

Lemma read_int_digits (k : Z) :
  0 <= k -> Sample2.read_int (int_to_str k) = Return k.
Proof.
  intros Hk. unfold Sample2.read_int.
  rewrite (RoundTripFacts.int_to_str_nonneg k Hk).
  rewrite DigitFacts.digits_value_nat_digits, Z2N.id by exact Hk.
  reflexivity.
Qed.

Lemma ui_zone_resolves_witness :
  exists code,
    get_input_epsg_code 50 (str "S") (str "DGN95") = Return code
    /\ resolve_transformer Sample2.read_int Sample2.make_same (str "DGN95")
         (Ui.input_zone 50 (str "S"))
       = Sample2.make_same code
    /\ fst (Ui.zone_range (str "DGN95")) <= Ui.default_zone (str "DGN95")
       <= snd (Ui.zone_range (str "DGN95")).
Proof.
  apply (PipelineMoreFacts.ui_zone_resolves Sample2.read_int
           Sample2.make_same (str "DGN95") (str "S") 50).
  - exact read_int_digits.
  - right. reflexivity.
  - cbn. lia.
  - left. reflexivity.
Defined.

Lemma process_keeps_metadata_witness :
  exists out,
    fst (Sample.process Sample.batch_three DecimalDegrees) = Return (Some out)
    /\ columns out = original_cols Sample.batch_three ++ output_columns
    /\ ~ In col_x (original_cols Sample.batch_three)
    /\ ~ In col_y (original_cols Sample.batch_three)
    /\ forall c vals,
         In c (original_cols Sample.batch_three) -> ~ In c output_columns ->
         get_column c Sample.batch_three = Return vals ->
         get_column c out
         = Return (mask_filter
                     (survivors Sample.numeric_of_text DecimalDegrees
                        Sample.no_transform
                        (Sample.xs Sample.batch_three)
                        (Sample.ys Sample.batch_three)) vals).
Proof.
  destruct (fst (Sample.process Sample.batch_three DecimalDegrees))
    as [[out|]|] eqn:E; try (vm_compute in E; discriminate E).
  exists out. split; [reflexivity |].
  apply (PipelineFacts.process_keeps_metadata Sample.numeric_of_text
           Sample.py_int Sample.float_of_text Sample.make_transformer
           Sample.project DecimalDegrees Sample.batch_three out
           (Sample.xs Sample.batch_three) (Sample.ys Sample.batch_three)
           (str "WGS84") [] Sample.no_transform).
  - repeat constructor.
  - reflexivity.
  - reflexivity.
  - discriminate.
  - exact E.
Defined.

End MoreWitnesses.
